(** * Persistence core of the financial risk analytics engine

    A shallow embedding of [src/models.py], [src/database.py],
    [src/db_init.py] and [config/settings.py]: the seven mapped tables with
    the constraints their column declarations carry, the engine and its
    connect-time listener, the session, and the maintenance operations.

    Conventions.
    - A Python [str] is a [string]; a [DateTime] is a [Z] (microseconds, UTC);
      a [Float] column is a binary64 float; a [JSON] column is its serialised
      text; a nullable column is an [option].
    - A table is the list of its rows in insertion order.
    - The store is SQLite, the backend of the default URL of
      [config/settings.py]: the value rules of its driver (64-bit integers,
      a NaN bound as NULL) and its messages are the ones modelled.
    - Effects (the committed store, the pool, the session, standard input,
      the log) live in a [World]; operations are functions in the monad [M],
      which also carries Python exceptions. *)

From Stdlib Require Import String Ascii List ZArith Bool Arith Lia.
From Stdlib Require Import Floats.PrimFloat.
Import ListNotations.
Open Scope string_scope.
Open Scope list_scope.

Set Implicit Arguments.

(** ** Strings as Python uses them *)

Definition Float : Type := PrimFloat.float.
Definition JSON : Type := string.
Definition DateTime : Type := Z.

(** [is_upper c]: [c] is one of the ASCII letters A-Z. *)
Definition is_upper (c : ascii) : bool :=
  let n := nat_of_ascii c in (65 <=? n)%nat && (n <=? 90)%nat.

Definition lower_ascii (c : ascii) : ascii :=
  if is_upper c then ascii_of_nat (nat_of_ascii c + 32) else c.

(** [str.lower()].  A string is the UTF-8 text; bytes outside A-Z are kept.
    (Python also maps non-ASCII capitals; none of them maps to one of the
    letters y, e, s, so comparisons with ["yes"] are not affected.) *)
Fixpoint lower (s : string) : string :=
  match s with
  | EmptyString => EmptyString
  | String c r => String (lower_ascii c) (lower r)
  end.

(** [needle in hay] on strings. *)
Fixpoint contains (needle hay : string) : bool :=
  String.prefix needle hay ||
  match hay with
  | EmptyString => false
  | String _ r => contains needle r
  end.

(** [x in l] on a list of strings. *)
Definition mem (x : string) (l : list string) : bool :=
  existsb (String.eqb x) l.

(** ** Enumerations of [models.py] *)

Inductive UserRole := ADMIN | ANALYST | VIEWER.

Inductive ModelType :=
  LINEAR_REGRESSION | RIDGE_REGRESSION | LASSO_REGRESSION | ARIMA | SARIMA.

Inductive ForecastType := REVENUE | EXPENSE | CASH_FLOW.

Definition UserRole_value (r : UserRole) : string :=
  match r with ADMIN => "admin" | ANALYST => "analyst" | VIEWER => "viewer" end.

Definition ModelType_value (m : ModelType) : string :=
  match m with
  | LINEAR_REGRESSION => "linear_regression"
  | RIDGE_REGRESSION => "ridge_regression"
  | LASSO_REGRESSION => "lasso_regression"
  | ARIMA => "arima"
  | SARIMA => "sarima"
  end.

Definition ForecastType_value (f : ForecastType) : string :=
  match f with REVENUE => "revenue" | EXPENSE => "expense" | CASH_FLOW => "cash_flow" end.

(** ** The mapped classes: one record per table row *)

Module User.
Record t := mk {
    id : string;
    username : string;
    email : string;
    hashed_password : string;
    full_name : option string;
    role : UserRole;
    is_active : bool;
    created_at : DateTime;
    updated_at : option DateTime
}.
Definition tablename := "users".
End User.

Module DataUpload.
Record t := mk {
    id : string;
    user_id : string;
    filename : string;
    data_type : string;
    row_count : Z;
    status : string;
    error_message : option string;
    schema_info : option JSON;
    created_at : DateTime;
    updated_at : option DateTime
}.
Definition tablename := "data_uploads".
End DataUpload.

Module TimeSeriesData.
Record t := mk {
    id : string;
    data_upload_id : string;
    timestamp : DateTime;
    value : Float;
    category : string;
    attributes : option JSON;
    created_at : DateTime
}.
Definition tablename := "timeseries_data".
End TimeSeriesData.

Module TrainedModel.
Record t := mk {
    id : string;
    user_id : string;
    model_name : string;
    model_type : ModelType;
    forecast_type : ForecastType;
    version : Z;
    model_path : string;
    mae : option Float;
    rmse : option Float;
    r2_score : option Float;
    mape : option Float;
    training_data_count : option Z;
    model_params : option JSON;
    is_active : bool;
    created_at : DateTime;
    updated_at : option DateTime
}.
Definition tablename := "trained_models".
(** [version = Column(Integer, default=1, nullable=False)] *)
Definition default_version : Z := 1.
End TrainedModel.

Module Forecast.
Record t := mk {
    id : string;
    model_id : string;
    forecast_date : DateTime;
    predicted_value : Float;
    lower_confidence_interval : option Float;
    upper_confidence_interval : option Float;
    actual_value : option Float;
    forecast_metadata : option JSON;
    created_at : DateTime
}.
Definition tablename := "forecasts".
End Forecast.

Module RiskMetrics.
Record t := mk {
    id : string;
    model_id : string;
    calculation_date : DateTime;
    volatility : option Float;
    var_95 : option Float;
    var_99 : option Float;
    cvar_95 : option Float;
    cvar_99 : option Float;
    sharpe_ratio : option Float;
    correlation_data : option JSON;
    scenario_data : option JSON;
    created_at : DateTime;
    updated_at : option DateTime
}.
Definition tablename := "risk_metrics".
End RiskMetrics.

Module KPIReport.
Record t := mk {
    id : string;
    model_id : string;
    report_date : DateTime;
    report_period_start : DateTime;
    report_period_end : DateTime;
    revenue_growth_rate : option Float;
    operating_margin : option Float;
    net_margin : option Float;
    forecast_accuracy : option Float;
    budget_variance : option Float;
    risk_adjusted_return : option Float;
    report_data : option JSON;
    created_at : DateTime
}.
Definition tablename := "kpi_reports".
End KPIReport.

(** A row of any table, as a session holds it before it is flushed. *)
Inductive Row :=
| RowUser (r : User.t)
| RowDataUpload (r : DataUpload.t)
| RowTimeSeriesData (r : TimeSeriesData.t)
| RowTrainedModel (r : TrainedModel.t)
| RowForecast (r : Forecast.t)
| RowRiskMetrics (r : RiskMetrics.t)
| RowKPIReport (r : KPIReport.t).

(** ** [Base.metadata]: the declared tables, their indexes and foreign keys *)

Record ForeignKey := {
  fk_column : string;
  fk_target : string;       (* parent table; the target column is its [id] *)
  fk_ondelete : string
}.

Record UniqueIndex := { ux_name : string; ux_column : string }.

Record TableDecl := {
  tablename : string;
  unique_indexes : list UniqueIndex;   (* [unique=True, index=True] columns *)
  plain_indexes : list string;         (* [index=True] columns and [Index(...)] *)
  foreign_key_decls : list ForeignKey
}.

Definition index_names (t : TableDecl) : list string :=
  map ux_name (unique_indexes t) ++ plain_indexes t.

Definition cascade_to (col parent : string) : ForeignKey :=
  {| fk_column := col; fk_target := parent; fk_ondelete := "CASCADE" |}.

Definition users_decl : TableDecl :=
  {| tablename := User.tablename;
     unique_indexes := [ {| ux_name := "ix_users_username"; ux_column := "username" |};
                         {| ux_name := "ix_users_email"; ux_column := "email" |} ];
     plain_indexes := ["idx_user_email"; "idx_user_username"];
     foreign_key_decls := [] |}.

Definition data_uploads_decl : TableDecl :=
  {| tablename := DataUpload.tablename;
     unique_indexes := [];
     plain_indexes := ["idx_upload_user_id"; "idx_upload_created_at"];
     foreign_key_decls := [cascade_to "user_id" User.tablename] |}.

Definition timeseries_data_decl : TableDecl :=
  {| tablename := TimeSeriesData.tablename;
     unique_indexes := [];
     plain_indexes := ["ix_timeseries_data_timestamp"; "idx_ts_upload_id";
                       "idx_ts_timestamp"; "idx_ts_category_timestamp"];
     foreign_key_decls := [cascade_to "data_upload_id" DataUpload.tablename] |}.

Definition trained_models_decl : TableDecl :=
  {| tablename := TrainedModel.tablename;
     unique_indexes := [];
     plain_indexes := ["idx_model_user_id"; "idx_model_name"; "idx_model_active"];
     foreign_key_decls := [cascade_to "user_id" User.tablename] |}.

Definition forecasts_decl : TableDecl :=
  {| tablename := Forecast.tablename;
     unique_indexes := [];
     plain_indexes := ["idx_forecast_model_id"; "idx_forecast_date"];
     foreign_key_decls := [cascade_to "model_id" TrainedModel.tablename] |}.

Definition risk_metrics_decl : TableDecl :=
  {| tablename := RiskMetrics.tablename;
     unique_indexes := [];
     plain_indexes := ["idx_risk_model_id"; "idx_risk_calculation_date"];
     foreign_key_decls := [cascade_to "model_id" TrainedModel.tablename] |}.

Definition kpi_reports_decl : TableDecl :=
  {| tablename := KPIReport.tablename;
     unique_indexes := [];
     plain_indexes := ["idx_kpi_model_id"; "idx_kpi_report_date"];
     foreign_key_decls := [cascade_to "model_id" TrainedModel.tablename] |}.

(** The tables of the seven mapped classes, in the order [models.py]
    declares them: what [Base.metadata] holds once [src.models] has been
    imported. *)
Definition metadata : list TableDecl :=
  [ users_decl; data_uploads_decl; timeseries_data_decl; trained_models_decl;
    forecasts_decl; risk_metrics_decl; kpi_reports_decl ].

(** ** Exceptions and results *)

Inductive ExcClass :=
| OperationalError          (* sqlalchemy.exc: store unreachable, missing table, bad SQL *)
| IntegrityError            (* sqlalchemy.exc: a constraint of the store is violated *)
| PendingRollbackError      (* sqlalchemy.exc: session used after a failed flush *)
| ObjectNotExecutableError  (* sqlalchemy.exc: a plain [str] passed to [execute] *)
| PoolTimeoutError          (* sqlalchemy.exc.TimeoutError: pool and overflow exhausted *)
| OverflowError             (* builtin: an integer that SQLite's INTEGER cannot hold *)
| HashingError              (* raised by the password hashing capability *)
| EOFError                  (* [input()] at end of input *)
| RuntimeError              (* any other subclass of [Exception] a caller raises *)
| KeyboardInterrupt         (* the three below derive from [BaseException] only *)
| SystemExit
| GeneratorExit.

Record exn := { exc_class : ExcClass; exc_msg : string }.

(** [isinstance(e, Exception)] *)
Definition is_Exception (e : exn) : bool :=
  match exc_class e with
  | KeyboardInterrupt | SystemExit | GeneratorExit => false
  | _ => true
  end.

(** [str(e)] *)
Definition str (e : exn) : string := exc_msg e.

Inductive Result (A : Type) :=
| Ok (a : A)
| Raise (e : exn).
Arguments Ok {A} a.
Arguments Raise {A} e.

Definition fail {A} (c : ExcClass) (m : string) : Result A :=
  Raise {| exc_class := c; exc_msg := m |}.

(** ** The store: which tables exist, and their rows *)

Record Database := {
  tables : list string;
  indexes : list string;
  users : list User.t;
  data_uploads : list DataUpload.t;
  timeseries_data : list TimeSeriesData.t;
  trained_models : list TrainedModel.t;
  forecasts : list Forecast.t;
  risk_metrics : list RiskMetrics.t;
  kpi_reports : list KPIReport.t
}.

Definition empty_database : Database :=
  {| tables := []; indexes := []; users := []; data_uploads := [];
     timeseries_data := []; trained_models := []; forecasts := [];
     risk_metrics := []; kpi_reports := [] |}.

Definition set_schema (ts ix : list string) (d : Database) : Database :=
  {| tables := ts; indexes := ix; users := users d; data_uploads := data_uploads d;
     timeseries_data := timeseries_data d; trained_models := trained_models d;
     forecasts := forecasts d; risk_metrics := risk_metrics d;
     kpi_reports := kpi_reports d |}.

Definition set_users (l : list User.t) (d : Database) : Database :=
  {| tables := tables d; indexes := indexes d; users := l; data_uploads := data_uploads d;
     timeseries_data := timeseries_data d; trained_models := trained_models d;
     forecasts := forecasts d; risk_metrics := risk_metrics d;
     kpi_reports := kpi_reports d |}.

Definition set_data_uploads (l : list DataUpload.t) (d : Database) : Database :=
  {| tables := tables d; indexes := indexes d; users := users d; data_uploads := l;
     timeseries_data := timeseries_data d; trained_models := trained_models d;
     forecasts := forecasts d; risk_metrics := risk_metrics d;
     kpi_reports := kpi_reports d |}.

Definition set_timeseries_data (l : list TimeSeriesData.t) (d : Database) : Database :=
  {| tables := tables d; indexes := indexes d; users := users d;
     data_uploads := data_uploads d; timeseries_data := l;
     trained_models := trained_models d; forecasts := forecasts d;
     risk_metrics := risk_metrics d; kpi_reports := kpi_reports d |}.

Definition set_trained_models (l : list TrainedModel.t) (d : Database) : Database :=
  {| tables := tables d; indexes := indexes d; users := users d;
     data_uploads := data_uploads d; timeseries_data := timeseries_data d;
     trained_models := l; forecasts := forecasts d;
     risk_metrics := risk_metrics d; kpi_reports := kpi_reports d |}.

Definition set_forecasts (l : list Forecast.t) (d : Database) : Database :=
  {| tables := tables d; indexes := indexes d; users := users d;
     data_uploads := data_uploads d; timeseries_data := timeseries_data d;
     trained_models := trained_models d; forecasts := l;
     risk_metrics := risk_metrics d; kpi_reports := kpi_reports d |}.

Definition set_risk_metrics (l : list RiskMetrics.t) (d : Database) : Database :=
  {| tables := tables d; indexes := indexes d; users := users d;
     data_uploads := data_uploads d; timeseries_data := timeseries_data d;
     trained_models := trained_models d; forecasts := forecasts d;
     risk_metrics := l; kpi_reports := kpi_reports d |}.

Definition set_kpi_reports (l : list KPIReport.t) (d : Database) : Database :=
  {| tables := tables d; indexes := indexes d; users := users d;
     data_uploads := data_uploads d; timeseries_data := timeseries_data d;
     trained_models := trained_models d; forecasts := forecasts d;
     risk_metrics := risk_metrics d; kpi_reports := l |}.

Definition has_table (d : Database) (name : string) : bool := mem name (tables d).

(** ** DDL: [MetaData.create_all] and [MetaData.drop_all]

    Both run with [checkfirst=True]: [create_all] takes the tables of the
    registry that the store does not have, [drop_all] those it has.  The
    tables taken are sorted by their foreign keys, parents first, and
    created in that order or dropped in the reverse order.  A table's
    indexes are created and dropped with it. *)

Definition remove_names (gone l : list string) : list string :=
  filter (fun x => negb (mem x gone)) l.

Definition create_table (t : TableDecl) (d : Database) : Database :=
  set_schema (tables d ++ [tablename t]) (indexes d ++ index_names t) d.

(** The rows of a dropped table go with it. *)
Definition truncate (name : string) (d : Database) : Database :=
  if name =? User.tablename then set_users [] d
  else if name =? DataUpload.tablename then set_data_uploads [] d
  else if name =? TimeSeriesData.tablename then set_timeseries_data [] d
  else if name =? TrainedModel.tablename then set_trained_models [] d
  else if name =? Forecast.tablename then set_forecasts [] d
  else if name =? RiskMetrics.tablename then set_risk_metrics [] d
  else if name =? KPIReport.tablename then set_kpi_reports [] d
  else d.

Definition drop_table (t : TableDecl) (d : Database) : Database :=
  truncate (tablename t)
    (set_schema (remove_names [tablename t] (tables d))
                (remove_names (index_names t) (indexes d)) d).

Definition create_tables (decls : list TableDecl) (d : Database) : Database :=
  fold_left (fun acc t => create_table t acc) decls d.

Definition drop_tables (decls : list TableDecl) (d : Database) : Database :=
  fold_left (fun acc t => drop_table t acc) decls d.

(** [t] has a foreign key to another table that is among [names]. *)
Definition waits_for (names : list string) (t : TableDecl) : bool :=
  existsb (fun fk => mem (fk_target fk) names && negb (fk_target fk =? tablename t))
          (foreign_key_decls t).

(** The topological sort of SQLAlchemy, level by level: first the tables
    that reference no other table of the list, in the order given, then the
    same on the rest.  (A cycle of foreign keys would leave no table ready;
    this schema has none, and the rest is then kept as it is.) *)
Fixpoint sort_levels (fuel : nat) (todo : list TableDecl) : list TableDecl :=
  match fuel with
  | 0 => todo
  | S fuel' =>
      match filter (fun t => negb (waits_for (map tablename todo) t)) todo with
      | [] => todo
      | ready =>
          ready ++ sort_levels fuel' (filter (waits_for (map tablename todo)) todo)
      end
  end.

Definition sort_tables (decls : list TableDecl) : list TableDecl :=
  sort_levels (length decls) decls.

(** The tables of the registry [md] that a [create_all] creates in the
    store [d], and those a [drop_all] drops, in the order it takes them. *)
Definition to_create (md : list TableDecl) (d : Database) : list TableDecl :=
  sort_tables (filter (fun t => negb (has_table d (tablename t))) md).

Definition to_drop (md : list TableDecl) (d : Database) : list TableDecl :=
  rev (sort_tables (filter (fun t => has_table d (tablename t)) md)).

Definition create_all (md : list TableDecl) (d : Database) : Database :=
  create_tables (to_create md d) d.

Definition drop_all (md : list TableDecl) (d : Database) : Database :=
  drop_tables (to_drop md d) d.

(** ** Settings and the engine's connections *)

Record Settings := {
  database_url : string;
  debug : bool
}.

(** The defaults of [config/settings.py]. *)
Definition default_settings : Settings :=
  {| database_url := "sqlite:///./forecasting.db"; debug := false |}.

(** The dialect of a URL [dialect+driver://...]: what stands before the
    first [+] or [:]. *)
Fixpoint dialect_name (url : string) : string :=
  match url with
  | EmptyString => EmptyString
  | String c r =>
      if (Ascii.eqb c ":" || Ascii.eqb c "+")%bool then EmptyString
      else String c (dialect_name r)
  end.

Definition is_sqlite_backend (url : string) : bool := dialect_name url =? "sqlite".

(** What matters of a DBAPI connection here: whether it enforces foreign
    keys.  SQLite has enforcement off on a new connection; the server
    backends always enforce. *)
Record dbapi_connection := { foreign_keys : bool }.

Definition dbapi_connect (url : string) : dbapi_connection :=
  {| foreign_keys := negb (is_sqlite_backend url) |}.

(** The ["connect"] listener of [database.py].  [PRAGMA] is SQLite's own
    statement: another backend rejects it. *)
Definition set_sqlite_pragma (s : Settings) (c : dbapi_connection)
  : Result dbapi_connection :=
  if contains "sqlite" (database_url s) then
    if is_sqlite_backend (database_url s)
    then Ok {| foreign_keys := true |}
    else fail OperationalError "syntax error at or near PRAGMA"
  else Ok c.

(** A new pooled connection: the DBAPI connect, then the listener. *)
Definition new_connection (s : Settings) : Result dbapi_connection :=
  set_sqlite_pragma s (dbapi_connect (database_url s)).

(** ** DML with the constraints of the schema

    [fk] is the connection's [foreign_keys] flag.  An INSERT is checked in
    the order SQLite and its driver work: the statement is prepared (the
    table must exist), the values are bound (an integer must fit 64 bits),
    then the NOT NULL columns, the unique indexes, the primary key and, when
    the statement ends, the foreign keys. *)

Definition no_such_table {A} (name : string) : Result A :=
  fail OperationalError (String.append "no such table: " name).

Definition unique_failed {A} (col : string) : Result A :=
  fail IntegrityError (String.append "UNIQUE constraint failed: " col).

Definition not_null_failed {A} (col : string) : Result A :=
  fail IntegrityError (String.append "NOT NULL constraint failed: " col).

Definition fk_failed {A} : Result A :=
  fail IntegrityError "FOREIGN KEY constraint failed".

Definition int_too_large {A} : Result A :=
  fail OverflowError "Python int too large to convert to SQLite INTEGER".

(** SQLite's INTEGER holds a signed 64-bit value. *)
Definition fits_int64 (z : Z) : bool := ((- 2 ^ 63 <=? z) && (z <? 2 ^ 63))%Z.

Definition fits_opt (z : option Z) : bool :=
  match z with Some n => fits_int64 n | None => true end.

(** The driver binds a NaN as NULL: in a nullable column the row is stored
    with NULL, in a NOT NULL column it is rejected. *)
Definition bind_float (x : option Float) : option Float :=
  match x with
  | Some f => if PrimFloat.is_nan f then None else Some f
  | None => None
  end.

Definition bind_trained_model (r : TrainedModel.t) : TrainedModel.t :=
  TrainedModel.mk (TrainedModel.id r) (TrainedModel.user_id r) (TrainedModel.model_name r)
    (TrainedModel.model_type r) (TrainedModel.forecast_type r) (TrainedModel.version r)
    (TrainedModel.model_path r) (bind_float (TrainedModel.mae r))
    (bind_float (TrainedModel.rmse r)) (bind_float (TrainedModel.r2_score r))
    (bind_float (TrainedModel.mape r)) (TrainedModel.training_data_count r)
    (TrainedModel.model_params r) (TrainedModel.is_active r) (TrainedModel.created_at r)
    (TrainedModel.updated_at r).

Definition bind_forecast (r : Forecast.t) : Forecast.t :=
  Forecast.mk (Forecast.id r) (Forecast.model_id r) (Forecast.forecast_date r)
    (Forecast.predicted_value r) (bind_float (Forecast.lower_confidence_interval r))
    (bind_float (Forecast.upper_confidence_interval r))
    (bind_float (Forecast.actual_value r)) (Forecast.forecast_metadata r)
    (Forecast.created_at r).

Definition bind_risk_metrics (r : RiskMetrics.t) : RiskMetrics.t :=
  RiskMetrics.mk (RiskMetrics.id r) (RiskMetrics.model_id r)
    (RiskMetrics.calculation_date r) (bind_float (RiskMetrics.volatility r))
    (bind_float (RiskMetrics.var_95 r)) (bind_float (RiskMetrics.var_99 r))
    (bind_float (RiskMetrics.cvar_95 r)) (bind_float (RiskMetrics.cvar_99 r))
    (bind_float (RiskMetrics.sharpe_ratio r)) (RiskMetrics.correlation_data r)
    (RiskMetrics.scenario_data r) (RiskMetrics.created_at r) (RiskMetrics.updated_at r).

Definition bind_kpi_report (r : KPIReport.t) : KPIReport.t :=
  KPIReport.mk (KPIReport.id r) (KPIReport.model_id r) (KPIReport.report_date r)
    (KPIReport.report_period_start r) (KPIReport.report_period_end r)
    (bind_float (KPIReport.revenue_growth_rate r))
    (bind_float (KPIReport.operating_margin r)) (bind_float (KPIReport.net_margin r))
    (bind_float (KPIReport.forecast_accuracy r))
    (bind_float (KPIReport.budget_variance r))
    (bind_float (KPIReport.risk_adjusted_return r)) (KPIReport.report_data r)
    (KPIReport.created_at r).

(** A reference passes when enforcement is off or the parent row exists. *)
Definition fk_ok (fk : bool) (ref : string) (parent_ids : list string) : bool :=
  negb fk || mem ref parent_ids.

(** The unique indexes of [users] are checked before its primary key.
    (Which of the two indexes SQLite names when both the username and the
    email are taken depends on the order in which they were created; the
    username is taken first here.) *)
Definition insert_user (d : Database) (u : User.t) : Result Database :=
  if negb (has_table d User.tablename) then no_such_table User.tablename
  else if mem (User.username u) (map User.username (users d))
       then unique_failed "users.username"
  else if mem (User.email u) (map User.email (users d)) then unique_failed "users.email"
  else if mem (User.id u) (map User.id (users d)) then unique_failed "users.id"
  else Ok (set_users (users d ++ [u]) d).

Definition insert_data_upload (fk : bool) (d : Database) (r : DataUpload.t)
  : Result Database :=
  if negb (has_table d DataUpload.tablename) then no_such_table DataUpload.tablename
  else if negb (fits_int64 (DataUpload.row_count r)) then int_too_large
  else if mem (DataUpload.id r) (map DataUpload.id (data_uploads d))
       then unique_failed "data_uploads.id"
  else if negb (fk_ok fk (DataUpload.user_id r) (map User.id (users d))) then fk_failed
  else Ok (set_data_uploads (data_uploads d ++ [r]) d).

Definition insert_timeseries_data (fk : bool) (d : Database) (r : TimeSeriesData.t)
  : Result Database :=
  if negb (has_table d TimeSeriesData.tablename)
  then no_such_table TimeSeriesData.tablename
  else if PrimFloat.is_nan (TimeSeriesData.value r)
       then not_null_failed "timeseries_data.value"
  else if mem (TimeSeriesData.id r) (map TimeSeriesData.id (timeseries_data d))
       then unique_failed "timeseries_data.id"
  else if negb (fk_ok fk (TimeSeriesData.data_upload_id r)
                      (map DataUpload.id (data_uploads d))) then fk_failed
  else Ok (set_timeseries_data (timeseries_data d ++ [r]) d).

(** No uniqueness is declared on [trained_models] beyond the primary key:
    its [__table_args__] holds three plain indexes. *)
Definition insert_trained_model (fk : bool) (d : Database) (r : TrainedModel.t)
  : Result Database :=
  if negb (has_table d TrainedModel.tablename) then no_such_table TrainedModel.tablename
  else if negb (fits_int64 (TrainedModel.version r) &&
                fits_opt (TrainedModel.training_data_count r)) then int_too_large
  else if mem (TrainedModel.id r) (map TrainedModel.id (trained_models d))
       then unique_failed "trained_models.id"
  else if negb (fk_ok fk (TrainedModel.user_id r) (map User.id (users d))) then fk_failed
  else Ok (set_trained_models (trained_models d ++ [bind_trained_model r]) d).

Definition insert_forecast (fk : bool) (d : Database) (r : Forecast.t)
  : Result Database :=
  if negb (has_table d Forecast.tablename) then no_such_table Forecast.tablename
  else if PrimFloat.is_nan (Forecast.predicted_value r)
       then not_null_failed "forecasts.predicted_value"
  else if mem (Forecast.id r) (map Forecast.id (forecasts d))
       then unique_failed "forecasts.id"
  else if negb (fk_ok fk (Forecast.model_id r) (map TrainedModel.id (trained_models d)))
       then fk_failed
  else Ok (set_forecasts (forecasts d ++ [bind_forecast r]) d).

Definition insert_risk_metrics (fk : bool) (d : Database) (r : RiskMetrics.t)
  : Result Database :=
  if negb (has_table d RiskMetrics.tablename) then no_such_table RiskMetrics.tablename
  else if mem (RiskMetrics.id r) (map RiskMetrics.id (risk_metrics d))
       then unique_failed "risk_metrics.id"
  else if negb (fk_ok fk (RiskMetrics.model_id r) (map TrainedModel.id (trained_models d)))
       then fk_failed
  else Ok (set_risk_metrics (risk_metrics d ++ [bind_risk_metrics r]) d).

Definition insert_kpi_report (fk : bool) (d : Database) (r : KPIReport.t)
  : Result Database :=
  if negb (has_table d KPIReport.tablename) then no_such_table KPIReport.tablename
  else if mem (KPIReport.id r) (map KPIReport.id (kpi_reports d))
       then unique_failed "kpi_reports.id"
  else if negb (fk_ok fk (KPIReport.model_id r) (map TrainedModel.id (trained_models d)))
       then fk_failed
  else Ok (set_kpi_reports (kpi_reports d ++ [bind_kpi_report r]) d).

Definition insert_row (fk : bool) (d : Database) (r : Row) : Result Database :=
  match r with
  | RowUser u => insert_user d u
  | RowDataUpload x => insert_data_upload fk d x
  | RowTimeSeriesData x => insert_timeseries_data fk d x
  | RowTrainedModel x => insert_trained_model fk d x
  | RowForecast x => insert_forecast fk d x
  | RowRiskMetrics x => insert_risk_metrics fk d x
  | RowKPIReport x => insert_kpi_report fk d x
  end.

(** *** DELETE, with [ON DELETE CASCADE] on every foreign key

    A delete removes the rows that satisfy [p]; when the connection enforces
    foreign keys, the rows of each child table that reference a removed row
    go too, and so on down. *)

Definition delete_data_uploads_where (fk : bool) (p : DataUpload.t -> bool)
  (d : Database) : Database :=
  let gone := map DataUpload.id (filter p (data_uploads d)) in
  let d1 := set_data_uploads (filter (fun r => negb (p r)) (data_uploads d)) d in
  if fk then
    set_timeseries_data
      (filter (fun r => negb (mem (TimeSeriesData.data_upload_id r) gone))
              (timeseries_data d1)) d1
  else d1.

Definition delete_trained_models_where (fk : bool) (p : TrainedModel.t -> bool)
  (d : Database) : Database :=
  let gone := map TrainedModel.id (filter p (trained_models d)) in
  let d1 := set_trained_models (filter (fun r => negb (p r)) (trained_models d)) d in
  if fk then
    set_kpi_reports
      (filter (fun r => negb (mem (KPIReport.model_id r) gone)) (kpi_reports d1))
      (set_risk_metrics
         (filter (fun r => negb (mem (RiskMetrics.model_id r) gone)) (risk_metrics d1))
         (set_forecasts
            (filter (fun r => negb (mem (Forecast.model_id r) gone)) (forecasts d1))
            d1))
  else d1.

Definition delete_users_where (fk : bool) (p : User.t -> bool) (d : Database)
  : Database :=
  let gone := map User.id (filter p (users d)) in
  let d1 := set_users (filter (fun r => negb (p r)) (users d)) d in
  if fk then
    delete_trained_models_where fk (fun m => mem (TrainedModel.user_id m) gone)
      (delete_data_uploads_where fk (fun r => mem (DataUpload.user_id r) gone) d1)
  else d1.

Definition delete_user (fk : bool) (d : Database) (uid : string) : Result Database :=
  if negb (has_table d User.tablename) then no_such_table User.tablename
  else Ok (delete_users_where fk (fun u => User.id u =? uid) d).

Definition delete_data_upload (fk : bool) (d : Database) (i : string) : Result Database :=
  if negb (has_table d DataUpload.tablename) then no_such_table DataUpload.tablename
  else Ok (delete_data_uploads_where fk (fun r => DataUpload.id r =? i) d).

Definition delete_trained_model (fk : bool) (d : Database) (i : string)
  : Result Database :=
  if negb (has_table d TrainedModel.tablename) then no_such_table TrainedModel.tablename
  else Ok (delete_trained_models_where fk (fun r => TrainedModel.id r =? i) d).

Definition delete_timeseries_data (d : Database) (i : string) : Result Database :=
  if negb (has_table d TimeSeriesData.tablename)
  then no_such_table TimeSeriesData.tablename
  else Ok (set_timeseries_data
             (filter (fun r => negb (TimeSeriesData.id r =? i)) (timeseries_data d)) d).

Definition delete_forecast (d : Database) (i : string) : Result Database :=
  if negb (has_table d Forecast.tablename) then no_such_table Forecast.tablename
  else Ok (set_forecasts (filter (fun r => negb (Forecast.id r =? i)) (forecasts d)) d).

Definition delete_risk_metrics (d : Database) (i : string) : Result Database :=
  if negb (has_table d RiskMetrics.tablename) then no_such_table RiskMetrics.tablename
  else Ok (set_risk_metrics
             (filter (fun r => negb (RiskMetrics.id r =? i)) (risk_metrics d)) d).

Definition delete_kpi_report (d : Database) (i : string) : Result Database :=
  if negb (has_table d KPIReport.tablename) then no_such_table KPIReport.tablename
  else Ok (set_kpi_reports
             (filter (fun r => negb (KPIReport.id r =? i)) (kpi_reports d)) d).

(** *** UPDATE *)

(** [UPDATE users SET ... WHERE id = u.id]: the row with [u]'s key becomes
    [u]; the unique indexes are checked against the other rows. *)
Definition update_user (d : Database) (u : User.t) : Result Database :=
  if negb (has_table d User.tablename) then no_such_table User.tablename
  else
    let others := filter (fun x => negb (User.id x =? User.id u)) (users d) in
    if mem (User.username u) (map User.username others)
    then unique_failed "users.username"
    else if mem (User.email u) (map User.email others) then unique_failed "users.email"
    else Ok (set_users (map (fun x => if User.id x =? User.id u then u else x) (users d)) d).

Definition with_actual_value (v : option Float) (f : Forecast.t) : Forecast.t :=
  Forecast.mk (Forecast.id f) (Forecast.model_id f) (Forecast.forecast_date f)
    (Forecast.predicted_value f) (Forecast.lower_confidence_interval f)
    (Forecast.upper_confidence_interval f) v (Forecast.forecast_metadata f)
    (Forecast.created_at f).

(** The backtesting write: [actual_value] of one forecast. *)
Definition set_actual_value (d : Database) (i : string) (v : option Float)
  : Result Database :=
  if negb (has_table d Forecast.tablename) then no_such_table Forecast.tablename
  else Ok (set_forecasts
             (map (fun f => if Forecast.id f =? i
                            then with_actual_value (bind_float v) f else f)
                  (forecasts d)) d).

(** ** Statements a connection executes

    A row statement is what a unit of work sends on the connection of its
    session.  The schema statements are those of [create_all] and [drop_all]
    with the seven mapped classes registered; they go through the engine. *)

Inductive RowStatement :=
| Insert (r : Row)
| UpdateUser (u : User.t)
| SetActualValue (i : string) (v : option Float)
| DeleteUser (i : string)
| DeleteDataUpload (i : string)
| DeleteTimeSeriesData (i : string)
| DeleteTrainedModel (i : string)
| DeleteForecast (i : string)
| DeleteRiskMetrics (i : string)
| DeleteKPIReport (i : string).

Inductive Statement :=
| CreateAll
| DropAll
| OnRows (q : RowStatement).

Coercion OnRows : RowStatement >-> Statement.

Definition execute_rows (c : dbapi_connection) (d : Database) (q : RowStatement)
  : Result Database :=
  let fk := foreign_keys c in
  match q with
  | Insert r => insert_row fk d r
  | UpdateUser u => update_user d u
  | SetActualValue i v => set_actual_value d i v
  | DeleteUser i => delete_user fk d i
  | DeleteDataUpload i => delete_data_upload fk d i
  | DeleteTimeSeriesData i => delete_timeseries_data d i
  | DeleteTrainedModel i => delete_trained_model fk d i
  | DeleteForecast i => delete_forecast d i
  | DeleteRiskMetrics i => delete_risk_metrics d i
  | DeleteKPIReport i => delete_kpi_report d i
  end.

Definition execute (c : dbapi_connection) (d : Database) (st : Statement)
  : Result Database :=
  match st with
  | CreateAll => Ok (create_all metadata d)
  | DropAll => Ok (drop_all metadata d)
  | OnRows q => execute_rows c d q
  end.

(** The stores the engine of [database.py] can produce: from the empty store,
    any sequence of statements, each on a connection the engine opened. *)
Inductive reachable (s : Settings) : Database -> Prop :=
| reach_empty : reachable s empty_database
| reach_step : forall d c st d',
    reachable s d ->
    new_connection s = Ok c ->
    execute c d st = Ok d' ->
    reachable s d'.

(** ** Integrity of a store, as decidable checks *)

(** Every reference is the key of a parent row. *)
Definition refs_ok (refs parents : list string) : bool :=
  forallb (fun r => mem r parents) refs.

(** One conjunct per foreign key of the schema. *)
Definition no_orphans (d : Database) : bool :=
  refs_ok (map DataUpload.user_id (data_uploads d)) (map User.id (users d)) &&
  refs_ok (map TimeSeriesData.data_upload_id (timeseries_data d))
          (map DataUpload.id (data_uploads d)) &&
  refs_ok (map TrainedModel.user_id (trained_models d)) (map User.id (users d)) &&
  refs_ok (map Forecast.model_id (forecasts d)) (map TrainedModel.id (trained_models d)) &&
  refs_ok (map RiskMetrics.model_id (risk_metrics d))
          (map TrainedModel.id (trained_models d)) &&
  refs_ok (map KPIReport.model_id (kpi_reports d)) (map TrainedModel.id (trained_models d)).

Fixpoint distinct (l : list string) : bool :=
  match l with
  | [] => true
  | x :: r => negb (mem x r) && distinct r
  end.

Definition count_where {A} (p : A -> bool) (l : list A) : nat := length (filter p l).

Definition users_named (name : string) (d : Database) : nat :=
  count_where (fun u => User.username u =? name) (users d).

Definition users_with_email (e : string) (d : Database) : nat :=
  count_where (fun u => User.email u =? e) (users d).

(** The unique indexes and the primary key of [users]. *)
Definition users_unique (d : Database) : bool :=
  distinct (map User.id (users d)) &&
  distinct (map User.username (users d)) &&
  distinct (map User.email (users d)).

(** Rows with the same (owner, model_name, version). *)
Definition same_version (a b : TrainedModel.t) : bool :=
  (TrainedModel.user_id a =? TrainedModel.user_id b) &&
  (TrainedModel.model_name a =? TrainedModel.model_name b) &&
  (TrainedModel.version a =? TrainedModel.version b)%Z.

Definition versions_stored (m : TrainedModel.t) (d : Database) : nat :=
  count_where (same_version m) (trained_models d).

(** Number of rows of the table called [name]. *)
Definition row_count (name : string) (d : Database) : nat :=
  if name =? User.tablename then length (users d)
  else if name =? DataUpload.tablename then length (data_uploads d)
  else if name =? TimeSeriesData.tablename then length (timeseries_data d)
  else if name =? TrainedModel.tablename then length (trained_models d)
  else if name =? Forecast.tablename then length (forecasts d)
  else if name =? RiskMetrics.tablename then length (risk_metrics d)
  else if name =? KPIReport.tablename then length (kpi_reports d)
  else 0.

Definition table_names : list string := map tablename metadata.

(** ** The world the operations run in *)

Inductive Level := INFO | SUCCESS | WARNING | ERROR.

(** What an operation does that can be observed from outside. *)
Inductive Event :=
| Logged (lvl : Level) (msg : string)    (* a [logger] call *)
| Prompted (prompt : string)             (* [input(prompt)] *)
| Hashed (plaintext : string)            (* [pwd_context.hash(plaintext)] *)
| CheckedOut                             (* a connection leaves the pool *)
| Released                               (* a connection returns to the pool *)
| CreatedTables (names : list string)    (* the tables a [create_all] created *)
| DroppedTables (names : list string)    (* the tables a [drop_all] dropped *)
| Committed                              (* [Session.commit] *)
| RolledBack                             (* [Session.rollback] *)
| Closed.                                (* [Session.close] *)

(** A session's open transaction: its connection and the store as the
    transaction sees it. *)
Record Transaction := {
  conn : dbapi_connection;
  view : Database
}.

(** [new]: objects added and not yet flushed.  [inactive]: a flush failed
    and the session waits for [rollback]. *)
Record Session := {
  new : list Row;
  transaction : option Transaction;
  inactive : bool
}.

Definition fresh_session : Session :=
  {| new := []; transaction := None; inactive := false |}.

(** What the code is given and does not change. *)
Record Env := {
  settings : Settings;
  store_up : bool;                              (* the store accepts connections *)
  execute_accepts_str : bool;                   (* [Connection.execute] takes a plain [str] *)
  pwd_context_hash : string -> Result string;   (* the bcrypt [CryptContext] *)
  uuid4 : nat -> string;                        (* the n-th identifier drawn *)
  utcnow : DateTime
}.

(** [log] holds the newest event first.  [models_imported]: [src.models]
    has been imported in the running process, so its seven classes are
    registered on [Base.metadata]. *)
Record World := {
  env : Env;
  stdin : list string;
  uuids_drawn : nat;
  models_imported : bool;
  database : Database;        (* the committed store *)
  checked_out : nat;          (* connections out of the pool *)
  session : Session;
  log : list Event
}.

Definition set_stdin (l : list string) (w : World) : World :=
  {| env := env w; stdin := l; uuids_drawn := uuids_drawn w;
     models_imported := models_imported w; database := database w;
     checked_out := checked_out w; session := session w; log := log w |}.

Definition set_uuids_drawn (n : nat) (w : World) : World :=
  {| env := env w; stdin := stdin w; uuids_drawn := n;
     models_imported := models_imported w; database := database w;
     checked_out := checked_out w; session := session w; log := log w |}.

Definition set_models_imported (b : bool) (w : World) : World :=
  {| env := env w; stdin := stdin w; uuids_drawn := uuids_drawn w;
     models_imported := b; database := database w;
     checked_out := checked_out w; session := session w; log := log w |}.

Definition set_database (d : Database) (w : World) : World :=
  {| env := env w; stdin := stdin w; uuids_drawn := uuids_drawn w;
     models_imported := models_imported w; database := d;
     checked_out := checked_out w; session := session w; log := log w |}.

Definition set_checked_out (n : nat) (w : World) : World :=
  {| env := env w; stdin := stdin w; uuids_drawn := uuids_drawn w;
     models_imported := models_imported w; database := database w;
     checked_out := n; session := session w; log := log w |}.

Definition set_session (s : Session) (w : World) : World :=
  {| env := env w; stdin := stdin w; uuids_drawn := uuids_drawn w;
     models_imported := models_imported w; database := database w;
     checked_out := checked_out w; session := s; log := log w |}.

Definition add_event (e : Event) (w : World) : World :=
  {| env := env w; stdin := stdin w; uuids_drawn := uuids_drawn w;
     models_imported := models_imported w; database := database w;
     checked_out := checked_out w; session := session w; log := e :: log w |}.

(** ** The monad of operations: state and exceptions *)

Definition M (A : Type) : Type := World -> Result A * World.

Definition ret {A} (a : A) : M A := fun w => (Ok a, w).

Definition raise {A} (e : exn) : M A := fun w => (Raise e, w).

Definition throw {A} (c : ExcClass) (m : string) : M A :=
  raise {| exc_class := c; exc_msg := m |}.

Definition bind {A B} (m : M A) (k : A -> M B) : M B :=
  fun w =>
    match m w with
    | (Ok a, w1) => k a w1
    | (Raise e, w1) => (Raise e, w1)
    end.

Declare Scope monad_scope.
Delimit Scope monad_scope with monad.
Notation "x <- c1 ;; c2" := (bind c1 (fun x => c2))
  (at level 61, c1 at next level, right associativity) : monad_scope.
Notation "c1 ;; c2" := (bind c1 (fun _ => c2))
  (at level 61, right associativity) : monad_scope.
Open Scope monad_scope.

(** [try: body / except Exception as e: handler e]: only instances of
    [Exception] are caught. *)
Definition try_except {A} (body : M A) (handler : exn -> M A) : M A :=
  fun w =>
    match body w with
    | (Ok a, w1) => (Ok a, w1)
    | (Raise e, w1) => if is_Exception e then handler e w1 else (Raise e, w1)
    end.

(** [try: body / finally: final]: [final] runs on every exit of [body]; the
    result of [body] stands unless [final] itself raises. *)
Definition try_finally {A} (body : M A) (final : M unit) : M A :=
  fun w =>
    match body w with
    | (r, w1) =>
        match final w1 with
        | (Ok _, w2) => (r, w2)
        | (Raise e, w2) => (Raise e, w2)
        end
    end.

Definition get : M World := fun w => (Ok w, w).

Definition modify (f : World -> World) : M unit := fun w => (Ok tt, f w).

Definition lift {A} (r : Result A) : M A := fun w => (r, w).

Definition emit (e : Event) : M unit := modify (add_event e).

(** [logger.info], [logger.success], [logger.warning], [logger.error] *)
Definition logger (lvl : Level) (msg : string) : M unit := emit (Logged lvl msg).

(** [input(prompt)] *)
Definition input (prompt : string) : M string :=
  emit (Prompted prompt) ;;
  w <- get ;;
  match stdin w with
  | [] => throw EOFError "EOF when reading a line"
  | line :: rest => modify (set_stdin rest) ;; ret line
  end.

(** ** The engine of [database.py]: a [QueuePool] of 10 with 20 overflow *)

Definition pool_size : nat := 10.
Definition max_overflow : nat := 20.

(** Check a connection out.  The pool refuses beyond its capacity; otherwise
    the store must answer and the connect listener must succeed. *)
Definition pool_checkout : M dbapi_connection :=
  w <- get ;;
  if (pool_size + max_overflow <=? checked_out w)%nat
  then throw PoolTimeoutError "QueuePool limit of size 10 overflow 20 reached"
  else if negb (store_up (env w))
  then throw OperationalError "unable to connect to the database"
  else
    c <- lift (new_connection (settings (env w))) ;;
    modify (fun w => set_checked_out (S (checked_out w)) w) ;;
    emit CheckedOut ;;
    ret c.

Definition pool_release : M unit :=
  modify (fun w => set_checked_out (pred (checked_out w)) w) ;;
  emit Released.

(** [with engine.connect() as connection: body connection] *)
Definition with_connection {A} (body : dbapi_connection -> M A) : M A :=
  c <- pool_checkout ;;
  try_finally (body c) pool_release.

(** [Base.metadata]: a mapped class registers its table when its module
    is executed.  The seven classes are those of [src/models.py]: the
    registry holds their tables once [src.models] has been imported in the
    process, and no table before. *)
Definition Base_metadata (w : World) : list TableDecl :=
  if models_imported w then metadata else [].

(** [from src.models import ...] *)
Definition import_models : M unit := modify (set_models_imported true).

(** [Base.metadata.create_all(bind=engine)]: on a connection of the engine,
    for the tables registered when it is called; the engine commits the
    work. *)
Definition metadata_create_all : M unit :=
  with_connection (fun _ =>
    w <- get ;;
    modify (set_database (create_all (Base_metadata w) (database w))) ;;
    emit (CreatedTables (map tablename (to_create (Base_metadata w) (database w))))).

(** [Base.metadata.drop_all(bind=engine)] *)
Definition metadata_drop_all : M unit :=
  with_connection (fun _ =>
    w <- get ;;
    modify (set_database (drop_all (Base_metadata w) (database w))) ;;
    emit (DroppedTables (map tablename (to_drop (Base_metadata w) (database w))))).

(** [Connection.execute("SELECT 1")] with a plain string. *)
Definition connection_execute_str (sql : string) : M unit :=
  w <- get ;;
  if execute_accepts_str (env w) then ret tt
  else throw ObjectNotExecutableError (String.append "Not an executable object: " sql).

(** ** The session ([SessionLocal]: no autocommit, no autoflush) *)

Definition SessionLocal : M unit := modify (set_session fresh_session).

Definition put_session (s : Session) : M unit := modify (set_session s).

Definition pending_rollback {A} : M A :=
  throw PendingRollbackError
    "This Session's transaction has been rolled back due to a previous exception during flush.".

(** The transaction of the session, begun on first use: a connection is
    checked out and the transaction sees the committed store. *)
Definition session_begin : M Transaction :=
  w <- get ;;
  if inactive (session w) then pending_rollback
  else
    match transaction (session w) with
    | Some t => ret t
    | None =>
        c <- pool_checkout ;;
        w <- get ;;
        let t := {| conn := c; view := database w |} in
        put_session {| new := new (session w); transaction := Some t;
                       inactive := false |} ;;
        ret t
    end.

(** [db.add(obj)]: the object is pending as handed over; its unset columns
    are filled when it is flushed. *)
Definition session_add (r : Row) : M unit :=
  modify (fun w =>
    set_session {| new := new (session w) ++ [r];
                   transaction := transaction (session w);
                   inactive := inactive (session w) |} w).

(** A column left unset is filled from its [default] when the row is
    inserted.  A row here has every attribute but [updated_at] set (the other
    defaults are on columns that are not nullable); [updated_at] has
    [default=datetime.utcnow] in the four classes that declare it. *)
Definition default_to (now : DateTime) (x : option DateTime) : option DateTime :=
  match x with Some t => Some t | None => Some now end.

Definition with_defaults (now : DateTime) (r : Row) : Row :=
  match r with
  | RowUser u =>
      RowUser (User.mk (User.id u) (User.username u) (User.email u)
                 (User.hashed_password u) (User.full_name u) (User.role u)
                 (User.is_active u) (User.created_at u)
                 (default_to now (User.updated_at u)))
  | RowDataUpload x =>
      RowDataUpload
        (DataUpload.mk (DataUpload.id x) (DataUpload.user_id x) (DataUpload.filename x)
           (DataUpload.data_type x) (DataUpload.row_count x) (DataUpload.status x)
           (DataUpload.error_message x) (DataUpload.schema_info x)
           (DataUpload.created_at x) (default_to now (DataUpload.updated_at x)))
  | RowTrainedModel x =>
      RowTrainedModel
        (TrainedModel.mk (TrainedModel.id x) (TrainedModel.user_id x)
           (TrainedModel.model_name x) (TrainedModel.model_type x)
           (TrainedModel.forecast_type x) (TrainedModel.version x)
           (TrainedModel.model_path x) (TrainedModel.mae x) (TrainedModel.rmse x)
           (TrainedModel.r2_score x) (TrainedModel.mape x)
           (TrainedModel.training_data_count x) (TrainedModel.model_params x)
           (TrainedModel.is_active x) (TrainedModel.created_at x)
           (default_to now (TrainedModel.updated_at x)))
  | RowRiskMetrics x =>
      RowRiskMetrics
        (RiskMetrics.mk (RiskMetrics.id x) (RiskMetrics.model_id x)
           (RiskMetrics.calculation_date x) (RiskMetrics.volatility x)
           (RiskMetrics.var_95 x) (RiskMetrics.var_99 x) (RiskMetrics.cvar_95 x)
           (RiskMetrics.cvar_99 x) (RiskMetrics.sharpe_ratio x)
           (RiskMetrics.correlation_data x) (RiskMetrics.scenario_data x)
           (RiskMetrics.created_at x) (default_to now (RiskMetrics.updated_at x)))
  | RowTimeSeriesData _ | RowForecast _ | RowKPIReport _ => r
  end.

(** The mapped classes by name, as the unit of work sorts them. *)
Definition mapper_rank (r : Row) : nat :=
  match r with
  | RowDataUpload _ => 0
  | RowForecast _ => 1
  | RowKPIReport _ => 2
  | RowRiskMetrics _ => 3
  | RowTimeSeriesData _ => 4
  | RowTrainedModel _ => 5
  | RowUser _ => 6
  end.

Definition is_user (r : Row) : bool := match r with RowUser _ => true | _ => false end.
Definition is_data_upload (r : Row) : bool :=
  match r with RowDataUpload _ => true | _ => false end.
Definition is_trained_model (r : Row) : bool :=
  match r with RowTrainedModel _ => true | _ => false end.

(** How far down a class stands among the classes being flushed.  A class
    waits for another only through a [relationship()]: [DataUpload] and
    [TrainedModel] for [User], [TimeSeriesData] for [DataUpload], [Forecast]
    for [TrainedModel], and only when rows of that class are flushed too.
    [RiskMetrics] and [KPIReport] declare no relationship and wait for
    nothing. *)
Definition flush_level (rows : list Row) (r : Row) : nat :=
  let below_user := if existsb is_user rows then 1 else 0 in
  match r with
  | RowUser _ | RowRiskMetrics _ | RowKPIReport _ => 0
  | RowDataUpload _ | RowTrainedModel _ => below_user
  | RowTimeSeriesData _ => if existsb is_data_upload rows then S below_user else 0
  | RowForecast _ => if existsb is_trained_model rows then S below_user else 0
  end.

(** The order in which a flush inserts: level by level; within a level
    class by class, by class name; within a class in the order added. *)
Definition flush_order (rows : list Row) : list Row :=
  flat_map (fun lv =>
    flat_map (fun k =>
      filter (fun r => (flush_level rows r =? lv)%nat && (mapper_rank r =? k)%nat) rows)
      (seq 0 7))
    (seq 0 3).

Fixpoint insert_rows (fk : bool) (d : Database) (rows : list Row) : Result Database :=
  match rows with
  | [] => Ok d
  | r :: rest =>
      match insert_row fk d r with
      | Ok d1 => insert_rows fk d1 rest
      | Raise e => Raise e
      end
  end.

(** [db.flush()]: a failing INSERT leaves the session inactive and the
    error goes to the caller. *)
Definition session_flush : M unit :=
  w <- get ;;
  if inactive (session w) then pending_rollback
  else
    match new (session w) with
    | [] => ret tt
    | _ :: _ =>
        t <- session_begin ;;
        w <- get ;;
        match insert_rows (foreign_keys (conn t)) (view t)
                (flush_order (map (with_defaults (utcnow (env w))) (new (session w)))) with
        | Ok v =>
            put_session {| new := [];
                           transaction := Some {| conn := conn t; view := v |};
                           inactive := false |}
        | Raise e =>
            put_session {| new := new (session w);
                           transaction := transaction (session w);
                           inactive := true |} ;;
            raise e
        end
    end.

(** A row statement of the unit of work, inside the session's transaction. *)
Definition session_execute (st : RowStatement) : M unit :=
  t <- session_begin ;;
  v <- lift (execute_rows (conn t) (view t) st) ;;
  w <- get ;;
  put_session {| new := new (session w);
                 transaction := Some {| conn := conn t; view := v |};
                 inactive := false |}.

(** End the transaction, if one is open, and give the connection back. *)
Definition end_transaction : M unit :=
  w <- get ;;
  match transaction (session w) with
  | Some _ => put_session fresh_session ;; pool_release
  | None => put_session fresh_session
  end.

(** [db.commit()]: flush, then the transaction's view becomes the store. *)
Definition session_commit : M unit :=
  session_flush ;;
  w <- get ;;
  match transaction (session w) with
  | Some t => modify (set_database (view t)) | None => ret tt
  end ;;
  end_transaction ;;
  emit Committed.

(** [db.rollback()] *)
Definition session_rollback : M unit := end_transaction ;; emit RolledBack.

(** [db.close()]: whatever is not committed is dropped. *)
Definition session_close : M unit := end_transaction ;; emit Closed.

(** [db.query(User).filter(User.username == name).first()] *)
Definition query_user_by_username (name : string) : M (option User.t) :=
  t <- session_begin ;;
  if has_table (view t) User.tablename
  then ret (find (fun u => User.username u =? name) (users (view t)))
  else lift (no_such_table User.tablename).

(** ** [database.py] *)

(** What a caller does with the session it is handed: row-level work.
    (Schema changes go through the engine in this code: [init_db],
    [drop_db].) *)
Inductive Step :=
| Add (r : Row)
| Flush
| Commit
| Rollback
| Exec (st : RowStatement)
| RaiseExc (e : exn).

Definition run_step (s : Step) : M unit :=
  match s with
  | Add r => session_add r
  | Flush => session_flush
  | Commit => session_commit
  | Rollback => session_rollback
  | Exec st => session_execute st
  | RaiseExc e => raise e
  end.

Fixpoint run_steps (l : list Step) : M unit :=
  match l with
  | [] => ret tt
  | s :: rest => run_step s ;; run_steps rest
  end.

(** [get_db]: the generator yields the session; [body] is what the caller
    runs while the generator is suspended at [yield]. *)
Definition get_db {A} (body : M A) : M A :=
  SessionLocal ;;
  try_finally
    (try_except body
       (fun e =>
          session_rollback ;;
          logger ERROR (String.append "Database session error: " (str e)) ;;
          raise e))
    session_close.

Definition init_db : M unit :=
  logger INFO "Initializing database..." ;;
  metadata_create_all ;;
  logger INFO "Database initialized successfully".

Definition drop_db : M unit :=
  logger WARNING "Dropping all database tables..." ;;
  metadata_drop_all ;;
  logger WARNING "All tables dropped".

(** ** [db_init.py] *)

Definition setup_database : M bool :=
  w <- get ;;
  logger INFO (String.append "Setting up database at: " (database_url (settings (env w)))) ;;
  try_except
    (init_db ;;
     logger SUCCESS "✓ Database setup completed successfully" ;;
     ret true)
    (fun e =>
       logger ERROR (String.append "✗ Database setup failed: " (str e)) ;;
       ret false).

Definition reset_database : M bool :=
  logger WARNING "⚠️  WARNING: This will DELETE all data from the database!" ;;
  confirm <- input "Type 'yes' to confirm database reset: " ;;
  if lower confirm =? "yes" then
    try_except
      (drop_db ;;
       init_db ;;
       logger SUCCESS "✓ Database reset completed successfully" ;;
       ret true)
      (fun e =>
         logger ERROR (String.append "✗ Database reset failed: " (str e)) ;;
         ret false)
  else
    logger INFO "Database reset cancelled" ;;
    ret false.

(** [uuid.uuid4()], the default of every [id] column. *)
Definition draw_uuid : M string :=
  w <- get ;;
  modify (set_uuids_drawn (S (uuids_drawn w))) ;;
  ret (uuid4 (env w) (uuids_drawn w)).

(** [pwd_context.hash(plaintext)] *)
Definition hash_password (plaintext : string) : M string :=
  emit (Hashed plaintext) ;;
  w <- get ;;
  lift (pwd_context_hash (env w) plaintext).

(** [User(username=..., email=..., hashed_password=..., full_name=...,
    role=..., is_active=...)] with the column defaults for [id],
    [created_at] and [updated_at]. *)
Definition new_user (username email hashed_password full_name : string)
  (role : UserRole) (is_active : bool) : M User.t :=
  i <- draw_uuid ;;
  w <- get ;;
  ret (User.mk i username email hashed_password (Some full_name) role is_active
         (utcnow (env w)) (Some (utcnow (env w)))).

(** Returns the user, or [None] where the Python returns [None]. *)
Definition create_admin_user : M (option User.t) :=
  import_models ;;
  SessionLocal ;;
  try_finally
    (try_except
       (existing_admin <- query_user_by_username "admin" ;;
        match existing_admin with
        | Some u =>
            logger INFO "Admin user already exists" ;;
            ret (Some u)
        | None =>
            h <- hash_password "admin123" ;;
            admin_user <- new_user "admin" "admin@financialanalytics.local" h
                            "System Administrator" ADMIN true ;;
            session_add (RowUser admin_user) ;;
            session_commit ;;
            logger SUCCESS "✓ Admin user created successfully" ;;
            logger INFO "  Username: admin" ;;
            logger INFO "  Password: admin123" ;;
            logger INFO "  Email: admin@financialanalytics.local" ;;
            ret (Some admin_user)
        end)
       (fun e =>
          session_rollback ;;
          logger ERROR (String.append "✗ Failed to create admin user: " (str e)) ;;
          ret None))
    session_close.

Definition check_database_connection : M bool :=
  try_except
    (with_connection (fun connection =>
       connection_execute_str "SELECT 1" ;;
       logger SUCCESS "✓ Database connection successful" ;;
       ret true))
    (fun e =>
       logger ERROR (String.append "✗ Database connection failed: " (str e)) ;;
       ret false).

(** ** Small worlds to run the operations on *)

Definition sample_env : Env :=
  {| settings := default_settings;
     store_up := true;
     execute_accepts_str := true;
     pwd_context_hash := fun p => Ok (String.append "$2b$12$" p);
     uuid4 := fun n => String (ascii_of_nat (48 + n)) "-uuid";
     utcnow := 0%Z |}.

Definition world_of (e : Env) (d : Database) (lines : list string) : World :=
  {| env := e; stdin := lines; uuids_drawn := 0; models_imported := false;
     database := d; checked_out := 0; session := fresh_session; log := [] |}.

(** The same world in a process that has imported [src.models]. *)
Definition with_models (w : World) : World := set_models_imported true w.

Definition run {A} (m : M A) (w : World) : Result A := fst (m w).
Definition exec {A} (m : M A) (w : World) : World := snd (m w).

(** ** What a well-formed store satisfies

    The keys of every table are distinct, [users] has distinct usernames and
    emails, every reference names a parent row, and a table the store does
    not have has no rows. *)
Record Consistent (d : Database) : Prop := {
  pk_users : NoDup (map User.id (users d));
  ux_users_username : NoDup (map User.username (users d));
  ux_users_email : NoDup (map User.email (users d));
  pk_data_uploads : NoDup (map DataUpload.id (data_uploads d));
  pk_timeseries_data : NoDup (map TimeSeriesData.id (timeseries_data d));
  pk_trained_models : NoDup (map TrainedModel.id (trained_models d));
  pk_forecasts : NoDup (map Forecast.id (forecasts d));
  pk_risk_metrics : NoDup (map RiskMetrics.id (risk_metrics d));
  pk_kpi_reports : NoDup (map KPIReport.id (kpi_reports d));
  fk_data_uploads :
    incl (map DataUpload.user_id (data_uploads d)) (map User.id (users d));
  fk_timeseries_data :
    incl (map TimeSeriesData.data_upload_id (timeseries_data d))
         (map DataUpload.id (data_uploads d));
  fk_trained_models :
    incl (map TrainedModel.user_id (trained_models d)) (map User.id (users d));
  fk_forecasts :
    incl (map Forecast.model_id (forecasts d)) (map TrainedModel.id (trained_models d));
  fk_risk_metrics :
    incl (map RiskMetrics.model_id (risk_metrics d))
         (map TrainedModel.id (trained_models d));
  fk_kpi_reports :
    incl (map KPIReport.model_id (kpi_reports d)) (map TrainedModel.id (trained_models d));
  rows_need_table : forall n, has_table d n = false -> row_count n d = 0
}.

(** No table of [d'] has more rows than it has in [d]. *)
Definition shrinks (d' d : Database) : Prop :=
  length (users d') <= length (users d) /\
  length (data_uploads d') <= length (data_uploads d) /\
  length (timeseries_data d') <= length (timeseries_data d) /\
  length (trained_models d') <= length (trained_models d) /\
  length (forecasts d') <= length (forecasts d) /\
  length (risk_metrics d') <= length (risk_metrics d) /\
  length (kpi_reports d') <= length (kpi_reports d).

(** ** Rows under a parent, for stating what a cascade removes *)

Definition owned_uploads (uid : string) (d : Database) : list DataUpload.t :=
  filter (fun r => DataUpload.user_id r =? uid) (data_uploads d).

Definition owned_models (uid : string) (d : Database) : list TrainedModel.t :=
  filter (fun m => TrainedModel.user_id m =? uid) (trained_models d).

Definition timeseries_in (uploads : list string) (d : Database)
  : list TimeSeriesData.t :=
  filter (fun t => mem (TimeSeriesData.data_upload_id t) uploads) (timeseries_data d).

Definition forecasts_in (models : list string) (d : Database) : list Forecast.t :=
  filter (fun f => mem (Forecast.model_id f) models) (forecasts d).

Definition risk_metrics_in (models : list string) (d : Database) : list RiskMetrics.t :=
  filter (fun r => mem (RiskMetrics.model_id r) models) (risk_metrics d).

Definition kpi_reports_in (models : list string) (d : Database) : list KPIReport.t :=
  filter (fun r => mem (KPIReport.model_id r) models) (kpi_reports d).

(** A script: statements one after the other on one connection. *)
Fixpoint execute_all (c : dbapi_connection) (d : Database) (sts : list Statement)
  : Result Database :=
  match sts with
  | [] => Ok d
  | st :: rest =>
      match execute c d st with
      | Ok d1 => execute_all c d1 rest
      | Raise e => Raise e
      end
  end.

(** ** A small store to evaluate on *)

Definition enforcing : dbapi_connection := {| foreign_keys := true |}.

Definition alice : User.t :=
  User.mk "u1" "alice" "alice@example.org" "$2b$12$alice" (Some "Alice") ANALYST true
    0%Z (Some 0%Z).

Definition alice_again : User.t :=
  User.mk "u2" "alice" "other@example.org" "$2b$12$other" None VIEWER true 1%Z None.

Definition upload1 : DataUpload.t :=
  DataUpload.mk "d1" "u1" "q1.csv" "time_series" 2%Z "validated" None None 0%Z None.

Definition point1 : TimeSeriesData.t :=
  TimeSeriesData.mk "t1" "d1" 10%Z 1.5%float "revenue" None 0%Z.

Definition point2 : TimeSeriesData.t :=
  TimeSeriesData.mk "t2" "d1" 20%Z 2.5%float "revenue" None 0%Z.

Definition model_v1 : TrainedModel.t :=
  TrainedModel.mk "m1" "u1" "revenue-arima" ARIMA REVENUE TrainedModel.default_version
    "./models/m1.pkl" None None None None None None true 0%Z None.

(** A retrain of the same name by the same owner, stored with the column
    default for [version]. *)
Definition model_retrained : TrainedModel.t :=
  TrainedModel.mk "m2" "u1" "revenue-arima" ARIMA REVENUE TrainedModel.default_version
    "./models/m2.pkl" None None None None None None true 5%Z None.

Definition forecast1 : Forecast.t :=
  Forecast.mk "f1" "m1" 30%Z 3.5%float None None None None 0%Z.

Definition risk1 : RiskMetrics.t :=
  RiskMetrics.mk "r1" "m1" 0%Z None None None None None None None None 0%Z None.

Definition kpi1 : KPIReport.t :=
  KPIReport.mk "k1" "m1" 0%Z 0%Z 9%Z None None None None None None None 0%Z.

Definition sample_script : list Statement :=
  CreateAll ::
  map OnRows
    [ Insert (RowUser alice); Insert (RowDataUpload upload1);
      Insert (RowTimeSeriesData point1); Insert (RowTimeSeriesData point2);
      Insert (RowTrainedModel model_v1); Insert (RowForecast forecast1);
      Insert (RowRiskMetrics risk1); Insert (RowKPIReport kpi1) ].

(** The store the script leaves; the empty store if the script fails. *)
Definition store_after (sts : list Statement) : Database :=
  match execute_all enforcing empty_database sts with
  | Ok d => d
  | Raise _ => empty_database
  end.

Definition sample_store : Database := store_after sample_script.

(** The sample store after the same owner retrains the same model name. *)
Definition retrained_store : Database :=
  store_after (sample_script ++ [OnRows (Insert (RowTrainedModel model_retrained))]).

(** ** Notions used to state what the operations do *)

(** What a checkout from the pool gives in a world: the pool must have
    room, the store must answer, and the connect listener must succeed. *)
Definition connect_outcome (w : World) : Result dbapi_connection :=
  if (pool_size + max_overflow <=? checked_out w)%nat
  then fail PoolTimeoutError "QueuePool limit of size 10 overflow 20 reached"
  else if negb (store_up (env w))
  then fail OperationalError "unable to connect to the database"
  else new_connection (settings (env w)).

(** Connections a session holds: one while its transaction is open. *)
Definition held (s : Session) : nat :=
  match transaction s with Some _ => 1 | None => 0 end.

(** [n] connections are out besides the one the session may hold. *)
Definition balanced (n : nat) (w : World) : Prop :=
  checked_out w = n + held (session w).

(** The world once the session's transaction is ended. *)
Definition ended (w : World) : World := snd (end_transaction w).


(** The message [get_db] logs for an error. *)
Definition session_error (e : exn) : Event :=
  Logged ERROR (String.append "Database session error: " (str e)).

(** The message [create_admin_user] logs for an error. *)
Definition admin_error (e : exn) : Event :=
  Logged ERROR (String.append "✗ Failed to create admin user: " (str e)).

(** The row [create_admin_user] builds in a world, given the hash. *)
Definition admin_row (w : World) (h : string) : User.t :=
  User.mk (uuid4 (env w) (uuids_drawn w)) "admin" "admin@financialanalytics.local" h
    (Some "System Administrator") ADMIN true (utcnow (env w)) (Some (utcnow (env w))).

(** A user who registered with the address the bootstrap uses. *)
Definition bob : User.t :=
  User.mk "u9" "bob" "admin@financialanalytics.local" "$2b$12$bob" (Some "Bob") VIEWER
    true 0%Z None.

Definition store_with_bob : Database :=
  store_after [CreateAll; OnRows (Insert (RowUser bob))].

Definition env_store_down : Env :=
  {| settings := default_settings;
     store_up := false;
     execute_accepts_str := true;
     pwd_context_hash := pwd_context_hash sample_env;
     uuid4 := uuid4 sample_env;
     utcnow := 0%Z |}.

(** The world [w] with the store [d] and further events, newest first;
    the pool and the session as in [w]. *)
Definition evolve (d : Database) (events : list Event) (w : World) : World :=
  {| env := env w; stdin := stdin w; uuids_drawn := uuids_drawn w;
     models_imported := models_imported w; database := d;
     checked_out := checked_out w; session := session w; log := events ++ log w |}.

(** What [create_all] and [drop_all] record in a world: the tables of the
    registry they create or drop in its store. *)
Definition created_event (w : World) : Event :=
  CreatedTables (map tablename (to_create (Base_metadata w) (database w))).

Definition dropped_event (w : World) : Event :=
  DroppedTables (map tablename (to_drop (Base_metadata w) (database w))).

(** The inputs that [reset_database] takes as a confirmation. *)
Definition confirmations : list string :=
  ["yes"; "yeS"; "yEs"; "yES"; "Yes"; "YeS"; "YEs"; "YES"].

Definition reset_prompt : list Event :=
  [Prompted "Type 'yes' to confirm database reset: ";
   Logged WARNING "⚠️  WARNING: This will DELETE all data from the database!"].

(** The world once the session has begun a transaction on connection [c]. *)
Definition begun (c : dbapi_connection) (w : World) : World :=
  set_session
    {| new := new (session w);
       transaction := Some {| conn := c; view := database w |};
       inactive := false |}
    (add_event CheckedOut (set_checked_out (S (checked_out w)) w)).

(** [w'] differs from [w] by what a session may do short of a commit: the
    committed store and the environment are the same, and the pool is
    balanced as before. *)
Definition quiet (n : nat) (w w' : World) : Prop :=
  balanced n w' /\ env w' = env w /\ database w' = database w.




(** What [create_admin_user] logs, newest first, when it creates the row. *)
Definition admin_created_log : list Event :=
  [Closed;
   Logged INFO "  Email: admin@financialanalytics.local";
   Logged INFO "  Password: admin123";
   Logged INFO "  Username: admin";
   Logged SUCCESS "✓ Admin user created successfully";
   Committed; Released; Hashed "admin123"; CheckedOut].

Definition admin_found_log : list Event :=
  [Closed; Released; Logged INFO "Admin user already exists"; CheckedOut].

(** [db.query(User).filter(User.username == "admin").first()] on a store. *)
Definition find_admin (d : Database) : option User.t :=
  find (fun u => User.username u =? "admin") (users d).

(** The error that makes [create_admin_user] fail in the world [w], if
    any: no connection, no [users] table, a failing hash, or an INSERT the
    store rejects. *)
Definition admin_failure (w : World) : option exn :=
  match connect_outcome w with
  | Raise e => Some e
  | Ok _ =>
      if has_table (database w) User.tablename then
        match find_admin (database w) with
        | Some _ => None
        | None =>
            match pwd_context_hash (env w) "admin123" with
            | Raise e => Some e
            | Ok h =>
                match insert_user (database w) (admin_row w h) with
                | Raise e => Some e
                | Ok _ => None
                end
            end
        end
      else Some {| exc_class := OperationalError;
                   exc_msg := String.append "no such table: " User.tablename |}
  end.

(** The four ways [create_admin_user] ends in a world [w]: the row is
    there already; the row is created; an [Exception] is caught; the hashing
    capability raises something that is not an [Exception]. *)
Inductive AdminOutcome (w : World) : Result (option User.t) -> World -> Prop :=
| admin_existing : forall u c,
    connect_outcome w = Ok c ->
    has_table (database w) User.tablename = true ->
    find_admin (database w) = Some u ->
    AdminOutcome w (Ok (Some u))
      (set_session fresh_session
         (evolve (database w) admin_found_log (set_models_imported true w)))
| admin_created : forall c h d',
    connect_outcome w = Ok c ->
    has_table (database w) User.tablename = true ->
    find_admin (database w) = None ->
    pwd_context_hash (env w) "admin123" = Ok h ->
    insert_user (database w) (admin_row w h) = Ok d' ->
    AdminOutcome w (Ok (Some (admin_row w h)))
      (set_uuids_drawn (S (uuids_drawn w))
         (set_session fresh_session
            (evolve d' admin_created_log (set_models_imported true w))))
| admin_failed : forall e w' rest,
    is_Exception e = true ->
    admin_failure w = Some e ->
    env w' = env w -> database w' = database w ->
    checked_out w' = checked_out w -> session w' = fresh_session ->
    log w' = Closed :: admin_error e :: RolledBack :: rest ->
    models_imported w' = true ->
    AdminOutcome w (Ok None) w'
| admin_interrupted : forall e w' rest,
    is_Exception e = false ->
    admin_failure w = Some e ->
    env w' = env w -> database w' = database w ->
    checked_out w' = checked_out w -> session w' = fresh_session ->
    log w' = Closed :: rest ->
    models_imported w' = true ->
    AdminOutcome w (Raise e) w'.

(** The error of a store that does not answer. *)
Definition store_down_error : exn :=
  {| exc_class := OperationalError; exc_msg := "unable to connect to the database" |}.

(** What the maintenance operations log for an error. *)
Definition setup_error (e : exn) : Event :=
  Logged ERROR (String.append "✗ Database setup failed: " (str e)).

Definition reset_error (e : exn) : Event :=
  Logged ERROR (String.append "✗ Database reset failed: " (str e)).

Definition check_error (e : exn) : Event :=
  Logged ERROR (String.append "✗ Database connection failed: " (str e)).

(** ** Further notions: enumerations by value, rows by table, the command line *)

(** [UserRole(value)], [ModelType(value)], [ForecastType(value)]: the member
    with that value; [None] where Python raises [ValueError]. *)
Definition UserRole_of_value (s : string) : option UserRole :=
  if s =? "admin" then Some ADMIN
  else if s =? "analyst" then Some ANALYST
  else if s =? "viewer" then Some VIEWER
  else None.

Definition ModelType_of_value (s : string) : option ModelType :=
  if s =? "linear_regression" then Some LINEAR_REGRESSION
  else if s =? "ridge_regression" then Some RIDGE_REGRESSION
  else if s =? "lasso_regression" then Some LASSO_REGRESSION
  else if s =? "arima" then Some ARIMA
  else if s =? "sarima" then Some SARIMA
  else None.

Definition ForecastType_of_value (s : string) : option ForecastType :=
  if s =? "revenue" then Some REVENUE
  else if s =? "expense" then Some EXPENSE
  else if s =? "cash_flow" then Some CASH_FLOW
  else None.

(** The table a row belongs to. *)
Definition row_table (r : Row) : string :=
  match r with
  | RowUser _ => User.tablename
  | RowDataUpload _ => DataUpload.tablename
  | RowTimeSeriesData _ => TimeSeriesData.tablename
  | RowTrainedModel _ => TrainedModel.tablename
  | RowForecast _ => Forecast.tablename
  | RowRiskMetrics _ => RiskMetrics.tablename
  | RowKPIReport _ => KPIReport.tablename
  end.

(** The primary key of a row is already in its table. *)
Definition key_present (d : Database) (r : Row) : bool :=
  match r with
  | RowUser x => mem (User.id x) (map User.id (users d))
  | RowDataUpload x => mem (DataUpload.id x) (map DataUpload.id (data_uploads d))
  | RowTimeSeriesData x =>
      mem (TimeSeriesData.id x) (map TimeSeriesData.id (timeseries_data d))
  | RowTrainedModel x => mem (TrainedModel.id x) (map TrainedModel.id (trained_models d))
  | RowForecast x => mem (Forecast.id x) (map Forecast.id (forecasts d))
  | RowRiskMetrics x => mem (RiskMetrics.id x) (map RiskMetrics.id (risk_metrics d))
  | RowKPIReport x => mem (KPIReport.id x) (map KPIReport.id (kpi_reports d))
  end.

(** The primary keys of all seven tables are distinct. *)
Definition keys_distinct (d : Database) : bool :=
  distinct (map User.id (users d)) &&
  distinct (map DataUpload.id (data_uploads d)) &&
  distinct (map TimeSeriesData.id (timeseries_data d)) &&
  distinct (map TrainedModel.id (trained_models d)) &&
  distinct (map Forecast.id (forecasts d)) &&
  distinct (map RiskMetrics.id (risk_metrics d)) &&
  distinct (map KPIReport.id (kpi_reports d)).

(** No table holds a row. *)
Definition no_rows (d : Database) : bool :=
  forallb (fun n => (row_count n d =? 0)%nat) table_names.

(** The [__main__] block of [db_init.py]: [argparse] accepts one of four
    commands and exits for anything else; the result of the operation is
    not used. *)
Definition commands : list string := ["setup"; "reset"; "check"; "create-admin"].

(** A new interpreter, as [python db_init.py <command>] starts one: no
    connection is out of its pool and no session is open; of this code
    [db_init.py] has imported [config.settings] and [src.database], not
    [src.models]. *)
Definition new_process (w : World) : World :=
  set_models_imported false (set_checked_out 0 (set_session fresh_session w)).

Definition dispatch (command : string) : M unit :=
  if mem command commands then
    if command =? "setup" then setup_database ;; ret tt
    else if command =? "reset" then reset_database ;; ret tt
    else if command =? "check" then check_database_connection ;; ret tt
    else if command =? "create-admin" then create_admin_user ;; ret tt
    else ret tt
  else
    throw SystemExit (String.append "argument command: invalid choice: " command).

Definition main (command : string) : M unit :=
  modify new_process ;; dispatch command.

(** A second user with an upload of their own. *)
Definition carol : User.t :=
  User.mk "u3" "carol" "carol@example.org" "$2b$12$carol" None VIEWER true 0%Z None.

Definition upload_of_carol : DataUpload.t :=
  DataUpload.mk "d3" "u3" "c.csv" "time_series" 1%Z "validated" None None 0%Z None.

Definition point_of_carol : TimeSeriesData.t :=
  TimeSeriesData.mk "t3" "d3" 10%Z 4.5%float "expense" None 0%Z.

Definition two_owner_store : Database :=
  store_after (sample_script ++
               map OnRows
                 [Insert (RowUser carol); Insert (RowDataUpload upload_of_carol);
                  Insert (RowTimeSeriesData point_of_carol)]).

(** What [input] raises at the end of the input. *)
Definition end_of_input : exn :=
  {| exc_class := EOFError; exc_msg := "EOF when reading a line" |}.

(** A world whose hashing capability is interrupted. *)
Definition interrupt : exn := {| exc_class := KeyboardInterrupt; exc_msg := "" |}.

Definition env_interrupted : Env :=
  {| settings := default_settings;
     store_up := true;
     execute_accepts_str := true;
     pwd_context_hash := fun _ => Raise interrupt;
     uuid4 := uuid4 sample_env;
     utcnow := 0%Z |}.

(** What the pool raises when its 30 connections are out. *)
Definition pool_timeout : exn :=
  {| exc_class := PoolTimeoutError;
     exc_msg := "QueuePool limit of size 10 overflow 20 reached" |}.

Definition capacity : nat := pool_size + max_overflow.

(** A world with every connection of the pool out. *)
Definition exhausted_world : World :=
  set_checked_out capacity (world_of sample_env sample_store []).




(** * Properties *)

(** ** Membership, distinctness, references *)

Lemma mem_In (x : string) (l : list string) : mem x l = true <-> In x l.
Proof.
  unfold mem. rewrite existsb_exists. split.
  - intros [y [Hy He]]. apply String.eqb_eq in He. now subst.
  - intros H. exists x. split; [assumption | apply String.eqb_refl].
Qed.

Lemma mem_not_In (x : string) (l : list string) : mem x l = false <-> ~ In x l.
Proof.
  rewrite <- mem_In. destruct (mem x l); split; intros; congruence.
Qed.

Lemma mem_app (x : string) (l1 l2 : list string) :
  mem x (l1 ++ l2) = mem x l1 || mem x l2.
Proof. unfold mem. apply existsb_app. Qed.

Lemma refs_ok_incl (refs parents : list string) :
  refs_ok refs parents = true <-> incl refs parents.
Proof.
  unfold refs_ok, incl. rewrite forallb_forall. split; intros H x Hx.
  - apply mem_In. now apply H.
  - apply mem_In. now apply H.
Qed.

Lemma distinct_NoDup (l : list string) : distinct l = true <-> NoDup l.
Proof.
  induction l as [|x r IH]; simpl.
  - split; [constructor | reflexivity].
  - rewrite andb_true_iff, negb_true_iff, mem_not_In, IH. split.
    + intros [H1 H2]. now constructor.
    + intros H. inversion H; subst. now split.
Qed.

Section MapLemmas.
Variables (A : Type) (f : A -> string).

Lemma NoDup_map_snoc (l : list A) (x : A) :
  NoDup (map f l) -> mem (f x) (map f l) = false -> NoDup (map f (l ++ [x])).
Proof.
  intros Hnd Hx. apply mem_not_In in Hx. rewrite map_app. simpl.
  induction (map f l) as [|y r IH]; simpl.
  - constructor; [intros [] | constructor].
  - inversion Hnd; subst. constructor.
    + rewrite in_app_iff. intros [H | [H | []]]; [tauto | subst y].
      apply Hx. now left.
    + apply IH; [assumption | intros H; apply Hx; now right].
Qed.

Lemma In_map_filter (p : A -> bool) (l : list A) (y : string) :
  In y (map f (filter p l)) -> In y (map f l).
Proof.
  rewrite !in_map_iff. intros [a [Ha Hin]]. apply filter_In in Hin.
  exists a. tauto.
Qed.

Lemma NoDup_map_filter (p : A -> bool) (l : list A) :
  NoDup (map f l) -> NoDup (map f (filter p l)).
Proof.
  induction l as [|a l IH]; simpl; intros H; [constructor|].
  inversion H; subst. destruct (p a); simpl.
  - constructor; [| now apply IH]. intros Hin. now apply In_map_filter in Hin.
  - now apply IH.
Qed.

Lemma incl_map_filter (p : A -> bool) (l : list A) (parents : list string) :
  incl (map f l) parents -> incl (map f (filter p l)) parents.
Proof. intros H y Hy. apply H. now apply In_map_filter in Hy. Qed.

Lemma incl_map_snoc (l : list A) (x : A) (parents : list string) :
  incl (map f l) parents -> mem (f x) parents = true ->
  incl (map f (l ++ [x])) parents.
Proof.
  intros H Hx y Hy. rewrite map_app, in_app_iff in Hy. simpl in Hy.
  destruct Hy as [Hy | [Hy | []]]; [now apply H | subst y; now apply mem_In].
Qed.

End MapLemmas.

Lemma incl_parents_snoc (A : Type) (g : A -> string) (refs : list string)
  (l : list A) (x : A) :
  incl refs (map g l) -> incl refs (map g (l ++ [x])).
Proof.
  intros H y Hy. rewrite map_app, in_app_iff. left. now apply H.
Qed.

(** The heart of the cascade: when the parents that satisfy [p] go, and
    with them the children that reference one of them, the children that
    stay reference parents that stay. *)
Lemma cascade_keeps_references (P C : Type) (key : P -> string) (ref : C -> string)
  (p : P -> bool) (parents : list P) (children : list C) :
  incl (map ref children) (map key parents) ->
  incl (map ref (filter (fun c => negb (mem (ref c) (map key (filter p parents))))
                        children))
       (map key (filter (fun x => negb (p x)) parents)).
Proof.
  intros H y Hy. apply in_map_iff in Hy. destruct Hy as [c [Hc Hin]].
  apply filter_In in Hin. destruct Hin as [Hin Hkeep].
  apply negb_true_iff, mem_not_In in Hkeep.
  assert (Hy : In y (map key parents)) by (apply H; subst y; now apply in_map).
  apply in_map_iff in Hy. destruct Hy as [x [Hx Hxin]].
  apply in_map_iff. exists x. split; [assumption|].
  apply filter_In. split; [assumption|].
  destruct (p x) eqn:Hp; [|reflexivity]. exfalso. apply Hkeep.
  rewrite Hc, <- Hx. apply in_map. apply filter_In. now split.
Qed.

(** After the cascade no child references a removed parent. *)
Lemma cascade_removes_children (P C : Type) (key : P -> string) (ref : C -> string)
  (p : P -> bool) (parents : list P) (children : list C) (c : C) :
  In c (filter (fun c => negb (mem (ref c) (map key (filter p parents)))) children) ->
  forall x, In x parents -> p x = true -> ref c <> key x.
Proof.
  intros Hin x Hx Hp Heq. apply filter_In in Hin. destruct Hin as [_ Hkeep].
  apply negb_true_iff, mem_not_In in Hkeep. apply Hkeep. rewrite Heq.
  apply in_map. apply filter_In. now split.
Qed.

(** ** Every connection of the engine enforces foreign keys *)

Lemma prefix_dialect_name (url : string) :
  String.prefix (dialect_name url) url = true.
Proof.
  induction url as [|c r IH]; simpl; [reflexivity|].
  destruct (Ascii.eqb c ":" || Ascii.eqb c "+")%bool; simpl; [reflexivity|].
  destruct (ascii_dec c c) as [_ | Hne]; [exact IH | now elim Hne].
Qed.

Lemma prefix_contains (needle hay : string) :
  String.prefix needle hay = true -> contains needle hay = true.
Proof. intros H. destruct hay; simpl in *; rewrite H; reflexivity. Qed.

Lemma sqlite_backend_named (url : string) :
  is_sqlite_backend url = true -> contains "sqlite" url = true.
Proof.
  unfold is_sqlite_backend. intros H. apply String.eqb_eq in H.
  apply prefix_contains. rewrite <- H. apply prefix_dialect_name.
Qed.

Lemma new_connection_enforces (s : Settings) (c : dbapi_connection) :
  new_connection s = Ok c -> foreign_keys c = true.
Proof.
  unfold new_connection, set_sqlite_pragma, dbapi_connect.
  destruct (contains "sqlite" (database_url s)) eqn:Hin.
  - destruct (is_sqlite_backend (database_url s)); [|discriminate].
    intros H. injection H as <-. reflexivity.
  - destruct (is_sqlite_backend (database_url s)) eqn:Hb.
    + apply sqlite_backend_named in Hb. congruence.
    + intros H. injection H as <-. reflexivity.
Qed.

(** ** Row counts and the DDL *)

Lemma shrinks_refl (d : Database) : shrinks d d.
Proof. unfold shrinks. repeat split; apply le_n. Qed.

Lemma shrinks_row_count (d' d : Database) (n : string) :
  shrinks d' d -> row_count n d' <= row_count n d.
Proof.
  unfold shrinks, row_count. intros H.
  repeat match goal with |- context [if ?b then _ else _] => destruct b end;
    try tauto. apply le_n.
Qed.

Ltac case_names :=
  repeat match goal with
         | |- context [if ?a =? ?b then _ else _] =>
             destruct (String.eqb_spec a b) as [? | ?]; subst
         end.

Lemma row_count_truncate (n m : string) (d : Database) :
  row_count n (truncate m d) = if n =? m then 0 else row_count n d.
Proof.
  unfold truncate, row_count, User.tablename, DataUpload.tablename,
    TimeSeriesData.tablename, TrainedModel.tablename, Forecast.tablename,
    RiskMetrics.tablename, KPIReport.tablename.
  case_names; try reflexivity; try congruence.
Qed.

Lemma tables_truncate (m : string) (d : Database) : tables (truncate m d) = tables d.
Proof.
  unfold truncate.
  repeat match goal with |- context [if ?b then _ else _] => destruct b end;
    reflexivity.
Qed.

Lemma mem_remove_names (x : string) (gone l : list string) :
  mem x (remove_names gone l) = mem x l && negb (mem x gone).
Proof.
  unfold remove_names. induction l as [|y l IH]; simpl; [reflexivity|].
  destruct (mem y gone) eqn:Hy; simpl.
  - rewrite IH. destruct (String.eqb_spec x y) as [-> | Hne]; simpl.
    + rewrite Hy. simpl. apply andb_false_r.
    + reflexivity.
  - rewrite IH. destruct (String.eqb_spec x y) as [-> | Hne]; simpl.
    + now rewrite Hy.
    + reflexivity.
Qed.

Lemma has_table_drop_table (t : TableDecl) (d : Database) (n : string) :
  has_table (drop_table t d) n = has_table d n && negb (n =? tablename t).
Proof.
  unfold has_table, drop_table. rewrite tables_truncate. simpl.
  rewrite mem_remove_names. simpl. now rewrite orb_false_r.
Qed.

Lemma row_count_drop_table (t : TableDecl) (d : Database) (n : string) :
  row_count n (drop_table t d) = if n =? tablename t then 0 else row_count n d.
Proof. unfold drop_table. now rewrite row_count_truncate. Qed.

Lemma row_count_drop_tables_zero (l : list TableDecl) (d : Database) (n : string) :
  row_count n d = 0 -> row_count n (drop_tables l d) = 0.
Proof.
  revert d. induction l as [|t l IH]; intros d H; [exact H|].
  unfold drop_tables in *. simpl. apply IH.
  rewrite row_count_drop_table. now destruct (n =? tablename t).
Qed.

(** A table that [drop_tables] drops has no rows afterwards. *)
Lemma row_count_drop_tables (l : list TableDecl) (d : Database) (n : string) :
  In n (map tablename l) -> row_count n (drop_tables l d) = 0.
Proof.
  revert d. induction l as [|t l IH]; intros d Hin; [destruct Hin|].
  change (drop_tables (t :: l) d) with (drop_tables l (drop_table t d)).
  destruct (String.eqb_spec n (tablename t)) as [-> | Hne].
  - apply row_count_drop_tables_zero.
    rewrite row_count_drop_table. now rewrite String.eqb_refl.
  - apply IH. destruct Hin as [Hin | Hin]; [congruence | exact Hin].
Qed.

Lemma row_count_drop_tables_other (l : list TableDecl) (d : Database) (n : string) :
  ~ In n (map tablename l) -> row_count n (drop_tables l d) = row_count n d.
Proof.
  revert d. induction l as [|t l IH]; intros d Hout; [reflexivity|].
  change (drop_tables (t :: l) d) with (drop_tables l (drop_table t d)).
  rewrite IH by (intros H; apply Hout; now right).
  rewrite row_count_drop_table.
  destruct (String.eqb_spec n (tablename t)) as [-> | Hne]; [|reflexivity].
  exfalso. apply Hout. now left.
Qed.

Lemma has_table_drop_tables (l : list TableDecl) (d : Database) (n : string) :
  has_table (drop_tables l d) n = has_table d n && negb (mem n (map tablename l)).
Proof.
  revert d. induction l as [|t l IH]; intros d.
  - simpl. now rewrite andb_true_r.
  - change (drop_tables (t :: l) d) with (drop_tables l (drop_table t d)).
    rewrite IH, has_table_drop_table. simpl.
    rewrite negb_orb, andb_assoc. reflexivity.
Qed.

Lemma create_tables_schema (l : list TableDecl) (d : Database) :
  exists ts ix, create_tables l d = set_schema ts ix d.
Proof.
  revert d. induction l as [|t l IH]; intros d.
  - exists (tables d), (indexes d). now destruct d.
  - change (create_tables (t :: l) d) with (create_tables l (create_table t d)).
    destruct (IH (create_table t d)) as [ts [ix H]]. exists ts, ix.
    rewrite H. reflexivity.
Qed.

(** What [create_tables] adds to the schema: the tables, and their indexes. *)
Lemma tables_create_tables (l : list TableDecl) (d : Database) :
  tables (create_tables l d) = tables d ++ map tablename l.
Proof.
  revert d. induction l as [|t l IH]; intros d; [simpl; now rewrite app_nil_r|].
  change (create_tables (t :: l) d) with (create_tables l (create_table t d)).
  rewrite IH. unfold create_table. simpl. now rewrite <- app_assoc.
Qed.


Lemma has_table_create_tables_mono (l : list TableDecl) (d : Database) (n : string) :
  has_table d n = true -> has_table (create_tables l d) n = true.
Proof.
  intros H. unfold has_table in *. rewrite tables_create_tables, mem_app.
  now rewrite H.
Qed.

(** After [create_tables] the store has every table it was asked for. *)
Lemma has_table_create_tables (l : list TableDecl) (d : Database) (t : TableDecl) :
  In t l -> has_table (create_tables l d) (tablename t) = true.
Proof.
  intros Hin. unfold has_table. rewrite tables_create_tables, mem_app.
  apply orb_true_iff. right. apply mem_In. now apply in_map.
Qed.

(** *** The sort keeps the tables it is given *)

Lemma filter_split (A : Type) (p : A -> bool) (l : list A) (x : A) :
  In x l <-> In x (filter (fun a => negb (p a)) l) \/ In x (filter p l).
Proof.
  rewrite !filter_In. destruct (p x); simpl; intuition congruence.
Qed.

Lemma sort_levels_In (fuel : nat) (todo : list TableDecl) (t : TableDecl) :
  In t (sort_levels fuel todo) <-> In t todo.
Proof.
  revert todo. induction fuel as [|fuel IH]; intros todo; [reflexivity|].
  cbn [sort_levels].
  destruct (filter (fun x => negb (waits_for (map tablename todo) x)) todo)
    as [|r ready] eqn:E; [reflexivity|].
  rewrite in_app_iff, IH, <- E. symmetry. apply filter_split.
Qed.

Lemma sort_tables_In (l : list TableDecl) (t : TableDecl) :
  In t (sort_tables l) <-> In t l.
Proof. apply sort_levels_In. Qed.

Lemma to_create_In (md : list TableDecl) (d : Database) (t : TableDecl) :
  In t (to_create md d) <-> In t md /\ has_table d (tablename t) = false.
Proof.
  unfold to_create. rewrite sort_tables_In, filter_In, negb_true_iff. reflexivity.
Qed.

Lemma to_drop_In (md : list TableDecl) (d : Database) (t : TableDecl) :
  In t (to_drop md d) <-> In t md /\ has_table d (tablename t) = true.
Proof.
  unfold to_drop. rewrite <- in_rev, sort_tables_In, filter_In. reflexivity.
Qed.


Lemma to_drop_nil (md : list TableDecl) (d : Database) :
  (forall t, In t md -> has_table d (tablename t) = false) -> to_drop md d = [].
Proof.
  intros H. destruct (to_drop md d) as [|t l] eqn:E; [reflexivity|]. exfalso.
  assert (Hin : In t (to_drop md d)) by (rewrite E; now left).
  apply to_drop_In in Hin. destruct Hin as [Hin Hyes].
  rewrite (H t Hin) in Hyes. discriminate.
Qed.

(** *** [create_all] *)

Lemma create_all_schema (md : list TableDecl) (d : Database) :
  exists ts ix, create_all md d = set_schema ts ix d.
Proof. apply create_tables_schema. Qed.

Lemma has_table_create_all_mono (md : list TableDecl) (d : Database) (n : string) :
  has_table d n = true -> has_table (create_all md d) n = true.
Proof. apply has_table_create_tables_mono. Qed.

(** After [create_all] the store has every table of the registry. *)
Lemma has_table_create_all (md : list TableDecl) (d : Database) (t : TableDecl) :
  In t md -> has_table (create_all md d) (tablename t) = true.
Proof.
  intros Hin. destruct (has_table d (tablename t)) eqn:Ht.
  - now apply has_table_create_all_mono.
  - apply has_table_create_tables. apply to_create_In. now split.
Qed.

(** It creates no other table. *)
Lemma has_table_create_all_only (md : list TableDecl) (d : Database) (n : string) :
  has_table (create_all md d) n = true ->
  has_table d n = true \/ In n (map tablename md).
Proof.
  unfold create_all, has_table. rewrite tables_create_tables, mem_app.
  intros H. apply orb_true_iff in H. destruct H as [H | H]; [now left | right].
  apply mem_In in H. apply in_map_iff in H. destruct H as [t [<- Ht]].
  apply to_create_In in Ht. apply in_map. tauto.
Qed.




Lemma row_count_create_all (md : list TableDecl) (d : Database) (n : string) :
  row_count n (create_all md d) = row_count n d.
Proof. destruct (create_all_schema md d) as [ts [ix E]]. rewrite E. reflexivity. Qed.

Lemma row_count_unknown (n : string) (d : Database) :
  ~ In n table_names -> row_count n d = 0.
Proof.
  intros H. unfold row_count, User.tablename, DataUpload.tablename,
    TimeSeriesData.tablename, TrainedModel.tablename, Forecast.tablename,
    RiskMetrics.tablename, KPIReport.tablename.
  case_names; try reflexivity; exfalso; apply H; simpl; tauto.
Qed.

(** *** [drop_all] *)

Lemma mem_to_drop (md : list TableDecl) (d : Database) (n : string) :
  mem n (map tablename (to_drop md d)) = has_table d n && mem n (map tablename md).
Proof.
  destruct (mem n (map tablename (to_drop md d))) eqn:E.
  - apply mem_In in E. apply in_map_iff in E. destruct E as [t [<- Ht]].
    apply to_drop_In in Ht. destruct Ht as [Hin Hyes]. rewrite Hyes. simpl.
    symmetry. apply mem_In. now apply in_map.
  - destruct (has_table d n) eqn:Hn; [|reflexivity]. simpl.
    destruct (mem n (map tablename md)) eqn:Hm; [|reflexivity]. exfalso.
    apply mem_not_In in E. apply E.
    apply mem_In in Hm. apply in_map_iff in Hm. destruct Hm as [t [<- Ht]].
    apply in_map. apply to_drop_In. now split.
Qed.

Lemma has_table_drop_all (md : list TableDecl) (d : Database) (n : string) :
  has_table (drop_all md d) n = has_table d n && negb (mem n (map tablename md)).
Proof.
  unfold drop_all. rewrite has_table_drop_tables, mem_to_drop.
  destruct (has_table d n), (mem n (map tablename md)); reflexivity.
Qed.

(** A table of the registry has no row after [drop_all]. *)
Lemma row_count_drop_all (md : list TableDecl) (d : Database) (n : string) :
  (forall m, has_table d m = false -> row_count m d = 0) ->
  In n (map tablename md) -> row_count n (drop_all md d) = 0.
Proof.
  intros H Hin. unfold drop_all. destruct (has_table d n) eqn:Hn.
  - apply row_count_drop_tables. apply mem_In. rewrite mem_to_drop, Hn. simpl.
    now apply mem_In.
  - apply row_count_drop_tables_zero. now apply H.
Qed.

(** The rows of the other tables stay. *)
Lemma row_count_drop_all_other (md : list TableDecl) (d : Database) (n : string) :
  ~ In n (map tablename md) -> row_count n (drop_all md d) = row_count n d.
Proof.
  intros Hout. unfold drop_all. apply row_count_drop_tables_other.
  intros H. apply mem_In in H. rewrite mem_to_drop in H.
  apply andb_true_iff in H. destruct H as [_ H]. apply mem_In in H. contradiction.
Qed.

Lemma row_count_drop_all_absent (md : list TableDecl) (d : Database) (n : string) :
  has_table d n = false -> row_count n (drop_all md d) = row_count n d.
Proof.
  intros Hno. unfold drop_all. apply row_count_drop_tables_other.
  intros H. apply mem_In in H. rewrite mem_to_drop, Hno in H. discriminate.
Qed.

Lemma drop_all_absent (md : list TableDecl) (d : Database) :
  (forall t, In t md -> has_table d (tablename t) = false) -> drop_all md d = d.
Proof. intros H. unfold drop_all. now rewrite to_drop_nil. Qed.

Lemma drop_all_idempotent (md : list TableDecl) (d : Database) :
  drop_all md (drop_all md d) = drop_all md d.
Proof.
  apply drop_all_absent. intros t Ht. rewrite has_table_drop_all.
  assert (Hm : mem (tablename t) (map tablename md) = true)
    by (apply mem_In; now apply in_map).
  rewrite Hm. apply andb_false_r.
Qed.

(** With the seven classes registered, [drop_all] leaves no row in any
    table. *)
Lemma row_count_drop_all_metadata (d : Database) (n : string) :
  (forall m, has_table d m = false -> row_count m d = 0) ->
  row_count n (drop_all metadata d) = 0.
Proof.
  intros H. destruct (in_dec string_dec n table_names) as [Hin | Hout].
  - now apply row_count_drop_all.
  - now apply row_count_unknown.
Qed.

Lemma drop_all_rows (d : Database) :
  (forall m, has_table d m = false -> row_count m d = 0) ->
  users (drop_all metadata d) = [] /\ data_uploads (drop_all metadata d) = [] /\
  timeseries_data (drop_all metadata d) = [] /\
  trained_models (drop_all metadata d) = [] /\
  forecasts (drop_all metadata d) = [] /\ risk_metrics (drop_all metadata d) = [] /\
  kpi_reports (drop_all metadata d) = [].
Proof.
  intros H.
  pose proof (@row_count_drop_all_metadata d User.tablename H) as H1.
  pose proof (@row_count_drop_all_metadata d DataUpload.tablename H) as H2.
  pose proof (@row_count_drop_all_metadata d TimeSeriesData.tablename H) as H3.
  pose proof (@row_count_drop_all_metadata d TrainedModel.tablename H) as H4.
  pose proof (@row_count_drop_all_metadata d Forecast.tablename H) as H5.
  pose proof (@row_count_drop_all_metadata d RiskMetrics.tablename H) as H6.
  pose proof (@row_count_drop_all_metadata d KPIReport.tablename H) as H7.
  repeat split; apply length_zero_iff_nil; assumption.
Qed.

(** ** Every statement keeps the store well-formed *)

Lemma rows_need_table_shrink (d d' : Database) :
  tables d' = tables d -> shrinks d' d ->
  (forall n, has_table d n = false -> row_count n d = 0) ->
  forall n, has_table d' n = false -> row_count n d' = 0.
Proof.
  intros Ht Hs H n Hn. unfold has_table in *. rewrite Ht in Hn.
  pose proof (shrinks_row_count n Hs) as Hle. rewrite (H n Hn) in Hle.
  now apply Nat.le_0_r.
Qed.

Lemma rows_need_table_insert (d d' : Database) (X : string) :
  tables d' = tables d -> has_table d X = true ->
  (forall n, n <> X -> row_count n d' = row_count n d) ->
  (forall n, has_table d n = false -> row_count n d = 0) ->
  forall n, has_table d' n = false -> row_count n d' = 0.
Proof.
  intros Ht HX Hrc H n Hn. unfold has_table in *. rewrite Ht in Hn.
  destruct (string_dec n X) as [-> | Hne]; [congruence|].
  rewrite (Hrc n Hne). now apply H.
Qed.

Ltac break_ok H :=
  repeat match type of H with
         | (if ?b then _ else _) = Ok _ =>
             let E := fresh "E" in destruct b eqn:E; [discriminate H|]
         end;
  injection H as <-.

Ltac other_rows :=
  intros ? ?;
  unfold row_count, User.tablename, DataUpload.tablename,
    TimeSeriesData.tablename, TrainedModel.tablename, Forecast.tablename,
    RiskMetrics.tablename, KPIReport.tablename in *;
  case_names; try reflexivity; congruence.

Ltac insert_hyps :=
  repeat match goal with
         | E : negb _ = false |- _ => apply negb_false_iff in E
         end;
  unfold fk_ok in *; cbn [negb orb] in *.

Ltac insert_keeps d name :=
  insert_hyps;
  constructor;
  unfold bind_trained_model, bind_forecast, bind_risk_metrics, bind_kpi_report;
  simpl; try assumption;
  try (apply NoDup_map_snoc; assumption);
  try (apply incl_parents_snoc; assumption);
  try (apply incl_map_snoc; assumption);
  apply (@rows_need_table_insert d _ name);
  [reflexivity | assumption | other_rows | assumption].

Lemma insert_user_consistent (d d' : Database) (u : User.t) :
  Consistent d -> insert_user d u = Ok d' -> Consistent d'.
Proof.
  intros [] H. unfold insert_user in H. break_ok H. insert_keeps d User.tablename.
Qed.

Lemma insert_data_upload_consistent (d d' : Database) (r : DataUpload.t) :
  Consistent d -> insert_data_upload true d r = Ok d' -> Consistent d'.
Proof.
  intros [] H. unfold insert_data_upload in H. break_ok H.
  insert_keeps d DataUpload.tablename.
Qed.

Lemma insert_timeseries_data_consistent (d d' : Database) (r : TimeSeriesData.t) :
  Consistent d -> insert_timeseries_data true d r = Ok d' -> Consistent d'.
Proof.
  intros [] H. unfold insert_timeseries_data in H. break_ok H.
  insert_keeps d TimeSeriesData.tablename.
Qed.

Lemma insert_trained_model_consistent (d d' : Database) (r : TrainedModel.t) :
  Consistent d -> insert_trained_model true d r = Ok d' -> Consistent d'.
Proof.
  intros [] H. unfold insert_trained_model in H. break_ok H.
  insert_keeps d TrainedModel.tablename.
Qed.

Lemma insert_forecast_consistent (d d' : Database) (r : Forecast.t) :
  Consistent d -> insert_forecast true d r = Ok d' -> Consistent d'.
Proof.
  intros [] H. unfold insert_forecast in H. break_ok H.
  insert_keeps d Forecast.tablename.
Qed.

Lemma insert_risk_metrics_consistent (d d' : Database) (r : RiskMetrics.t) :
  Consistent d -> insert_risk_metrics true d r = Ok d' -> Consistent d'.
Proof.
  intros [] H. unfold insert_risk_metrics in H. break_ok H.
  insert_keeps d RiskMetrics.tablename.
Qed.

Lemma insert_kpi_report_consistent (d d' : Database) (r : KPIReport.t) :
  Consistent d -> insert_kpi_report true d r = Ok d' -> Consistent d'.
Proof.
  intros [] H. unfold insert_kpi_report in H. break_ok H.
  insert_keeps d KPIReport.tablename.
Qed.

Lemma insert_row_consistent (d d' : Database) (r : Row) :
  Consistent d -> insert_row true d r = Ok d' -> Consistent d'.
Proof.
  destruct r; simpl; intros Hc H.
  - eapply insert_user_consistent; eassumption.
  - eapply insert_data_upload_consistent; eassumption.
  - eapply insert_timeseries_data_consistent; eassumption.
  - eapply insert_trained_model_consistent; eassumption.
  - eapply insert_forecast_consistent; eassumption.
  - eapply insert_risk_metrics_consistent; eassumption.
  - eapply insert_kpi_report_consistent; eassumption.
Qed.

Ltac rows_shrink d :=
  apply (@rows_need_table_shrink d);
  [ reflexivity
  | unfold shrinks; simpl; rewrite ?length_map;
    repeat split; try apply le_n; apply filter_length_le
  | assumption ].

Ltac solve_delete d :=
  constructor; simpl; try assumption;
  try (apply NoDup_map_filter; assumption);
  try (apply incl_map_filter; assumption);
  try (apply cascade_keeps_references; assumption);
  try rows_shrink d.

Lemma delete_data_uploads_where_consistent (p : DataUpload.t -> bool) (d : Database) :
  Consistent d -> Consistent (delete_data_uploads_where true p d).
Proof. intros []. unfold delete_data_uploads_where. solve_delete d. Qed.

Lemma delete_trained_models_where_consistent (p : TrainedModel.t -> bool)
  (d : Database) :
  Consistent d -> Consistent (delete_trained_models_where true p d).
Proof. intros []. unfold delete_trained_models_where. solve_delete d. Qed.

Lemma delete_users_where_consistent (p : User.t -> bool) (d : Database) :
  Consistent d -> Consistent (delete_users_where true p d).
Proof.
  intros []. unfold delete_users_where, delete_trained_models_where,
    delete_data_uploads_where. solve_delete d.
Qed.

Lemma delete_timeseries_data_consistent (d d' : Database) (i : string) :
  Consistent d -> delete_timeseries_data d i = Ok d' -> Consistent d'.
Proof.
  intros [] H. unfold delete_timeseries_data in H. break_ok H. solve_delete d.
Qed.

Lemma delete_forecast_consistent (d d' : Database) (i : string) :
  Consistent d -> delete_forecast d i = Ok d' -> Consistent d'.
Proof. intros [] H. unfold delete_forecast in H. break_ok H. solve_delete d. Qed.

Lemma delete_risk_metrics_consistent (d d' : Database) (i : string) :
  Consistent d -> delete_risk_metrics d i = Ok d' -> Consistent d'.
Proof. intros [] H. unfold delete_risk_metrics in H. break_ok H. solve_delete d. Qed.

Lemma delete_kpi_report_consistent (d d' : Database) (i : string) :
  Consistent d -> delete_kpi_report d i = Ok d' -> Consistent d'.
Proof. intros [] H. unfold delete_kpi_report in H. break_ok H. solve_delete d. Qed.

(** *** UPDATE keeps the keys and the unique columns distinct *)

Section Replace.
Variable u : User.t.

Let repl (x : User.t) : User.t := if User.id x =? User.id u then u else x.
Let other (x : User.t) : bool := negb (User.id x =? User.id u).

Lemma map_id_replace (l : list User.t) : map User.id (map repl l) = map User.id l.
Proof.
  induction l as [|x l IH]; simpl; [reflexivity|]. rewrite IH. f_equal.
  unfold repl. now destruct (String.eqb_spec (User.id x) (User.id u)).
Qed.

Lemma replace_absent (l : list User.t) :
  ~ In (User.id u) (map User.id l) -> map repl l = l /\ filter other l = l.
Proof.
  induction l as [|x l IH]; simpl; intros H; [now split|].
  assert (Hx : User.id x <> User.id u) by (intros E; apply H; now left).
  destruct IH as [IH1 IH2]; [intros Hin; apply H; now right|].
  unfold repl at 1, other at 1. apply String.eqb_neq in Hx. rewrite Hx. simpl.
  now rewrite IH1, IH2.
Qed.

Lemma NoDup_replace (g : User.t -> string) (l : list User.t) :
  NoDup (map User.id l) -> NoDup (map g l) ->
  mem (g u) (map g (filter other l)) = false ->
  NoDup (map g (map repl l)).
Proof.
  induction l as [|x l IH]; simpl; intros Hid Hg Hu; [constructor|].
  inversion Hid as [|? ? Hxid Hid']; subst. inversion Hg as [|? ? Hxg Hg']; subst.
  unfold repl at 1. unfold other at 1 in Hu.
  destruct (String.eqb_spec (User.id x) (User.id u)) as [E | E]; simpl in Hu.
  - rewrite E in Hxid. destruct (replace_absent l Hxid) as [H1 H2].
    rewrite H1. rewrite H2 in Hu. apply mem_not_In in Hu. now constructor.
  - apply orb_false_iff in Hu. destruct Hu as [Hne Hu].
    constructor; [| now apply IH].
    intros Hin. apply in_map_iff in Hin. destruct Hin as [y [Hy Hyin]].
    apply in_map_iff in Hyin. destruct Hyin as [z [Hz Hzin]]. subst y.
    unfold repl in Hy. destruct (User.id z =? User.id u).
    + apply String.eqb_neq in Hne. congruence.
    + apply Hxg. rewrite <- Hy. now apply in_map.
Qed.

Lemma update_user_consistent (d d' : Database) :
  Consistent d -> update_user d u = Ok d' -> Consistent d'.
Proof.
  intros [] H. unfold update_user in H. cbv zeta in H. break_ok H.
  constructor; simpl; fold repl; rewrite ?map_id_replace; try assumption;
    try (apply NoDup_replace; assumption).
  rows_shrink d.
Qed.

End Replace.

Lemma map_id_with_actual_value (i : string) (v : option Float) (l : list Forecast.t) :
  map Forecast.id
      (map (fun f => if Forecast.id f =? i then with_actual_value v f else f) l)
  = map Forecast.id l.
Proof.
  induction l as [|x l IH]; simpl; [reflexivity|]. rewrite IH. f_equal.
  now destruct (Forecast.id x =? i).
Qed.

Lemma map_model_id_with_actual_value (i : string) (v : option Float)
  (l : list Forecast.t) :
  map Forecast.model_id
      (map (fun f => if Forecast.id f =? i then with_actual_value v f else f) l)
  = map Forecast.model_id l.
Proof.
  induction l as [|x l IH]; simpl; [reflexivity|]. rewrite IH. f_equal.
  now destruct (Forecast.id x =? i).
Qed.

Lemma set_actual_value_consistent (d d' : Database) (i : string) (v : option Float) :
  Consistent d -> set_actual_value d i v = Ok d' -> Consistent d'.
Proof.
  intros [] H. unfold set_actual_value in H. break_ok H.
  constructor; simpl;
    rewrite ?map_id_with_actual_value, ?map_model_id_with_actual_value;
    try assumption.
  rows_shrink d.
Qed.

Lemma create_all_consistent (md : list TableDecl) (d : Database) :
  Consistent d -> Consistent (create_all md d).
Proof.
  intros [].
  destruct (create_all_schema md d) as [ts [ix E]].
  assert (Hrows : forall n, has_table (create_all md d) n = false ->
                            row_count n (create_all md d) = 0).
  { intros n Hn.
    assert (Hd : has_table d n = false).
    { destruct (has_table d n) eqn:Hd; [|reflexivity].
      apply (has_table_create_all_mono md) in Hd. congruence. }
    rewrite E. now apply rows_need_table0. }
  revert Hrows. rewrite E. intros Hrows.
  constructor; simpl; assumption.
Qed.

Lemma drop_all_consistent (d : Database) :
  Consistent d -> Consistent (drop_all metadata d).
Proof.
  intros []. pose proof (@drop_all_rows d rows_need_table0) as H.
  destruct H as (H1 & H2 & H3 & H4 & H5 & H6 & H7).
  constructor; rewrite ?H1, ?H2, ?H3, ?H4, ?H5, ?H6, ?H7; simpl;
    try apply NoDup_nil; try apply incl_nil_l.
  intros n _. now apply row_count_drop_all_metadata.
Qed.

Lemma empty_database_consistent : Consistent empty_database.
Proof.
  constructor; simpl; try apply NoDup_nil; try apply incl_nil_l.
  intros n _. unfold row_count. simpl.
  repeat match goal with |- context [if ?b then _ else _] => destruct b end;
    reflexivity.
Qed.

Lemma execute_consistent (c : dbapi_connection) (d d' : Database) (st : Statement) :
  foreign_keys c = true ->
  Consistent d -> execute c d st = Ok d' -> Consistent d'.
Proof.
  intros Hfk Hc H. unfold execute, execute_rows in H. rewrite Hfk in H.
  destruct st as [| |q]; [| |destruct q].
  - injection H as <-. now apply create_all_consistent.
  - injection H as <-. now apply drop_all_consistent.
  - eapply insert_row_consistent; eassumption.
  - eapply update_user_consistent; eassumption.
  - eapply set_actual_value_consistent; eassumption.
  - unfold delete_user in H. break_ok H. now apply delete_users_where_consistent.
  - unfold delete_data_upload in H. break_ok H.
    now apply delete_data_uploads_where_consistent.
  - eapply delete_timeseries_data_consistent; eassumption.
  - unfold delete_trained_model in H. break_ok H.
    now apply delete_trained_models_where_consistent.
  - eapply delete_forecast_consistent; eassumption.
  - eapply delete_risk_metrics_consistent; eassumption.
  - eapply delete_kpi_report_consistent; eassumption.
Qed.

(** The invariant of the store: every store the engine can produce is
    well-formed. *)
Lemma reachable_consistent (s : Settings) (d : Database) :
  reachable s d -> Consistent d.
Proof.
  induction 1 as [|d c st d' _ IH Hc Hex].
  - apply empty_database_consistent.
  - eapply execute_consistent; [eapply new_connection_enforces | |]; eassumption.
Qed.

(** ** Scripts, counts and the decidable checks *)

Lemma reachable_execute_all (s : Settings) (c : dbapi_connection)
  (sts : list Statement) (d d' : Database) :
  new_connection s = Ok c -> reachable s d ->
  execute_all c d sts = Ok d' -> reachable s d'.
Proof.
  intros Hc. revert d. induction sts as [|st sts IH]; simpl; intros d Hr H.
  - injection H as <-. exact Hr.
  - destruct (execute c d st) as [d1 | e] eqn:E; [|discriminate].
    apply (IH d1); [|exact H]. eapply reach_step; eassumption.
Qed.

Lemma filter_nil_iff (A : Type) (p : A -> bool) (l : list A) :
  filter p l = [] <-> forall x, In x l -> p x = false.
Proof.
  induction l as [|a l IH]; simpl.
  - split; [intros _ x [] | reflexivity].
  - destruct (p a) eqn:Hp; split.
    + discriminate.
    + intros H. rewrite (H a (or_introl eq_refl)) in Hp. discriminate.
    + intros H x [<- | Hx]; [exact Hp | now apply IH].
    + intros H. apply IH. intros x Hx. apply H. now right.
Qed.

Lemma key_among_selected (A : Type) (key : A -> string) (l : list A) (y : string) :
  In y (map key l) -> mem y (map key (filter (fun x => key x =? y) l)) = true.
Proof.
  intros H. apply in_map_iff in H. destruct H as [x [Hx Hin]].
  apply mem_In. apply in_map_iff. exists x. split; [exact Hx|].
  apply filter_In. split; [exact Hin | subst y; apply String.eqb_refl].
Qed.

(** A value of a distinct column is held by exactly one row. *)
Lemma count_where_unique (A : Type) (f : A -> string) (l : list A) (u : A) :
  NoDup (map f l) -> In u l -> count_where (fun x => f x =? f u) l = 1.
Proof.
  unfold count_where. induction l as [|a l IH]; simpl; intros Hnd Hin; [destruct Hin|].
  inversion Hnd as [|? ? Ha Hnd']; subst.
  destruct (String.eqb_spec (f a) (f u)) as [E | E]; simpl.
  - f_equal. apply length_zero_iff_nil. apply filter_nil_iff. intros x Hx.
    apply String.eqb_neq. intros Ex. apply Ha. rewrite E, <- Ex. now apply in_map.
  - destruct Hin as [-> | Hin]; [congruence | now apply IH].
Qed.

Lemma consistent_no_orphans (d : Database) : Consistent d -> no_orphans d = true.
Proof.
  intros []. unfold no_orphans.
  repeat (apply andb_true_iff; split); now apply refs_ok_incl.
Qed.

Lemma consistent_users_unique (d : Database) : Consistent d -> users_unique d = true.
Proof.
  intros []. unfold users_unique.
  repeat (apply andb_true_iff; split); now apply distinct_NoDup.
Qed.

(** ** What a cascading delete removes *)

Section Cascade.
Variable d : Database.
Hypothesis Hd : Consistent d.

Lemma delete_user_removes (uid : string) (d' : Database) :
  delete_user true d uid = Ok d' ->
  owned_uploads uid d' = [] /\
  owned_models uid d' = [] /\
  timeseries_in (map DataUpload.id (owned_uploads uid d)) d' = [] /\
  forecasts_in (map TrainedModel.id (owned_models uid d)) d' = [] /\
  risk_metrics_in (map TrainedModel.id (owned_models uid d)) d' = [] /\
  kpi_reports_in (map TrainedModel.id (owned_models uid d)) d' = [].
Proof.
  intros H. unfold delete_user in H. break_ok H. clear E.
  destruct Hd.
  assert (Hup : forall r, In r (data_uploads d) -> DataUpload.user_id r = uid ->
            mem (DataUpload.user_id r)
                (map User.id (filter (fun u => User.id u =? uid) (users d))) = true).
  { intros r Hr <-. apply key_among_selected. apply fk_data_uploads0.
    now apply in_map. }
  assert (Hmo : forall m, In m (trained_models d) -> TrainedModel.user_id m = uid ->
            mem (TrainedModel.user_id m)
                (map User.id (filter (fun u => User.id u =? uid) (users d))) = true).
  { intros m Hm <-. apply key_among_selected. apply fk_trained_models0.
    now apply in_map. }
  assert (Hchild : forall (C : Type) (ref : C -> string) (sel : TrainedModel.t -> bool)
            (x : C),
            (forall m, In m (trained_models d) -> TrainedModel.user_id m = uid ->
                       sel m = true) ->
            negb (mem (ref x) (map TrainedModel.id (filter sel (trained_models d)))) = true ->
            mem (ref x) (map TrainedModel.id (owned_models uid d)) = false).
  { intros C ref sel x Hsel Hkeep. apply negb_true_iff, mem_not_In in Hkeep.
    apply mem_not_In. intros Hin. apply Hkeep.
    apply in_map_iff in Hin. destruct Hin as [m [Hm Hmin]].
    apply filter_In in Hmin. destruct Hmin as [Hmin Ho].
    apply String.eqb_eq in Ho. apply in_map_iff. exists m. split; [exact Hm|].
    apply filter_In. split; [exact Hmin | now apply Hsel]. }
  unfold owned_uploads, owned_models, timeseries_in, forecasts_in, risk_metrics_in,
    kpi_reports_in, delete_users_where, delete_trained_models_where,
    delete_data_uploads_where; simpl.
  repeat split; apply filter_nil_iff; intros x Hx; apply filter_In in Hx;
    destruct Hx as [Hx Hkeep].
  - apply String.eqb_neq. intros E. rewrite (Hup x Hx E) in Hkeep. discriminate.
  - apply String.eqb_neq. intros E. rewrite (Hmo x Hx E) in Hkeep. discriminate.
  - apply negb_true_iff, mem_not_In in Hkeep. apply mem_not_In. intros Hin.
    apply Hkeep. apply in_map_iff in Hin. destruct Hin as [r [Hr Hrin]].
    apply filter_In in Hrin. destruct Hrin as [Hrin Ho]. apply String.eqb_eq in Ho.
    apply in_map_iff. exists r. split; [exact Hr|].
    apply filter_In. split; [exact Hrin | now apply Hup].
  - eapply Hchild; [|exact Hkeep]. exact Hmo.
  - eapply Hchild; [|exact Hkeep]. exact Hmo.
  - eapply Hchild; [|exact Hkeep]. exact Hmo.
Qed.

Lemma delete_data_upload_removes (i : string) (d' : Database) :
  delete_data_upload true d i = Ok d' -> timeseries_in [i] d' = [].
Proof.
  intros H. unfold delete_data_upload in H. break_ok H. clear E. destruct Hd.
  unfold timeseries_in, delete_data_uploads_where; simpl.
  apply filter_nil_iff. intros t Ht. apply filter_In in Ht. destruct Ht as [Ht Hkeep].
  rewrite orb_false_r. apply String.eqb_neq. intros E.
  rewrite E, key_among_selected in Hkeep; [discriminate|].
  rewrite <- E. apply fk_timeseries_data0. now apply in_map.
Qed.

Lemma delete_trained_model_removes (i : string) (d' : Database) :
  delete_trained_model true d i = Ok d' ->
  forecasts_in [i] d' = [] /\ risk_metrics_in [i] d' = [] /\ kpi_reports_in [i] d' = [].
Proof.
  intros H. unfold delete_trained_model in H. break_ok H. clear E. destruct Hd.
  unfold forecasts_in, risk_metrics_in, kpi_reports_in, delete_trained_models_where;
    simpl.
  repeat split; apply filter_nil_iff; intros x Hx; apply filter_In in Hx;
    destruct Hx as [Hx Hkeep]; rewrite orb_false_r; apply String.eqb_neq; intros E;
    rewrite E, key_among_selected in Hkeep; try discriminate; rewrite <- E.
  - apply fk_forecasts0. now apply in_map.
  - apply fk_risk_metrics0. now apply in_map.
  - apply fk_kpi_reports0. now apply in_map.
Qed.

End Cascade.

(** ** Claims on the store *)

Lemma default_connection : new_connection default_settings = Ok enforcing.
Proof. reflexivity. Qed.

Lemma store_after_reachable (sts : list Statement) :
  reachable default_settings (store_after sts).
Proof.
  unfold store_after.
  destruct (execute_all enforcing empty_database sts) as [d | e] eqn:E.
  - eapply reachable_execute_all; [exact default_connection | apply reach_empty | exact E].
  - apply reach_empty.
Qed.

(** C1.  On every store the engine can produce no child row is an orphan,
    for each of the six foreign keys.  Deleting a user removes the uploads
    and models that reference it and, below them, their time series rows,
    forecasts, risk metrics and KPI reports; deleting an upload removes its
    time series rows; deleting a model removes its forecasts, risk metrics
    and KPI reports.  The store after each delete has no orphan either. *)
Theorem cascade_leaves_no_orphans (s : Settings) (c : dbapi_connection) (d : Database) :
  reachable s d -> new_connection s = Ok c ->
  no_orphans d = true /\
  (forall uid d', execute c d (DeleteUser uid) = Ok d' ->
     owned_uploads uid d' = [] /\
     owned_models uid d' = [] /\
     timeseries_in (map DataUpload.id (owned_uploads uid d)) d' = [] /\
     forecasts_in (map TrainedModel.id (owned_models uid d)) d' = [] /\
     risk_metrics_in (map TrainedModel.id (owned_models uid d)) d' = [] /\
     kpi_reports_in (map TrainedModel.id (owned_models uid d)) d' = [] /\
     no_orphans d' = true) /\
  (forall i d', execute c d (DeleteDataUpload i) = Ok d' ->
     timeseries_in [i] d' = [] /\ no_orphans d' = true) /\
  (forall i d', execute c d (DeleteTrainedModel i) = Ok d' ->
     forecasts_in [i] d' = [] /\ risk_metrics_in [i] d' = [] /\
     kpi_reports_in [i] d' = [] /\ no_orphans d' = true).
Proof.
  intros Hr Hc. pose proof (reachable_consistent Hr) as Hd.
  pose proof (new_connection_enforces _ Hc) as Hfk.
  assert (Hnext : forall st d', execute c d st = Ok d' -> no_orphans d' = true).
  { intros st d' H. apply consistent_no_orphans.
    eapply execute_consistent; eassumption. }
  split; [now apply consistent_no_orphans|].
  split; [|split].
  - intros uid d' H. pose proof (Hnext _ _ H) as Hn.
    simpl in H. rewrite Hfk in H.
    destruct (delete_user_removes Hd _ H) as (H1 & H2 & H3 & H4 & H5 & H6).
    repeat split; assumption.
  - intros i d' H. pose proof (Hnext _ _ H) as Hn.
    simpl in H. rewrite Hfk in H.
    split; [eapply delete_data_upload_removes; eassumption | exact Hn].
  - intros i d' H. pose proof (Hnext _ _ H) as Hn.
    simpl in H. rewrite Hfk in H.
    destruct (delete_trained_model_removes Hd _ H) as (H1 & H2 & H3).
    repeat split; assumption.
Qed.

(** The test of the specification: a user with an upload, two time series
    rows, a model and its forecast, risk metrics and KPI report; the user is
    deleted and none of these rows remains. *)
Lemma cascade_leaves_no_orphans_witness :
  reachable default_settings sample_store /\
  new_connection default_settings = Ok enforcing /\
  no_orphans sample_store = true /\
  exists d', execute enforcing sample_store (DeleteUser "u1") = Ok d' /\
    data_uploads d' = [] /\ timeseries_data d' = [] /\ trained_models d' = [] /\
    owned_uploads "u1" d' = [] /\ timeseries_in ["d1"] d' = [] /\
    forecasts_in ["m1"] d' = [] /\ no_orphans d' = true.
Proof.
  split; [apply store_after_reachable|].
  split; [reflexivity|].
  destruct (cascade_leaves_no_orphans (store_after_reachable sample_script)
              default_connection) as (H0 & Hu & _ & _).
  split; [exact H0|].
  eexists. split; [reflexivity|].
  destruct (Hu "u1" _ eq_refl) as (H1 & _ & H3 & H4 & _ & _ & H7).
  repeat split; try reflexivity; assumption.
Defined.

(** C4.  On a store the engine can produce that holds a user [u], inserting
    a user with the same username or the same email fails with an integrity
    error of the store, and the store holds exactly one row with [u]'s
    username and exactly one with [u]'s email. *)
Theorem username_email_unique (s : Settings) (c : dbapi_connection) (d : Database)
  (u u' : User.t) :
  reachable s d -> new_connection s = Ok c -> In u (users d) ->
  User.username u' = User.username u \/ User.email u' = User.email u ->
  (exists e, execute c d (Insert (RowUser u')) = Raise e /\
             exc_class e = IntegrityError) /\
  users_named (User.username u) d = 1 /\
  users_with_email (User.email u) d = 1 /\
  users_unique d = true.
Proof.
  intros Hr Hc Hin Hsame. pose proof (reachable_consistent Hr) as Hd.
  split; [|split; [|split]].
  - simpl. unfold insert_user.
    assert (Ht : has_table d User.tablename = true).
    { destruct (has_table d User.tablename) eqn:Ht; [reflexivity|].
      apply (rows_need_table Hd) in Ht. change (length (users d) = 0) in Ht.
      apply length_zero_iff_nil in Ht. rewrite Ht in Hin. destruct Hin. }
    rewrite Ht. simpl.
    destruct (mem (User.username u') (map User.username (users d))) eqn:Hn;
      [eexists; split; reflexivity|].
    destruct (mem (User.email u') (map User.email (users d))) eqn:He;
      [eexists; split; reflexivity|].
    exfalso. apply mem_not_In in Hn. apply mem_not_In in He.
    destruct Hsame as [E | E]; [apply Hn | apply He]; rewrite E; now apply in_map.
  - unfold users_named. apply count_where_unique; [apply (ux_users_username Hd) | exact Hin].
  - unfold users_with_email. apply count_where_unique; [apply (ux_users_email Hd) | exact Hin].
  - now apply consistent_users_unique.
Qed.

Lemma username_email_unique_witness :
  reachable default_settings sample_store /\
  In alice (users sample_store) /\
  User.username alice_again = User.username alice /\
  execute enforcing sample_store (Insert (RowUser alice_again))
    = fail IntegrityError "UNIQUE constraint failed: users.username" /\
  users_named "alice" sample_store = 1 /\
  users_with_email "alice@example.org" sample_store = 1.
Proof.
  split; [apply store_after_reachable|].
  split; [left; reflexivity|].
  split; [reflexivity|].
  split; [reflexivity|].
  destruct (@username_email_unique default_settings enforcing sample_store alice
              alice_again (store_after_reachable sample_script) default_connection
              (or_introl eq_refl) (or_introl eq_refl)) as (_ & H1 & H2 & _).
  split; assumption.
Defined.

(** The claim of C5 fails on the schema as declared: after a model and its
    retrain are stored, both with the column default, the store holds two
    rows with the same (owner, model_name, version), and the later row's
    version is not greater than the earlier one's. *)
Lemma versions_can_repeat :
  reachable default_settings retrained_store /\
  trained_models retrained_store = [model_v1; model_retrained] /\
  TrainedModel.id model_v1 <> TrainedModel.id model_retrained /\
  same_version model_v1 model_retrained = true /\
  versions_stored model_retrained retrained_store = 2 /\
  ~ (TrainedModel.version model_v1 < TrainedModel.version model_retrained)%Z.
Proof.
  split; [apply store_after_reachable|].
  repeat split; try reflexivity; [discriminate | intros H; discriminate H].
Qed.

(** C5, amended.  [version] is an integer column whose default is 1, and
    [trained_models] carries no uniqueness beyond its primary key.  On the
    SQLite store, when the table exists, the [id] is new and the owner
    exists, the store accepts the model whatever its version within the 64
    bits of the store's INTEGER (the same for [training_data_count]), also a
    version that is stored already for the same owner and name, and then
    holds one more row with that (owner, model_name, version); outside the
    64 bits the driver raises [OverflowError]. *)
Theorem version_not_constrained (s : Settings) (c : dbapi_connection) (d : Database)
  (m : TrainedModel.t) :
  is_sqlite_backend (database_url s) = true ->
  reachable s d -> new_connection s = Ok c ->
  has_table d TrainedModel.tablename = true ->
  mem (TrainedModel.id m) (map TrainedModel.id (trained_models d)) = false ->
  mem (TrainedModel.user_id m) (map User.id (users d)) = true ->
  TrainedModel.default_version = 1%Z /\
  (fits_int64 (TrainedModel.version m) = true ->
   fits_opt (TrainedModel.training_data_count m) = true ->
   exists d', execute c d (Insert (RowTrainedModel m)) = Ok d' /\
     trained_models d' = trained_models d ++ [bind_trained_model m] /\
     TrainedModel.version (bind_trained_model m) = TrainedModel.version m /\
     versions_stored m d' = S (versions_stored m d)) /\
  (fits_int64 (TrainedModel.version m) = false \/
   fits_opt (TrainedModel.training_data_count m) = false ->
   execute c d (Insert (RowTrainedModel m)) = int_too_large).
Proof.
  intros _ _ Hc Ht Hid Hown. split; [reflexivity|].
  simpl. unfold insert_trained_model, fk_ok. rewrite Ht, Hid, Hown. simpl.
  rewrite orb_true_r. simpl. split.
  - intros Hv Hn. rewrite Hv, Hn. simpl.
    eexists. split; [reflexivity|]. simpl.
    split; [reflexivity|]. split; [reflexivity|].
    unfold versions_stored, count_where. simpl. rewrite filter_app, length_app. simpl.
    assert (E : same_version m (bind_trained_model m) = true).
    { unfold same_version. simpl. now rewrite !String.eqb_refl, Z.eqb_refl. }
    rewrite E. simpl. apply Nat.add_1_r.
  - intros [H | H]; rewrite H; [|rewrite andb_false_r]; reflexivity.
Qed.

Lemma version_not_constrained_witness :
  reachable default_settings sample_store /\
  versions_stored model_retrained sample_store = 1 /\
  exists d', execute enforcing sample_store (Insert (RowTrainedModel model_retrained))
             = Ok d' /\
    trained_models d' = trained_models sample_store ++ [model_retrained] /\
    versions_stored model_retrained d' = 2.
Proof.
  split; [apply store_after_reachable|].
  split; [reflexivity|].
  destruct (@version_not_constrained default_settings enforcing sample_store
              model_retrained eq_refl (store_after_reachable sample_script)
              default_connection eq_refl eq_refl eq_refl) as (_ & H & _).
  destruct (H eq_refl eq_refl) as (d' & H1 & H2 & _ & H3).
  exists d'. repeat split; assumption.
Defined.

(** ** The pool and the session, operation by operation *)

Lemma pool_checkout_eq (w : World) :
  pool_checkout w =
  match connect_outcome w with
  | Ok c => (Ok c, add_event CheckedOut (set_checked_out (S (checked_out w)) w))
  | Raise e => (Raise e, w)
  end.
Proof.
  unfold pool_checkout, connect_outcome, bind, get, throw, raise, fail, lift.
  destruct (pool_size + max_overflow <=? checked_out w)%nat; [reflexivity|].
  destruct (store_up (env w)); simpl; [|reflexivity].
  destruct (new_connection (settings (env w))); reflexivity.
Qed.

Lemma new_connection_error (s : Settings) (e : exn) :
  new_connection s = Raise e -> is_Exception e = true.
Proof.
  unfold new_connection, set_sqlite_pragma, fail.
  destruct (contains "sqlite" (database_url s)); [|discriminate].
  destruct (is_sqlite_backend (database_url s)); [discriminate|].
  intros H. injection H as <-. reflexivity.
Qed.

Lemma connect_outcome_error (w : World) (e : exn) :
  connect_outcome w = Raise e -> is_Exception e = true.
Proof.
  unfold connect_outcome, fail.
  destruct (pool_size + max_overflow <=? checked_out w)%nat.
  - intros H. injection H as <-. reflexivity.
  - destruct (negb (store_up (env w))).
    + intros H. injection H as <-. reflexivity.
    + apply new_connection_error.
Qed.



Lemma end_transaction_eq (w : World) :
  end_transaction w =
  (Ok tt,
   match transaction (session w) with
   | Some _ => add_event Released
                 (set_checked_out (pred (checked_out w)) (set_session fresh_session w))
   | None => set_session fresh_session w
   end).
Proof.
  unfold end_transaction, bind, get, put_session, modify, pool_release, emit, modify.
  destruct (transaction (session w)); reflexivity.
Qed.

Lemma ended_eq (w : World) :
  ended w =
  match transaction (session w) with
  | Some _ => add_event Released
                (set_checked_out (pred (checked_out w)) (set_session fresh_session w))
  | None => set_session fresh_session w
  end.
Proof. unfold ended. now rewrite end_transaction_eq. Qed.

Lemma session_rollback_eq (w : World) :
  session_rollback w = (Ok tt, add_event RolledBack (ended w)).
Proof.
  unfold session_rollback, bind, emit, modify, ended.
  now rewrite end_transaction_eq.
Qed.

Lemma session_close_eq (w : World) :
  session_close w = (Ok tt, add_event Closed (ended w)).
Proof.
  unfold session_close, bind, emit, modify, ended.
  now rewrite end_transaction_eq.
Qed.

Lemma ended_facts (w : World) :
  env (ended w) = env w /\
  database (ended w) = database w /\
  session (ended w) = fresh_session /\
  stdin (ended w) = stdin w /\
  uuids_drawn (ended w) = uuids_drawn w /\
  checked_out (ended w) = checked_out w - held (session w) /\
  (log (ended w) = log w \/ log (ended w) = Released :: log w).
Proof.
  rewrite ended_eq. unfold held.
  destruct (transaction (session w)); simpl; repeat split;
    try (now left); try (now right); try lia.
Qed.


(** ** DDL through the engine *)

Lemma connect_outcome_add_event (ev : Event) (w : World) :
  connect_outcome (add_event ev w) = connect_outcome w.
Proof. reflexivity. Qed.

Lemma metadata_create_all_eq (w : World) :
  metadata_create_all w =
  match connect_outcome w with
  | Ok _ => (Ok tt, evolve (create_all (Base_metadata w) (database w))
                      [Released; created_event w; CheckedOut] w)
  | Raise e => (Raise e, w)
  end.
Proof.
  unfold metadata_create_all, with_connection, bind. rewrite pool_checkout_eq.
  destruct (connect_outcome w); reflexivity.
Qed.

Lemma metadata_drop_all_eq (w : World) :
  metadata_drop_all w =
  match connect_outcome w with
  | Ok _ => (Ok tt, evolve (drop_all (Base_metadata w) (database w))
                      [Released; dropped_event w; CheckedOut] w)
  | Raise e => (Raise e, w)
  end.
Proof.
  unfold metadata_drop_all, with_connection, bind. rewrite pool_checkout_eq.
  destruct (connect_outcome w); reflexivity.
Qed.

Lemma init_db_eq (w : World) :
  init_db w =
  match connect_outcome w with
  | Ok _ => (Ok tt, evolve (create_all (Base_metadata w) (database w))
                      [Logged INFO "Database initialized successfully"; Released;
                       created_event w; CheckedOut;
                       Logged INFO "Initializing database..."] w)
  | Raise e => (Raise e, evolve (database w) [Logged INFO "Initializing database..."] w)
  end.
Proof.
  unfold init_db, bind, logger, emit, modify. rewrite metadata_create_all_eq.
  rewrite connect_outcome_add_event.
  destruct (connect_outcome w); reflexivity.
Qed.

Lemma drop_db_eq (w : World) :
  drop_db w =
  match connect_outcome w with
  | Ok _ => (Ok tt, evolve (drop_all (Base_metadata w) (database w))
                      [Logged WARNING "All tables dropped"; Released;
                       dropped_event w; CheckedOut;
                       Logged WARNING "Dropping all database tables..."] w)
  | Raise e => (Raise e, evolve (database w)
                           [Logged WARNING "Dropping all database tables..."] w)
  end.
Proof.
  unfold drop_db, bind, logger, emit, modify. rewrite metadata_drop_all_eq.
  rewrite connect_outcome_add_event.
  destruct (connect_outcome w); reflexivity.
Qed.

Lemma connect_outcome_evolve (d : Database) (evs : list Event) (w : World) :
  connect_outcome (evolve d evs w) = connect_outcome w.
Proof. reflexivity. Qed.

Lemma connect_outcome_set_stdin (l : list string) (w : World) :
  connect_outcome (set_stdin l w) = connect_outcome w.
Proof. reflexivity. Qed.

Lemma Base_metadata_evolve (d : Database) (evs : list Event) (w : World) :
  Base_metadata (evolve d evs w) = Base_metadata w.
Proof. reflexivity. Qed.

Lemma Base_metadata_set_stdin (l : list string) (w : World) :
  Base_metadata (set_stdin l w) = Base_metadata w.
Proof. reflexivity. Qed.




(** ** The connectivity probe *)

Lemma check_database_connection_eq (w : World) :
  check_database_connection w =
  match connect_outcome w with
  | Raise e =>
      (Ok false,
       evolve (database w)
         [Logged ERROR (String.append "✗ Database connection failed: " (str e))] w)
  | Ok _ =>
      if execute_accepts_str (env w)
      then (Ok true,
            evolve (database w)
              [Released; Logged SUCCESS "✓ Database connection successful"; CheckedOut] w)
      else (Ok false,
            evolve (database w)
              [Logged ERROR
                 (String.append "✗ Database connection failed: "
                    "Not an executable object: SELECT 1");
               Released; CheckedOut] w)
  end.
Proof.
  unfold check_database_connection, try_except, with_connection, bind.
  rewrite pool_checkout_eq.
  destruct (connect_outcome w) as [c | e] eqn:Hc.
  - unfold try_finally, connection_execute_str, bind, get. cbn [env add_event set_checked_out].
    destruct (execute_accepts_str (env w)); reflexivity.
  - rewrite (connect_outcome_error _ Hc). reflexivity.
Qed.


(** ** The guarded reset *)

Lemma reset_database_eq (w : World) (confirm : string) (rest : list string) :
  stdin w = confirm :: rest ->
  let w1 := set_stdin rest
              (evolve (database w)
                 [Prompted "Type 'yes' to confirm database reset: ";
                  Logged WARNING
                    "⚠️  WARNING: This will DELETE all data from the database!"] w) in
  reset_database w =
  if lower confirm =? "yes" then
    try_except
      (drop_db ;;
       init_db ;;
       logger SUCCESS "✓ Database reset completed successfully" ;;
       ret true)
      (fun e =>
         logger ERROR (String.append "✗ Database reset failed: " (str e)) ;;
         ret false) w1
  else (Ok false, evolve (database w) [Logged INFO "Database reset cancelled"] w1).
Proof.
  intros Hin. cbv zeta.
  unfold reset_database, input, bind, logger, emit, modify, get, ret.
  cbn [stdin add_event]. rewrite Hin. cbn beta iota.
  destruct (lower confirm =? "yes"); reflexivity.
Qed.

Lemma lower_ascii_y (c : ascii) :
  lower_ascii c = "y"%char -> c = "y"%char \/ c = "Y"%char.
Proof.
  destruct c as [[] [] [] [] [] [] [] []]; vm_compute; intros H;
    try discriminate H; auto.
Qed.

Lemma lower_ascii_e (c : ascii) :
  lower_ascii c = "e"%char -> c = "e"%char \/ c = "E"%char.
Proof.
  destruct c as [[] [] [] [] [] [] [] []]; vm_compute; intros H;
    try discriminate H; auto.
Qed.

Lemma lower_ascii_s (c : ascii) :
  lower_ascii c = "s"%char -> c = "s"%char \/ c = "S"%char.
Proof.
  destruct c as [[] [] [] [] [] [] [] []]; vm_compute; intros H;
    try discriminate H; auto.
Qed.

(** The gate compares the lowered input: eight spellings pass it. *)
Lemma lower_yes (s : string) : lower s = "yes" <-> In s confirmations.
Proof.
  split.
  - destruct s as [|a [|b [|c [|x r]]]]; simpl; intros H; try discriminate H.
    injection H as Ha Hb Hc.
    destruct (lower_ascii_y _ Ha) as [-> | ->];
      destruct (lower_ascii_e _ Hb) as [-> | ->];
      destruct (lower_ascii_s _ Hc) as [-> | ->]; tauto.
  - unfold confirmations. simpl.
    intros H. repeat (destruct H as [<- | H]; [reflexivity|]). destruct H.
Qed.

Lemma dropped_event_same (w w' : World) :
  models_imported w' = models_imported w -> database w' = database w ->
  dropped_event w' = dropped_event w.
Proof. unfold dropped_event, Base_metadata. now intros -> ->. Qed.

(** The claim of C2 fails for the input [YES], which is not the token
    [yes]: the reset goes ahead and reports success.  In a process that has
    imported [src.models] the tables are dropped and the rows are gone. *)
Lemma reset_database_accepts_uppercase :
  let w := with_models (world_of sample_env sample_store ["YES"]) in
  "YES" <> "yes" /\
  users (database w) = [alice] /\
  run reset_database w = Ok true /\
  run reset_database (world_of sample_env sample_store ["YES"]) = Ok true /\
  (exists names,
     In (DroppedTables names) (log (exec reset_database w)) /\
     In "users" names /\ length names = 7) /\
  has_table (database (exec reset_database w)) "users" = true /\
  users (database (exec reset_database w)) = [] /\
  timeseries_data (database (exec reset_database w)) = [].
Proof.
  cbv zeta. split; [discriminate|]. split; [reflexivity|].
  split; [vm_compute; reflexivity|]. split; [vm_compute; reflexivity|].
  split.
  - exists (map tablename
              (to_drop metadata
                 (database (with_models (world_of sample_env sample_store ["YES"]))))).
    split; [vm_compute; tauto|]. split; [vm_compute; tauto | reflexivity].
  - split; [vm_compute; reflexivity|]. split; vm_compute; reflexivity.
Qed.

(** C2, amended.  [reset_database] lowers the input before it compares it
    with [yes].  For an input that is none of the eight spellings of [yes]
    it returns [False] and does nothing but log: nothing is dropped, the
    store and the pool are as before.  For one of the eight spellings it runs
    [drop_db] and then [init_db] when the engine can connect, on the tables
    registered on [Base.metadata], and returns [True]; it returns [False]
    with the store untouched when the engine cannot connect. *)
Theorem reset_database_gate (w : World) (confirm : string) (rest : list string) :
  stdin w = confirm :: rest ->
  (~ In confirm confirmations ->
   run reset_database w = Ok false /\
   database (exec reset_database w) = database w /\
   checked_out (exec reset_database w) = checked_out w /\
   log (exec reset_database w) =
     Logged INFO "Database reset cancelled" :: reset_prompt ++ log w) /\
  (In confirm confirmations ->
   (forall c, connect_outcome w = Ok c ->
      run reset_database w = Ok true /\
      database (exec reset_database w) =
        create_all (Base_metadata w) (drop_all (Base_metadata w) (database w)) /\
      In (dropped_event w) (log (exec reset_database w)) /\
      forall t, In t (Base_metadata w) ->
        has_table (database (exec reset_database w)) (tablename t) = true /\
        row_count (tablename t) (database (exec reset_database w)) =
          if has_table (database w) (tablename t) then 0
          else row_count (tablename t) (database w)) /\
   (forall e, connect_outcome w = Raise e ->
      run reset_database w = Ok false /\
      database (exec reset_database w) = database w)).
Proof.
  intros Hin. unfold run, exec. rewrite (reset_database_eq w Hin). cbv zeta. split.
  - intros Hno. rewrite <- lower_yes in Hno. apply String.eqb_neq in Hno.
    rewrite Hno. cbn [fst snd]. repeat split.
  - intros Hyes. rewrite <- lower_yes in Hyes. apply String.eqb_eq in Hyes.
    rewrite Hyes. unfold try_except, bind. rewrite drop_db_eq.
    rewrite connect_outcome_set_stdin, connect_outcome_evolve.
    split.
    + intros c Hc. rewrite Hc. rewrite init_db_eq.
      rewrite connect_outcome_evolve, connect_outcome_set_stdin,
        connect_outcome_evolve, Hc.
      rewrite !Base_metadata_evolve, !Base_metadata_set_stdin, !Base_metadata_evolve.
      unfold logger, emit, modify, ret.
      cbn [fst snd evolve database log app set_stdin add_event].
      split; [reflexivity|]. split; [reflexivity|].
      split; [do 8 right; left; apply dropped_event_same; reflexivity|].
      intros t Ht. split; [now apply has_table_create_all|].
      rewrite row_count_create_all.
      destruct (has_table (database w) (tablename t)) eqn:E.
      * unfold drop_all. apply row_count_drop_tables. apply in_map.
        apply to_drop_In. now split.
      * now apply row_count_drop_all_absent.
    + intros e He. rewrite He. rewrite (connect_outcome_error _ He).
      unfold logger, emit, modify, ret, bind.
      cbn [fst snd evolve database log app set_stdin add_event].
      repeat split.
Qed.

Lemma reset_database_gate_witness :
  let w := world_of sample_env sample_store ["no"] in
  stdin w = "no" :: [] /\
  ~ In "no" confirmations /\
  run reset_database w = Ok false /\
  database (exec reset_database w) = sample_store /\
  log (exec reset_database w) = Logged INFO "Database reset cancelled" :: reset_prompt.
Proof.
  cbv zeta.
  assert (Hno : ~ In "no" confirmations).
  { unfold confirmations. simpl. intros H.
    repeat (destruct H as [H | H]; [discriminate H|]). destruct H. }
  destruct (@reset_database_gate (world_of sample_env sample_store ["no"]) "no" []
              eq_refl) as [H _].
  destruct (H Hno) as (H1 & H2 & _ & H4).
  split; [reflexivity|]. split; [exact Hno|]. split; [exact H1|].
  split; [exact H2 | exact H4].
Defined.

(** ** The session, step by step *)

Ltac wsimpl :=
  cbn [fst snd env stdin uuids_drawn models_imported database checked_out session
       log set_stdin set_uuids_drawn set_models_imported set_database set_checked_out
       set_session add_event evolve new transaction inactive conn view held
       fresh_session begun] in *.

Lemma session_begin_eq (w : World) :
  session_begin w =
  if inactive (session w) then pending_rollback w
  else match transaction (session w) with
       | Some t => (Ok t, w)
       | None =>
           match connect_outcome w with
           | Ok c => (Ok {| conn := c; view := database w |}, begun c w)
           | Raise e => (Raise e, w)
           end
       end.
Proof.
  unfold session_begin, bind, get. destruct (inactive (session w)); [reflexivity|].
  destruct (transaction (session w)); [reflexivity|].
  rewrite pool_checkout_eq. destruct (connect_outcome w); reflexivity.
Qed.








Lemma ended_quiet (n : nat) (w : World) : balanced n w -> quiet n w (ended w).
Proof.
  intros Hb. destruct (ended_facts w) as (He & Hd & Hs & _ & _ & Hc & _).
  unfold quiet, balanced in *. rewrite Hs. cbn [held fresh_session transaction].
  repeat split; [lia | exact He | exact Hd].
Qed.

Lemma add_event_quiet (n : nat) (w w' : World) (ev : Event) :
  quiet n w w' -> quiet n w (add_event ev w').
Proof. intros (Hb & He & Hd). now repeat split. Qed.


Lemma session_close_quiet (n : nat) (w : World) :
  balanced n w -> quiet n w (snd (session_close w)).
Proof.
  intros Hb. rewrite session_close_eq. cbn [snd].
  apply add_event_quiet. now apply ended_quiet.
Qed.




(** ** [get_db] *)

Lemma get_db_eq (A : Type) (body : M A) (w : World) :
  get_db body w =
  match body (set_session fresh_session w) with
  | (Ok a, w1) => (Ok a, add_event Closed (ended w1))
  | (Raise e, w1) =>
      if is_Exception e
      then (Raise e,
            add_event Closed
              (ended (add_event (session_error e) (add_event RolledBack (ended w1)))))
      else (Raise e, add_event Closed (ended w1))
  end.
Proof.
  unfold get_db, bind, SessionLocal, modify, try_finally, try_except.
  destruct (body (set_session fresh_session w)) as [[a | e] w1].
  - rewrite session_close_eq. reflexivity.
  - destruct (is_Exception e).
    + rewrite session_rollback_eq. unfold logger, emit, modify, raise.
      rewrite session_close_eq. reflexivity.
    + rewrite session_close_eq. reflexivity.
Qed.

Lemma ended_fresh (w : World) :
  session w = fresh_session -> log (ended w) = log w.
Proof. intros H. rewrite ended_eq, H. reflexivity. Qed.



(** ** [create_admin_user] *)

Lemma connect_outcome_set_session (s : Session) (w : World) :
  connect_outcome (set_session s w) = connect_outcome w.
Proof. reflexivity. Qed.

Lemma connect_outcome_set_models_imported (b : bool) (w : World) :
  connect_outcome (set_models_imported b w) = connect_outcome w.
Proof. reflexivity. Qed.

Lemma flush_order_single (r : Row) : flush_order [r] = [r].
Proof. destruct r; reflexivity. Qed.

(** A commit with one pending row in an open transaction. *)
Lemma session_commit_one (w : World) (t : Transaction) (r : Row) :
  session w = {| new := [r]; transaction := Some t; inactive := false |} ->
  session_commit w =
  match insert_row (foreign_keys (conn t)) (view t)
          (with_defaults (utcnow (env w)) r) with
  | Ok v =>
      (Ok tt,
       add_event Committed
         (add_event Released
            (set_checked_out (pred (checked_out w))
               (set_session fresh_session (set_database v w)))))
  | Raise e =>
      (Raise e, set_session {| new := [r]; transaction := Some t; inactive := true |} w)
  end.
Proof.
  intros Hs. unfold session_commit, session_flush.
  cbv beta iota delta [bind get]. rewrite Hs. cbn [inactive new].
  rewrite session_begin_eq. rewrite Hs. cbn [inactive transaction new].
  cbv beta iota delta [bind get]. rewrite Hs. cbn [new map].
  rewrite flush_order_single. cbn [insert_rows].
  destruct (insert_row (foreign_keys (conn t)) (view t)
              (with_defaults (utcnow (env w)) r)) as [v | e].
  - cbv beta iota delta [put_session modify bind get ret].
    cbn [session set_session transaction view].
    rewrite end_transaction_eq. cbn [session set_session set_database transaction].
    cbv beta iota delta [emit modify]. reflexivity.
  - cbv beta iota delta [put_session modify bind get ret raise]. reflexivity.
Qed.

Lemma insert_user_error (d : Database) (u : User.t) (e : exn) :
  insert_user d u = Raise e -> is_Exception e = true.
Proof.
  unfold insert_user, no_such_table, unique_failed, fail.
  repeat match goal with
         | |- (if ?b then _ else _) = _ -> _ => destruct b
         end;
    intros H; try discriminate H; injection H as <-; reflexivity.
Qed.

Ltac mstep :=
  cbv beta iota delta [bind import_models SessionLocal modify try_finally try_except ret
    logger emit get lift raise throw put_session query_user_by_username hash_password
    new_user draw_uuid session_add];
  wsimpl.

Ltac caught e He Hwhy :=
  rewrite He; rewrite session_rollback_eq, ended_eq; mstep;
  rewrite session_close_eq, ended_eq; mstep;
  eapply admin_failed with (e := e); [exact He | exact Hwhy | reflexivity ..].

(** [create_admin_user] ends in one of the four ways, in every world. *)
Lemma create_admin_user_outcome (w : World) :
  AdminOutcome w (run create_admin_user w) (exec create_admin_user w).
Proof.
  unfold run, exec, create_admin_user. mstep.
  rewrite session_begin_eq. wsimpl.
  rewrite connect_outcome_set_session, connect_outcome_set_models_imported.
  destruct (connect_outcome w) as [c | e] eqn:Hc.
  - mstep.
    destruct (has_table (database w) User.tablename) eqn:Ht; mstep.
    + fold (find_admin (database w)).
      destruct (find_admin (database w)) as [u|] eqn:Hf; mstep.
      * rewrite session_close_eq. rewrite ended_eq. mstep.
        exact (admin_existing _ Hc Ht Hf).
      * destruct (pwd_context_hash (env w) "admin123") as [h | e] eqn:Hh; mstep.
        -- erewrite session_commit_one; [|reflexivity]. mstep.
           fold (admin_row w h).
           change (with_defaults (utcnow (env w)) (RowUser (admin_row w h)))
             with (RowUser (admin_row w h)).
           cbn [insert_row].
           destruct (insert_user (database w) (admin_row w h)) as [d' | e] eqn:Hi.
           ++ rewrite session_close_eq, ended_eq. mstep.
              exact (admin_created _ Hc Ht Hf Hh Hi).
           ++ assert (He : is_Exception e = true) by (eapply insert_user_error; eauto).
              assert (Hwhy : admin_failure w = Some e).
              { unfold admin_failure. now rewrite Hc, Ht, Hf, Hh, Hi. }
              caught e He Hwhy.
        -- assert (Hwhy : admin_failure w = Some e).
           { unfold admin_failure. now rewrite Hc, Ht, Hf, Hh. }
           destruct (is_Exception e) eqn:He.
           ++ rewrite session_rollback_eq, ended_eq; mstep.
              rewrite session_close_eq, ended_eq; mstep.
              eapply admin_failed with (e := e); [exact He | exact Hwhy | reflexivity ..].
           ++ rewrite session_close_eq, ended_eq. mstep.
              eapply admin_interrupted with (e := e);
                [exact He | exact Hwhy | reflexivity ..].
    + set (e := {| exc_class := OperationalError;
                   exc_msg := String.append "no such table: " User.tablename |}).
      assert (He : is_Exception e = true) by reflexivity.
      assert (Hwhy : admin_failure w = Some e).
      { unfold admin_failure. now rewrite Hc, Ht. }
      unfold no_such_table, fail. fold e. caught e He Hwhy.
  - assert (He : is_Exception e = true) by (eapply connect_outcome_error; eauto).
    assert (Hwhy : admin_failure w = Some e).
    { unfold admin_failure. now rewrite Hc. }
    caught e He Hwhy.
Qed.

Ltac admin_cases w :=
  let H := fresh "Hout" in
  let r := fresh "r" in
  let w' := fresh "w'" in
  let Er := fresh "Er" in
  let Ew := fresh "Ew" in
  pose proof (create_admin_user_outcome w) as H;
  remember (run create_admin_user w) as r eqn:Er;
  remember (exec create_admin_user w) as w' eqn:Ew;
  destruct H.

Lemma admin_failure_none_existing (w : World) (c : dbapi_connection) (u : User.t) :
  connect_outcome w = Ok c -> has_table (database w) User.tablename = true ->
  find_admin (database w) = Some u -> admin_failure w = None.
Proof. intros Hc Ht Hf. unfold admin_failure. now rewrite Hc, Ht, Hf. Qed.

Lemma admin_failure_none_created (w : World) (c : dbapi_connection) (h : string)
  (d' : Database) :
  connect_outcome w = Ok c -> has_table (database w) User.tablename = true ->
  find_admin (database w) = None -> pwd_context_hash (env w) "admin123" = Ok h ->
  insert_user (database w) (admin_row w h) = Ok d' -> admin_failure w = None.
Proof.
  intros Hc Ht Hf Hh Hi. unfold admin_failure. now rewrite Hc, Ht, Hf, Hh, Hi.
Qed.

(** The row is there: it is returned and nothing is written. *)
Lemma admin_when_existing (w : World) (c : dbapi_connection) (u : User.t) :
  connect_outcome w = Ok c -> has_table (database w) User.tablename = true ->
  find_admin (database w) = Some u ->
  run create_admin_user w = Ok (Some u) /\
  exec create_admin_user w =
    set_session fresh_session (evolve (database w) admin_found_log (set_models_imported true w)).
Proof.
  intros Hc Ht Hf.
  assert (Hnone : admin_failure w = None)
    by (eapply admin_failure_none_existing; eassumption).
  admin_cases w; try congruence.
  split; [congruence | reflexivity].
Qed.

(** The row is not there and can be made: it is inserted and returned. *)
Lemma admin_when_created (w : World) (c : dbapi_connection) (h : string)
  (d' : Database) :
  connect_outcome w = Ok c -> has_table (database w) User.tablename = true ->
  find_admin (database w) = None -> pwd_context_hash (env w) "admin123" = Ok h ->
  insert_user (database w) (admin_row w h) = Ok d' ->
  run create_admin_user w = Ok (Some (admin_row w h)) /\
  exec create_admin_user w =
    set_uuids_drawn (S (uuids_drawn w))
      (set_session fresh_session (evolve d' admin_created_log (set_models_imported true w))).
Proof.
  intros Hc Ht Hf Hh Hi.
  assert (Hnone : admin_failure w = None)
    by (eapply admin_failure_none_created; eassumption).
  admin_cases w; try congruence.
  assert (h0 = h) by congruence. subst h0.
  assert (d'0 = d') by congruence. subst d'0.
  split; reflexivity.
Qed.

(** An [Exception] on the way: rolled back, logged, reported as [None]. *)
Lemma admin_when_failed (w : World) (e : exn) :
  admin_failure w = Some e -> is_Exception e = true ->
  run create_admin_user w = Ok None /\
  env (exec create_admin_user w) = env w /\
  database (exec create_admin_user w) = database w /\
  checked_out (exec create_admin_user w) = checked_out w /\
  session (exec create_admin_user w) = fresh_session /\
  exists rest,
    log (exec create_admin_user w) = Closed :: admin_error e :: RolledBack :: rest.
Proof.
  intros Hwhy He.
  admin_cases w.
  - assert (Hnone : admin_failure w = None)
      by (eapply admin_failure_none_existing; eassumption).
    congruence.
  - assert (Hnone : admin_failure w = None)
      by (eapply admin_failure_none_created; eassumption).
    congruence.
  - assert (e0 = e) by congruence. subst e0.
    repeat split; try assumption. now exists rest.
  - congruence.
Qed.

(** What a returned user tells about the world it was returned in. *)
Lemma admin_returned (w : World) (u : User.t) :
  run create_admin_user w = Ok (Some u) ->
  exists c,
    connect_outcome w = Ok c /\ has_table (database w) User.tablename = true /\
    (find_admin (database w) = Some u \/
     exists h d',
       find_admin (database w) = None /\
       pwd_context_hash (env w) "admin123" = Ok h /\
       insert_user (database w) (admin_row w h) = Ok d' /\
       u = admin_row w h).
Proof.
  intros Hrun. admin_cases w; try congruence.
  - exists c. repeat split; try assumption. left. congruence.
  - exists c. repeat split; try assumption. right. exists h, d'.
    repeat split; try assumption. congruence.
Qed.

Lemma find_none_filter (A : Type) (p : A -> bool) (l : list A) :
  find p l = None -> filter p l = [].
Proof.
  induction l as [|a l IH]; simpl; [reflexivity|].
  destruct (p a); [discriminate | exact IH].
Qed.

Lemma find_app_new (A : Type) (p : A -> bool) (l : list A) (x : A) :
  find p l = None -> p x = true -> find p (l ++ [x]) = Some x.
Proof.
  induction l as [|a l IH]; simpl; intros Hf Hp.
  - now rewrite Hp.
  - destruct (p a); [discriminate | now apply IH].
Qed.

Lemma insert_user_ok (d d' : Database) (u : User.t) :
  insert_user d u = Ok d' -> d' = set_users (users d ++ [u]) d.
Proof. intros H. unfold insert_user in H. break_ok H. reflexivity. Qed.

(** Calling twice in a store where the address the bootstrap uses is taken
    by another user: both calls return [None] and no row has the reserved
    username, so the claim of C7 fails there. *)
Lemma create_admin_user_can_fail_twice :
  let w := world_of sample_env store_with_bob [] in
  let w1 := exec create_admin_user w in
  let w2 := exec create_admin_user w1 in
  reachable default_settings (database w) /\
  users (database w) = [bob] /\
  run create_admin_user w = Ok None /\
  run create_admin_user w1 = Ok None /\
  users_named "admin" (database w2) = 0 /\
  admin_failure w = Some {| exc_class := IntegrityError;
                            exc_msg := "UNIQUE constraint failed: users.email" |}.
Proof.
  cbv zeta. split; [apply store_after_reachable|].
  repeat split; reflexivity.
Qed.

(** C7, amended.  When [create_admin_user] returns a user, a second call
    returns the same user and writes nothing, and the store holds exactly
    one row with the username [admin] after each call.  If such a row was
    there before the first call it is the one returned and the store is
    unchanged; otherwise the returned row is the one appended to [users],
    with the role [ADMIN] and active. *)
Theorem create_admin_user_idempotent (w : World) (u : User.t) :
  users_unique (database w) = true ->
  run create_admin_user w = Ok (Some u) ->
  let w1 := exec create_admin_user w in
  let w2 := exec create_admin_user w1 in
  run create_admin_user w1 = Ok (Some u) /\
  database w2 = database w1 /\
  User.username u = "admin" /\
  users_named "admin" (database w1) = 1 /\
  users_named "admin" (database w2) = 1 /\
  (forall x, find_admin (database w) = Some x -> x = u /\ database w1 = database w) /\
  (find_admin (database w) = None ->
   database w1 = set_users (users (database w) ++ [u]) (database w) /\
   User.role u = ADMIN /\ User.is_active u = true).
Proof.
  intros Huniq Hrun. cbv zeta.
  destruct (@admin_returned w u Hrun) as (c & Hc & Ht & [Hf | (h & d' & Hf & Hh & Hi & Hu)]).
  - destruct (@admin_when_existing w c u Hc Ht Hf) as [_ E1]. rewrite E1.
    destruct (@admin_when_existing
                (set_session fresh_session (evolve (database w) admin_found_log (set_models_imported true w)))
                c u Hc Ht Hf) as [R2 E2].
    rewrite R2, E2. cbn [database set_session evolve set_models_imported].
    pose proof (@find_some _ _ _ _ Hf) as [Hin Hname]. apply String.eqb_eq in Hname.
    assert (Hone : users_named "admin" (database w) = 1).
    { unfold users_named. rewrite <- Hname. apply count_where_unique; [|exact Hin].
      unfold users_unique in Huniq. apply andb_true_iff in Huniq.
      destruct Huniq as [Huniq _]. apply andb_true_iff in Huniq.
      destruct Huniq as [_ Huniq]. now apply distinct_NoDup. }
    repeat split; try assumption; try congruence.
  - subst u. destruct (@admin_when_created w c h d' Hc Ht Hf Hh Hi) as [_ E1]. rewrite E1.
    pose proof (@insert_user_ok (database w) d' (admin_row w h) Hi) as Hd'.
    assert (Ht' : has_table d' User.tablename = true) by (subst d'; exact Ht).
    assert (Hf' : find_admin d' = Some (admin_row w h)).
    { subst d'. unfold find_admin. cbn [users set_users].
      apply find_app_new; [exact Hf | reflexivity]. }
    destruct (@admin_when_existing
                (set_uuids_drawn (S (uuids_drawn w))
                   (set_session fresh_session (evolve d' admin_created_log (set_models_imported true w))))
                c (admin_row w h) Hc Ht' Hf') as [R2 E2].
    rewrite R2, E2. cbn [database set_session evolve set_uuids_drawn set_models_imported].
    assert (Hone : users_named "admin" d' = 1).
    { subst d'. unfold users_named, count_where. cbn [users set_users].
      rewrite filter_app, length_app.
      unfold find_admin in Hf. rewrite (@find_none_filter _ _ _ Hf). reflexivity. }
    repeat split; try assumption; try congruence.
Qed.

Lemma create_admin_user_idempotent_witness :
  let w := world_of sample_env sample_store [] in
  let w1 := exec create_admin_user w in
  users_unique (database w) = true /\
  run create_admin_user w = Ok (Some (admin_row w "$2b$12$admin123")) /\
  run create_admin_user w1 = Ok (Some (admin_row w "$2b$12$admin123")) /\
  users_named "admin" (database w1) = 1 /\
  users_named "admin" (database (exec create_admin_user w1)) = 1.
Proof.
  cbv zeta.
  destruct (@create_admin_user_idempotent (world_of sample_env sample_store [])
              (admin_row (world_of sample_env sample_store []) "$2b$12$admin123")
              eq_refl eq_refl) as (H1 & _ & _ & H4 & H5 & _).
  split; [reflexivity|]. split; [reflexivity|]. split; [exact H1|].
  split; [exact H4 | exact H5].
Defined.

(** C10.  Whenever [create_admin_user] creates the row (it returns a user
    and no row had the username [admin]), the row has the username [admin],
    the email [admin@financialanalytics.local], and as password hash what the
    hashing capability returns for the plaintext [admin123]; the one call of
    the capability is on [admin123], and that password is written to the
    log.  This holds in every world: no setting, input or state changes
    these values. *)
Theorem admin_credentials_fixed (w : World) (u : User.t) :
  find_admin (database w) = None ->
  run create_admin_user w = Ok (Some u) ->
  User.username u = "admin" /\
  User.email u = "admin@financialanalytics.local" /\
  pwd_context_hash (env w) "admin123" = Ok (User.hashed_password u) /\
  u = admin_row w (User.hashed_password u) /\
  log (exec create_admin_user w) = admin_created_log ++ log w /\
  (forall p, In (Hashed p) admin_created_log -> p = "admin123") /\
  In (Logged INFO "  Password: admin123") admin_created_log.
Proof.
  intros Hnone Hrun.
  destruct (@admin_returned w u Hrun)
    as (c & Hc & Ht & [Hf | (h & d' & Hf & Hh & Hi & Hu)]); [congruence|].
  destruct (@admin_when_created w c h d' Hc Ht Hf Hh Hi) as [_ E]. rewrite E.
  subst u. cbn [admin_row User.username User.email User.hashed_password].
  repeat split; try assumption.
  - intros p Hp. unfold admin_created_log in Hp. simpl in Hp.
    repeat (destruct Hp as [Hp | Hp]; [try discriminate Hp; now injection Hp as <-|]).
    destruct Hp.
  - unfold admin_created_log. simpl. tauto.
Qed.

Lemma admin_credentials_fixed_witness :
  let w := world_of sample_env sample_store [] in
  find_admin (database w) = None /\
  exists u,
    run create_admin_user w = Ok (Some u) /\
    User.username u = "admin" /\
    User.email u = "admin@financialanalytics.local" /\
    User.hashed_password u = "$2b$12$admin123".
Proof.
  cbv zeta. split; [reflexivity|].
  exists (admin_row (world_of sample_env sample_store []) "$2b$12$admin123").
  destruct (@admin_credentials_fixed (world_of sample_env sample_store [])
              (admin_row (world_of sample_env sample_store []) "$2b$12$admin123")
              eq_refl eq_refl) as (H1 & H2 & _).
  split; [reflexivity|]. split; [exact H1|]. split; [exact H2 | reflexivity].
Defined.

(** ** Which operations raise and which report *)

Lemma setup_database_eq (w : World) :
  let start := Logged INFO (String.append "Setting up database at: "
                              (database_url (settings (env w)))) in
  setup_database w =
  match connect_outcome w with
  | Ok _ =>
      (Ok true,
       evolve (create_all (Base_metadata w) (database w))
         [Logged SUCCESS "✓ Database setup completed successfully";
          Logged INFO "Database initialized successfully"; Released;
          created_event w; CheckedOut; Logged INFO "Initializing database...";
          start] w)
  | Raise e =>
      (Ok false,
       evolve (database w)
         [setup_error e; Logged INFO "Initializing database..."; start] w)
  end.
Proof.
  cbv zeta. unfold setup_database, try_except.
  cbv beta iota delta [bind get logger emit modify ret].
  rewrite init_db_eq, connect_outcome_add_event.
  destruct (connect_outcome w) as [c | e] eqn:Hc.
  - reflexivity.
  - rewrite (connect_outcome_error _ Hc). reflexivity.
Qed.

(** At the end of the input [input] raises before the [try] is entered. *)
Lemma reset_database_at_end (w : World) :
  stdin w = [] ->
  reset_database w = (Raise end_of_input, evolve (database w) reset_prompt w).
Proof.
  intros Hin. unfold reset_database, input.
  cbv beta iota delta [bind logger emit modify get throw raise].
  cbn [stdin add_event]. rewrite Hin. reflexivity.
Qed.

(** Once a line is read, [reset_database] returns a boolean. *)
Lemma reset_database_returns (w : World) (confirm : string) (rest : list string) :
  stdin w = confirm :: rest -> exists b, run reset_database w = Ok b.
Proof.
  intros Hin. unfold run. rewrite (reset_database_eq w Hin). cbv zeta.
  destruct (lower confirm =? "yes"); [|eexists; reflexivity].
  unfold try_except, bind. rewrite drop_db_eq.
  rewrite connect_outcome_set_stdin, connect_outcome_evolve.
  destruct (connect_outcome w) as [c | e] eqn:Hc.
  - rewrite init_db_eq.
    rewrite connect_outcome_evolve, connect_outcome_set_stdin,
      connect_outcome_evolve, Hc.
    unfold logger, emit, modify, ret. cbn [fst]. eexists. reflexivity.
  - rewrite (connect_outcome_error _ Hc).
    unfold logger, emit, modify, ret, bind. cbn [fst]. eexists. reflexivity.
Qed.

(** The claim of C8 fails where the store does not answer: creating the
    admin meets an error, and the operation returns [None] instead of
    raising; [setup_database] and [check_database_connection] return
    [False]. *)
Lemma create_admin_user_returns_none_on_error :
  let w := world_of env_store_down sample_store [] in
  admin_failure w = Some store_down_error /\
  is_Exception store_down_error = true /\
  run create_admin_user w = Ok None /\
  run create_admin_user w <> Raise store_down_error /\
  run setup_database w = Ok false /\
  run check_database_connection w = Ok false.
Proof.
  cbv zeta. repeat split; try reflexivity. discriminate.
Qed.

(** C8, amended.  An error [e] that is an instance of [Exception] is
    handled as follows.  [get_db] rolls the session back, logs the error
    and raises it again.  [init_db] and [drop_db] have no handler: a failure
    to connect is raised to the caller and they log no error.
    [setup_database], [check_database_connection] and [create_admin_user]
    catch the error, log it as an error and report it by their result
    ([False], [None]) without raising.  [reset_database] does so for a
    failure of [drop_db] or [init_db], which run inside its [try]: once a
    line is read it returns a boolean.  The line is read outside the [try]:
    at the end of the input the [EOFError] of [input] is raised to the
    caller and not logged.  A failure while the admin is created is rolled
    back and leaves the store as it was.  [create_admin_user] raises only
    what is not an [Exception]. *)
Theorem failures_logged_and_reported (w : World) (e : exn) :
  is_Exception e = true ->
  (forall uow, run (run_steps uow) (set_session fresh_session w) = Raise e ->
     run (get_db (run_steps uow)) w = Raise e /\
     exists rest,
       log (exec (get_db (run_steps uow)) w)
       = Closed :: session_error e :: RolledBack :: rest) /\
  (connect_outcome w = Raise e ->
     run init_db w = Raise e /\
     log (exec init_db w) = Logged INFO "Initializing database..." :: log w /\
     run drop_db w = Raise e /\
     log (exec drop_db w) = Logged WARNING "Dropping all database tables..." :: log w /\
     run setup_database w = Ok false /\
     (exists rest, log (exec setup_database w) = setup_error e :: rest) /\
     database (exec setup_database w) = database w /\
     run check_database_connection w = Ok false /\
     log (exec check_database_connection w) = check_error e :: log w /\
     (forall confirm rest, stdin w = confirm :: rest -> In confirm confirmations ->
        run reset_database w = Ok false /\
        database (exec reset_database w) = database w /\
        exists rest', log (exec reset_database w) = reset_error e :: rest')) /\
  (exists b, run setup_database w = Ok b) /\
  (exists b, run check_database_connection w = Ok b) /\
  (forall confirm rest, stdin w = confirm :: rest ->
     exists b, run reset_database w = Ok b) /\
  (stdin w = [] ->
     run reset_database w = Raise end_of_input /\
     is_Exception end_of_input = true /\
     database (exec reset_database w) = database w /\
     log (exec reset_database w) = reset_prompt ++ log w) /\
  (admin_failure w = Some e ->
     run create_admin_user w = Ok None /\
     database (exec create_admin_user w) = database w /\
     checked_out (exec create_admin_user w) = checked_out w /\
     exists rest,
       log (exec create_admin_user w) = Closed :: admin_error e :: RolledBack :: rest) /\
  (forall e', run create_admin_user w = Raise e' -> is_Exception e' = false).
Proof.
  intros He. split; [|split; [|split; [|split; [|split; [|split; [|split]]]]]].
  - intros uow Hrun. unfold run, exec in *. rewrite get_db_eq.
    destruct (run_steps uow (set_session fresh_session w)) as [[[] | e0] w1];
      cbn [fst snd] in *; [discriminate|].
    injection Hrun as ->. rewrite He. cbn [fst snd log add_event].
    split; [reflexivity|].
    destruct (ended_facts w1) as (_ & _ & Hs & _).
    rewrite ended_fresh by exact Hs. cbn [log add_event].
    eexists. reflexivity.
  - intros Hc. unfold run, exec.
    rewrite init_db_eq, drop_db_eq, (setup_database_eq w),
      check_database_connection_eq, Hc.
    cbn [fst snd evolve log database app].
    repeat (split; [first [reflexivity | eexists; reflexivity] |]).
    intros confirm rest Hin Hyes. rewrite (reset_database_eq w Hin). cbv zeta.
    rewrite <- lower_yes in Hyes. apply String.eqb_eq in Hyes. rewrite Hyes.
    unfold try_except, bind. rewrite drop_db_eq.
    rewrite connect_outcome_set_stdin, connect_outcome_evolve, Hc, He.
    unfold logger, emit, modify, ret.
    cbn [fst snd evolve database log app set_stdin add_event].
    repeat split. eexists. reflexivity.
  - unfold run. rewrite (setup_database_eq w). cbv zeta.
    destruct (connect_outcome w); eexists; reflexivity.
  - unfold run. rewrite check_database_connection_eq.
    destruct (connect_outcome w); [destruct (execute_accepts_str (env w))|];
      eexists; reflexivity.
  - intros confirm rest Hin. eapply reset_database_returns; eassumption.
  - intros Hin. unfold run, exec. rewrite (reset_database_at_end w Hin).
    cbn [fst snd evolve database log]. repeat split.
  - intros Hwhy.
    destruct (@admin_when_failed w e Hwhy He) as (H1 & _ & H3 & H4 & _ & H6).
    repeat split; assumption.
  - intros e' Hrun. admin_cases w; try congruence.
Qed.

Lemma failures_logged_and_reported_witness :
  let w := world_of env_store_down sample_store [] in
  is_Exception store_down_error = true /\
  connect_outcome w = Raise store_down_error /\
  run init_db w = Raise store_down_error /\
  run setup_database w = Ok false /\
  run reset_database w = Raise end_of_input /\
  run create_admin_user w = Ok None /\
  database (exec create_admin_user w) = sample_store.
Proof.
  cbv zeta.
  destruct (@failures_logged_and_reported (world_of env_store_down sample_store [])
              store_down_error eq_refl)
    as (_ & Hengine & _ & _ & _ & Heof & Hadmin & _).
  destruct (Hengine eq_refl) as (H1 & _ & _ & _ & H5 & _).
  destruct (Heof eq_refl) as (H6 & _).
  destruct (Hadmin eq_refl) as (H7 & H8 & _).
  repeat split; assumption.
Defined.

(** * Further properties of the code *)

(** ** The connect listener *)

(** X1.  For every URL of the SQLite dialect, whatever its driver and
    path, the listener's test for the text [sqlite] in the URL succeeds: the
    DBAPI connection comes without enforcement of foreign keys, the listener
    turns it on, and every connection the engine opens enforces them. *)
Theorem listener_enforces_foreign_keys (s : Settings) :
  is_sqlite_backend (database_url s) = true ->
  contains "sqlite" (database_url s) = true /\
  foreign_keys (dbapi_connect (database_url s)) = false /\
  new_connection s = Ok {| foreign_keys := true |} /\
  (forall c, new_connection s = Ok c -> foreign_keys c = true).
Proof.
  intros Hb. pose proof (sqlite_backend_named _ Hb) as Hin.
  split; [exact Hin|].
  unfold new_connection, set_sqlite_pragma, dbapi_connect. rewrite Hb, Hin.
  split; [reflexivity|]. split; [reflexivity|].
  intros c H. injection H as <-. reflexivity.
Qed.

Lemma listener_enforces_foreign_keys_witness :
  is_sqlite_backend (database_url default_settings) = true /\
  foreign_keys (dbapi_connect (database_url default_settings)) = false /\
  new_connection default_settings = Ok enforcing.
Proof.
  destruct (@listener_enforces_foreign_keys default_settings eq_refl)
    as (_ & H1 & H2 & _).
  split; [reflexivity|]. split; [exact H1 | exact H2].
Defined.

(** ** Primary keys *)

Lemma consistent_keys_distinct (d : Database) : Consistent d -> keys_distinct d = true.
Proof.
  intros []. unfold keys_distinct.
  repeat (apply andb_true_iff; split); now apply distinct_NoDup.
Qed.

Lemma key_present_table (d : Database) (r : Row) :
  Consistent d -> key_present d r = true -> has_table d (row_table r) = true.
Proof.
  intros Hd Hk. destruct (has_table d (row_table r)) eqn:Ht; [reflexivity|].
  apply (rows_need_table Hd) in Ht. exfalso.
  destruct r; cbn [key_present row_table] in *;
    change (length (users d) = 0) in Ht || change (length (data_uploads d) = 0) in Ht
    || change (length (timeseries_data d) = 0) in Ht
    || change (length (trained_models d) = 0) in Ht
    || change (length (forecasts d) = 0) in Ht
    || change (length (risk_metrics d) = 0) in Ht
    || change (length (kpi_reports d) = 0) in Ht;
    apply length_zero_iff_nil in Ht; rewrite Ht in Hk; discriminate Hk.
Qed.

(** X3.  In every store the engine can produce on SQLite the primary keys
    of each of the seven tables are distinct, and an INSERT of a row whose
    key is already in its table is rejected: with an integrity error of the
    store, or before that with the driver's [OverflowError] when an integer
    of the row does not fit. *)
Theorem primary_keys_unique (s : Settings) (c : dbapi_connection) (d : Database)
  (r : Row) :
  is_sqlite_backend (database_url s) = true ->
  reachable s d -> new_connection s = Ok c ->
  keys_distinct d = true /\
  (key_present d r = true ->
   exists e, execute c d (Insert r) = Raise e /\
     (exc_class e = IntegrityError \/ exc_class e = OverflowError)).
Proof.
  intros _ Hr Hc. pose proof (reachable_consistent Hr) as Hd.
  split; [now apply consistent_keys_distinct|].
  intros Hk. pose proof (key_present_table _ Hd Hk) as Ht.
  destruct r; cbn [execute execute_rows insert_row row_table key_present] in *;
    unfold insert_user, insert_data_upload, insert_timeseries_data,
      insert_trained_model, insert_forecast, insert_risk_metrics, insert_kpi_report,
      unique_failed, not_null_failed, int_too_large, fail;
    rewrite Ht, Hk; cbn [negb];
    repeat match goal with
           | |- context [if ?b then _ else _] => destruct b
           end;
    eexists; (split; [reflexivity|]); cbn [exc_class]; tauto.
Qed.

Lemma primary_keys_unique_witness :
  reachable default_settings sample_store /\
  key_present sample_store (RowTrainedModel model_v1) = true /\
  keys_distinct sample_store = true /\
  execute enforcing sample_store (Insert (RowTrainedModel model_v1))
    = unique_failed "trained_models.id".
Proof.
  destruct (@primary_keys_unique default_settings enforcing sample_store
              (RowTrainedModel model_v1) eq_refl (store_after_reachable sample_script)
              default_connection) as [H1 H2].
  destruct (H2 eq_refl) as (e & He & _).
  split; [apply store_after_reachable|]. split; [reflexivity|].
  split; [exact H1 | reflexivity].
Defined.

(** ** A cascade removes the rows under the parent and no other *)

Lemma mem_selected_key (A : Type) (key : A -> string) (l : list A) (ref uid : string) :
  In ref (map key l) ->
  mem ref (map key (filter (fun x => key x =? uid) l)) = (ref =? uid).
Proof.
  intros Hin. destruct (String.eqb_spec ref uid) as [-> | Hne].
  - now apply key_among_selected.
  - apply mem_not_In. intros H. apply in_map_iff in H. destruct H as [x [Hx Hf]].
    apply filter_In in Hf. destruct Hf as [_ Hf]. apply String.eqb_eq in Hf. congruence.
Qed.

Ltac dbsimpl :=
  cbn [tables indexes users data_uploads timeseries_data trained_models forecasts
       risk_metrics kpi_reports set_schema set_users set_data_uploads
       set_timeseries_data set_trained_models set_forecasts set_risk_metrics
       set_kpi_reports] in *.

(** X4.  On a store the engine can produce, deleting the user [uid] leaves
    exactly the users other than [uid], the uploads and models of the other
    users, and the time series rows, forecasts, risk metrics and KPI reports
    that are not under an upload or a model of [uid]: no row of another
    owner is removed, and no table is dropped. *)
Theorem delete_user_removes_exactly (s : Settings) (c : dbapi_connection)
  (d d' : Database) (uid : string) :
  reachable s d -> new_connection s = Ok c ->
  execute c d (DeleteUser uid) = Ok d' ->
  tables d' = tables d /\
  users d' = filter (fun u => negb (User.id u =? uid)) (users d) /\
  data_uploads d' =
    filter (fun r => negb (DataUpload.user_id r =? uid)) (data_uploads d) /\
  trained_models d' =
    filter (fun m => negb (TrainedModel.user_id m =? uid)) (trained_models d) /\
  timeseries_data d' =
    filter (fun t => negb (mem (TimeSeriesData.data_upload_id t)
                             (map DataUpload.id (owned_uploads uid d))))
           (timeseries_data d) /\
  forecasts d' =
    filter (fun f => negb (mem (Forecast.model_id f)
                             (map TrainedModel.id (owned_models uid d))))
           (forecasts d) /\
  risk_metrics d' =
    filter (fun r => negb (mem (RiskMetrics.model_id r)
                             (map TrainedModel.id (owned_models uid d))))
           (risk_metrics d) /\
  kpi_reports d' =
    filter (fun r => negb (mem (KPIReport.model_id r)
                             (map TrainedModel.id (owned_models uid d))))
           (kpi_reports d).
Proof.
  intros Hr Hc H. pose proof (reachable_consistent Hr) as Hd.
  pose proof (new_connection_enforces _ Hc) as Hfk.
  cbn [execute execute_rows] in H. rewrite Hfk in H. unfold delete_user in H.
  break_ok H. clear E.
  assert (Hup : filter (fun r => mem (DataUpload.user_id r)
                          (map User.id (filter (fun u => User.id u =? uid) (users d))))
                       (data_uploads d) = owned_uploads uid d).
  { unfold owned_uploads. apply filter_ext_in. intros r Hin.
    apply mem_selected_key. apply (fk_data_uploads Hd). now apply in_map. }
  assert (Hmo : filter (fun m => mem (TrainedModel.user_id m)
                          (map User.id (filter (fun u => User.id u =? uid) (users d))))
                       (trained_models d) = owned_models uid d).
  { unfold owned_models. apply filter_ext_in. intros m Hin.
    apply mem_selected_key. apply (fk_trained_models Hd). now apply in_map. }
  unfold delete_users_where, delete_trained_models_where, delete_data_uploads_where.
  dbsimpl. rewrite Hup, Hmo.
  repeat split.
  - apply filter_ext_in. intros r Hin. f_equal.
    apply mem_selected_key. apply (fk_data_uploads Hd). now apply in_map.
  - apply filter_ext_in. intros m Hin. f_equal.
    apply mem_selected_key. apply (fk_trained_models Hd). now apply in_map.
Qed.

(** Two owners: deleting the first leaves the second's upload and point. *)
Lemma delete_user_removes_exactly_witness :
  reachable default_settings two_owner_store /\
  exists d', execute enforcing two_owner_store (DeleteUser "u1") = Ok d' /\
    users d' = [carol] /\ data_uploads d' = [upload_of_carol] /\
    timeseries_data d' = [point_of_carol] /\ trained_models d' = [].
Proof.
  split; [apply store_after_reachable|].
  eexists. split; [reflexivity|].
  destruct (@delete_user_removes_exactly default_settings enforcing two_owner_store _
              "u1" (store_after_reachable _) default_connection eq_refl)
    as (_ & H1 & H2 & H3 & H4 & _).
  split; [rewrite H1; reflexivity|]. split; [rewrite H2; reflexivity|].
  split; [rewrite H4; reflexivity | rewrite H3; reflexivity].
Defined.

(** ** What a commit writes *)








(** ** The schema of a reachable store *)

(** Row statements leave the set of tables alone. *)
Lemma tables_execute_rows (c : dbapi_connection) (d d' : Database) (q : RowStatement) :
  execute_rows c d q = Ok d' -> tables d' = tables d.
Proof.
  intros H. destruct q; cbn [execute_rows] in H.
  - destruct r; cbn [insert_row] in H;
      unfold insert_user, insert_data_upload, insert_timeseries_data,
        insert_trained_model, insert_forecast, insert_risk_metrics,
        insert_kpi_report in H;
      break_ok H; reflexivity.
  - unfold update_user in H. cbv zeta in H. break_ok H. reflexivity.
  - unfold set_actual_value in H. break_ok H. reflexivity.
  - unfold delete_user in H. break_ok H.
    unfold delete_users_where, delete_trained_models_where, delete_data_uploads_where.
    now destruct (foreign_keys c).
  - unfold delete_data_upload in H. break_ok H. unfold delete_data_uploads_where.
    now destruct (foreign_keys c).
  - unfold delete_timeseries_data in H. break_ok H. reflexivity.
  - unfold delete_trained_model in H. break_ok H. unfold delete_trained_models_where.
    now destruct (foreign_keys c).
  - unfold delete_forecast in H. break_ok H. reflexivity.
  - unfold delete_risk_metrics in H. break_ok H. reflexivity.
  - unfold delete_kpi_report in H. break_ok H. reflexivity.
Qed.

(** A reachable store has no table but those of the seven classes. *)
Lemma reachable_tables (s : Settings) (d : Database) (n : string) :
  reachable s d -> has_table d n = true -> In n table_names.
Proof.
  induction 1 as [|d c st d' _ IH Hc Hex]; [discriminate|].
  intros Hn. destruct st as [| |q]; cbn [execute] in Hex.
  - injection Hex as <-. apply has_table_create_all_only in Hn.
    destruct Hn as [Hn | Hn]; [now apply IH | exact Hn].
  - injection Hex as <-. rewrite has_table_drop_all in Hn.
    apply andb_true_iff in Hn. destruct Hn as [Hn _]. now apply IH.
  - unfold has_table in *. rewrite (tables_execute_rows _ _ _ Hex) in Hn. now apply IH.
Qed.

Lemma no_rows_after_drop (d : Database) :
  (forall m, has_table d m = false -> row_count m d = 0) ->
  no_rows (drop_all metadata d) = true /\
  no_rows (create_all metadata (drop_all metadata d)) = true.
Proof.
  intros H. unfold no_rows. split; apply forallb_forall; intros n _;
    apply Nat.eqb_eq; rewrite ?row_count_create_all;
    now apply row_count_drop_all_metadata.
Qed.

Lemma connect_outcome_new_connection (w : World) (c : dbapi_connection) :
  connect_outcome w = Ok c -> new_connection (settings (env w)) = Ok c.
Proof.
  unfold connect_outcome, fail.
  destruct (pool_size + max_overflow <=? checked_out w)%nat; [discriminate|].
  now destruct (negb (store_up (env w))).
Qed.

Lemma reset_database_confirmed (w : World) (c : dbapi_connection) (confirm : string)
  (rest : list string) :
  stdin w = confirm :: rest -> In confirm confirmations -> connect_outcome w = Ok c ->
  run reset_database w = Ok true /\
  database (exec reset_database w) =
    create_all (Base_metadata w) (drop_all (Base_metadata w) (database w)).
Proof.
  intros Hin Hyes Hc. unfold run, exec. rewrite (reset_database_eq w Hin). cbv zeta.
  rewrite <- lower_yes in Hyes. apply String.eqb_eq in Hyes. rewrite Hyes.
  unfold try_except, bind. rewrite drop_db_eq.
  rewrite connect_outcome_set_stdin, connect_outcome_evolve, Hc, init_db_eq.
  rewrite connect_outcome_evolve, connect_outcome_set_stdin, connect_outcome_evolve, Hc.
  unfold logger, emit, modify, ret.
  cbn [fst snd evolve database log app set_stdin add_event]. now split.
Qed.

(** X6.  A confirmed reset, with the engine able to connect, returns
    [True].  In a process that has imported [src.models], on a store the
    engine produced, it leaves exactly the tables of the seven classes and
    not a single row, and the store it leaves is again one the engine can
    produce.  In a process that has not imported [src.models] no class is
    registered and the store is left as it was, tables and rows. *)
Theorem reset_leaves_empty_schema (w : World) (c : dbapi_connection)
  (confirm : string) (rest : list string) :
  connect_outcome w = Ok c ->
  stdin w = confirm :: rest -> In confirm confirmations ->
  run reset_database w = Ok true /\
  (models_imported w = true -> reachable (settings (env w)) (database w) ->
   (forall n, has_table (database (exec reset_database w)) n = true <->
              In n table_names) /\
   no_rows (database (exec reset_database w)) = true /\
   reachable (settings (env w)) (database (exec reset_database w))) /\
  (models_imported w = false -> database (exec reset_database w) = database w).
Proof.
  intros Hc Hin Hyes.
  destruct (reset_database_confirmed w Hin Hyes Hc) as [Hrun Hdb].
  rewrite Hdb. split; [exact Hrun|]. unfold Base_metadata. split.
  - intros -> Hr. pose proof (reachable_consistent Hr) as Hd.
    split; [|split].
    + intros n. split.
      * intros Hn. apply has_table_create_all_only in Hn.
        destruct Hn as [Hn | Hn]; [|exact Hn].
        rewrite has_table_drop_all in Hn. apply andb_true_iff in Hn.
        destruct Hn as [Hn _]. eapply reachable_tables; eassumption.
      * intros Hn. apply in_map_iff in Hn. destruct Hn as [t [<- Ht]].
        now apply has_table_create_all.
    + destruct (@no_rows_after_drop (database w) (rows_need_table Hd)) as [_ H].
      exact H.
    + pose proof (connect_outcome_new_connection _ Hc) as Hn.
      eapply reach_step with (st := CreateAll); [|exact Hn | reflexivity].
      eapply reach_step with (st := DropAll); [exact Hr | exact Hn | reflexivity].
  - intros ->. reflexivity.
Qed.

Lemma reset_leaves_empty_schema_witness :
  let w := with_models (world_of sample_env sample_store ["Yes"]) in
  let cli := world_of sample_env sample_store ["Yes"] in
  reachable (settings (env w)) (database w) /\
  users (database w) = [alice] /\
  run reset_database w = Ok true /\
  has_table (database (exec reset_database w)) "users" = true /\
  no_rows (database (exec reset_database w)) = true /\
  run reset_database cli = Ok true /\
  database (exec reset_database cli) = sample_store.
Proof.
  cbv zeta.
  assert (Hyes : In "Yes" confirmations) by (unfold confirmations; simpl; tauto).
  destruct (@reset_leaves_empty_schema
              (with_models (world_of sample_env sample_store ["Yes"]))
              enforcing "Yes" [] eq_refl eq_refl Hyes) as (H1 & H2 & _).
  destruct (H2 eq_refl (store_after_reachable sample_script)) as (H3 & H4 & _).
  destruct (@reset_leaves_empty_schema (world_of sample_env sample_store ["Yes"])
              enforcing "Yes" [] eq_refl eq_refl Hyes) as (H5 & _ & H6).
  split; [apply store_after_reachable|]. split; [reflexivity|].
  split; [exact H1|].
  split; [apply H3; simpl; tauto|]. split; [exact H4|].
  split; [exact H5 | exact (H6 eq_refl)].
Defined.

(** ** The reset at the end of the input *)

(** X7.  [reset_database] reads the confirmation outside its [try]: when
    the standard input is at its end the [EOFError] of [input] reaches the
    caller; the warning and the prompt are out, nothing was dropped and the
    store is as before. *)
Theorem reset_database_end_of_input (w : World) :
  stdin w = [] ->
  run reset_database w = Raise end_of_input /\
  is_Exception end_of_input = true /\
  database (exec reset_database w) = database w /\
  checked_out (exec reset_database w) = checked_out w /\
  log (exec reset_database w) = reset_prompt ++ log w.
Proof.
  intros Hin. unfold run, exec, reset_database, input.
  cbv beta iota delta [bind logger emit modify get throw raise].
  cbn [stdin add_event]. rewrite Hin. cbn. repeat split.
Qed.

Lemma reset_database_end_of_input_witness :
  let w := world_of sample_env sample_store [] in
  stdin w = [] /\
  run reset_database w = Raise end_of_input /\
  database (exec reset_database w) = sample_store.
Proof.
  cbv zeta.
  destruct (@reset_database_end_of_input (world_of sample_env sample_store []) eq_refl)
    as (H1 & _ & H3 & _).
  split; [reflexivity|]. split; [exact H1 | exact H3].
Defined.

(** ** [setup_database] and [drop_db] *)

(** X8.  [setup_database] returns a boolean in every world and raises
    nothing: [True] exactly when the engine can connect.  After [True] the
    store has every table that is registered on [Base.metadata]; where
    [src.models] has not been imported that is none, and the store is as it
    was although success is reported.  In every case each table has the
    rows it had and the pool is as before; after [False] the store is
    untouched and the error is in the log. *)
Theorem setup_database_total (w : World) :
  exists b,
    run setup_database w = Ok b /\
    (b = true <-> exists c, connect_outcome w = Ok c) /\
    (b = true ->
     database (exec setup_database w) = create_all (Base_metadata w) (database w) /\
     forall t, In t (Base_metadata w) ->
       has_table (database (exec setup_database w)) (tablename t) = true) /\
    (models_imported w = false -> database (exec setup_database w) = database w) /\
    (b = false ->
     database (exec setup_database w) = database w /\
     exists e rest, connect_outcome w = Raise e /\
       log (exec setup_database w) = setup_error e :: rest) /\
    (forall n, row_count n (database (exec setup_database w))
               = row_count n (database w)) /\
    checked_out (exec setup_database w) = checked_out w.
Proof.
  unfold run, exec. rewrite (setup_database_eq w). cbv zeta.
  destruct (connect_outcome w) as [c | e] eqn:Hc; cbn [fst snd evolve database
    checked_out log app].
  - exists true. split; [reflexivity|]. split; [split; eauto|].
    split; [|split; [|split; [discriminate|]]].
    + intros _. split; [reflexivity|]. intros t Ht. now apply has_table_create_all.
    + unfold Base_metadata. intros ->. reflexivity.
    + split; [|reflexivity]. intros n. apply row_count_create_all.
  - exists false. split; [reflexivity|]. split.
    + split; [discriminate | intros [c H]; discriminate H].
    + split; [discriminate|]. split; [reflexivity|]. split; [|split; reflexivity].
      intros _. split; [reflexivity|]. eexists. eexists. split; reflexivity.
Qed.

Lemma Base_metadata_names (w : World) (n : string) :
  In n (map tablename (Base_metadata w)) -> In n table_names.
Proof. unfold Base_metadata. destruct (models_imported w); [trivial | intros []]. Qed.

(** X9.  Where the engine can connect, [drop_db] returns without an error,
    also on a store that has no table; a second call changes nothing.  After
    it none of the tables registered on [Base.metadata] exists, and the
    other tables are there with their rows.  In a process that has imported
    [src.models], on a store the engine produced, no table and no row is
    left; in a process that has not, the store is as it was. *)
Theorem drop_db_idempotent (w : World) (c : dbapi_connection) :
  connect_outcome w = Ok c ->
  let w1 := exec drop_db w in
  run drop_db w = Ok tt /\
  run drop_db w1 = Ok tt /\
  database (exec drop_db w1) = database w1 /\
  (forall t, In t (Base_metadata w) -> has_table (database w1) (tablename t) = false) /\
  (forall n, ~ In n (map tablename (Base_metadata w)) ->
     has_table (database w1) n = has_table (database w) n /\
     row_count n (database w1) = row_count n (database w)) /\
  (models_imported w = true -> reachable (settings (env w)) (database w) ->
   (forall n, has_table (database w1) n = false) /\ no_rows (database w1) = true) /\
  (models_imported w = false -> database w1 = database w).
Proof.
  intros Hc. cbv zeta. unfold run, exec. rewrite (drop_db_eq w), Hc. cbn [fst snd].
  rewrite drop_db_eq, connect_outcome_evolve, Hc. cbn [fst snd evolve database].
  rewrite Base_metadata_evolve, drop_all_idempotent.
  split; [reflexivity|]. split; [reflexivity|]. split; [reflexivity|].
  split; [|split; [|split]].
  - intros t Ht. rewrite has_table_drop_all.
    assert (Hm : mem (tablename t) (map tablename (Base_metadata w)) = true)
      by (apply mem_In; now apply in_map).
    rewrite Hm. apply andb_false_r.
  - intros n Hn. split.
    + rewrite has_table_drop_all. apply mem_not_In in Hn. rewrite Hn.
      apply andb_true_r.
    + now apply row_count_drop_all_other.
  - unfold Base_metadata. intros -> Hr. pose proof (reachable_consistent Hr) as Hd.
    split.
    + intros n. rewrite has_table_drop_all.
      destruct (has_table (database w) n) eqn:Hn; [|reflexivity].
      pose proof (reachable_tables n Hr Hn) as Hin. apply mem_In in Hin.
      unfold table_names in Hin. rewrite Hin. reflexivity.
    + destruct (@no_rows_after_drop (database w) (rows_need_table Hd)) as [H _].
      exact H.
  - unfold Base_metadata. intros ->. reflexivity.
Qed.

Lemma drop_db_idempotent_witness :
  let w := with_models (world_of sample_env sample_store []) in
  connect_outcome w = Ok enforcing /\
  run drop_db w = Ok tt /\
  run drop_db (exec drop_db w) = Ok tt /\
  has_table (database (exec drop_db w)) "users" = false /\
  no_rows (database (exec drop_db w)) = true /\
  database (exec drop_db (exec drop_db w)) = database (exec drop_db w).
Proof.
  cbv zeta.
  destruct (@drop_db_idempotent (with_models (world_of sample_env sample_store []))
              enforcing eq_refl)
    as (H1 & H2 & H3 & _ & _ & H5 & _).
  destruct (H5 eq_refl (store_after_reachable sample_script)) as [H6 H7].
  split; [reflexivity|]. split; [exact H1|]. split; [exact H2|].
  split; [apply H6|]. split; [exact H7 | exact H3].
Defined.

(** ** [create_admin_user] on every path *)

Lemma admin_failure_not_exception (w : World) (e : exn) :
  admin_failure w = Some e -> is_Exception e = false ->
  pwd_context_hash (env w) "admin123" = Raise e.
Proof.
  unfold admin_failure. intros H He.
  destruct (connect_outcome w) as [c | e0] eqn:Hc.
  - destruct (has_table (database w) User.tablename).
    + destruct (find_admin (database w)); [discriminate|].
      destruct (pwd_context_hash (env w) "admin123") as [h | e0]; [|congruence].
      destruct (insert_user (database w) (admin_row w h)) as [d' | e0] eqn:Hi;
        [discriminate|].
      injection H as ->. rewrite (insert_user_error _ _ Hi) in He. discriminate.
    + injection H as <-. discriminate He.
  - injection H as ->. rewrite (connect_outcome_error _ Hc) in He. discriminate.
Qed.

(** X10.  In every world and on every path [create_admin_user] closes its
    session last: the session holds no transaction afterwards and the pool
    has as many connections out as before.  The committed store is as
    before or has the one new admin row appended to [users].  The operation
    raises only when the hashing capability raises something that is not an
    [Exception]; then this is what it raises, and the store is as before. *)
Theorem create_admin_user_always_closes (w : World) :
  checked_out (exec create_admin_user w) = checked_out w /\
  session (exec create_admin_user w) = fresh_session /\
  env (exec create_admin_user w) = env w /\
  (exists rest, log (exec create_admin_user w) = Closed :: rest) /\
  (database (exec create_admin_user w) = database w \/
   exists h,
     find_admin (database w) = None /\
     pwd_context_hash (env w) "admin123" = Ok h /\
     run create_admin_user w = Ok (Some (admin_row w h)) /\
     database (exec create_admin_user w)
     = set_users (users (database w) ++ [admin_row w h]) (database w)) /\
  (forall e, run create_admin_user w = Raise e ->
     is_Exception e = false /\
     pwd_context_hash (env w) "admin123" = Raise e /\
     database (exec create_admin_user w) = database w).
Proof.
  admin_cases w.
  - cbn [checked_out session env log database set_uuids_drawn set_session evolve
         set_models_imported].
    split; [reflexivity|]. split; [reflexivity|]. split; [reflexivity|].
    split; [eexists; reflexivity|]. split; [now left | discriminate].
  - cbn [checked_out session env log database set_uuids_drawn set_session evolve
         set_models_imported].
    split; [reflexivity|]. split; [reflexivity|]. split; [reflexivity|].
    split; [eexists; reflexivity|]. split; [|discriminate].
    right. exists h. repeat split; try assumption. now apply insert_user_ok.
  - split; [assumption|]. split; [assumption|]. split; [assumption|].
    split; [eexists; eassumption|]. split; [now left | discriminate].
  - split; [assumption|]. split; [assumption|]. split; [assumption|].
    split; [eexists; eassumption|]. split; [now left|].
    intros e0 He0. injection He0 as <-. split; [assumption|]. split; [|assumption].
    now apply admin_failure_not_exception.
Qed.

(** An interrupt while the password is hashed. *)
Lemma create_admin_user_always_closes_witness :
  let w := world_of env_interrupted sample_store [] in
  run create_admin_user w = Raise interrupt /\
  checked_out (exec create_admin_user w) = 0 /\
  database (exec create_admin_user w) = sample_store /\
  log (exec create_admin_user w) = [Closed; Released; Hashed "admin123"; CheckedOut].
Proof.
  cbv zeta.
  destruct (create_admin_user_always_closes (world_of env_interrupted sample_store []))
    as (H1 & _ & _ & _ & _ & H6).
  destruct (H6 interrupt eq_refl) as (_ & _ & H7).
  split; [reflexivity|]. split; [exact H1|]. split; [exact H7 | reflexivity].
Defined.

(** ** The command line *)

(** With no class registered, [reset_database] leaves the store as it is,
    whatever is typed. *)
Lemma reset_database_unregistered (w : World) :
  models_imported w = false -> database (exec reset_database w) = database w.
Proof.
  intros Hm. unfold exec. destruct (stdin w) as [|confirm rest] eqn:Hin.
  - now rewrite (reset_database_at_end w Hin).
  - rewrite (reset_database_eq w Hin). cbv zeta.
    destruct (lower confirm =? "yes"); [|reflexivity].
    unfold try_except, bind. rewrite drop_db_eq.
    rewrite connect_outcome_set_stdin, connect_outcome_evolve.
    destruct (connect_outcome w) as [c | e] eqn:Hc.
    + rewrite init_db_eq.
      rewrite connect_outcome_evolve, connect_outcome_set_stdin,
        connect_outcome_evolve, Hc.
      rewrite !Base_metadata_evolve, !Base_metadata_set_stdin, !Base_metadata_evolve.
      unfold logger, emit, modify, ret.
      cbn [fst snd evolve database log app set_stdin add_event].
      unfold Base_metadata. rewrite Hm. reflexivity.
    + rewrite (connect_outcome_error _ Hc).
      unfold logger, emit, modify, ret, bind. reflexivity.
Qed.

Lemma main_eq (command : string) (w : World) :
  main command w = dispatch command (new_process w).
Proof. reflexivity. Qed.

(** X11.  The command line runs one of the four commands in a new process
    and drops its result.  [db_init.py] does not import [src.models], so in
    that process no class is registered when [setup] or [reset] run: the
    store is left as it was, tables and rows, by [setup], by [reset] whatever
    is typed, and by [check]; [setup] and [check] end normally also when
    they report a failure, [reset] ends normally or with the [EOFError] of
    the prompt.  For any other word [argparse] exits before anything is
    run.  [create-admin] imports [src.models]; it leaves the store as it
    was or with the admin row appended. *)
Theorem command_line_keeps_schema (w : World) (command : string) :
  (mem command commands = false ->
   (exists e, run (main command) w = Raise e /\ exc_class e = SystemExit) /\
   database (exec (main command) w) = database w /\
   log (exec (main command) w) = log w) /\
  (command = "setup" ->
   run (main command) w = Ok tt /\ database (exec (main command) w) = database w) /\
  (command = "check" ->
   run (main command) w = Ok tt /\ database (exec (main command) w) = database w) /\
  (command = "reset" ->
   (run (main command) w = Ok tt \/ run (main command) w = Raise end_of_input) /\
   database (exec (main command) w) = database w) /\
  (command = "create-admin" ->
   models_imported (exec (main command) w) = true /\
   tables (database (exec (main command) w)) = tables (database w) /\
   (database (exec (main command) w) = database w \/
    exists u, User.username u = "admin" /\
      database (exec (main command) w)
      = set_users (users (database w) ++ [u]) (database w))).
Proof.
  unfold run, exec. rewrite main_eq. unfold dispatch.
  split; [|split; [|split; [|split]]].
  - intros H. rewrite H. unfold throw, raise. cbn [fst snd].
    split; [eexists; split; reflexivity|]. now split.
  - intros ->. cbn [mem commands existsb String.eqb Ascii.eqb Bool.eqb orb].
    unfold bind, ret. rewrite (setup_database_eq (new_process w)). cbv zeta.
    destruct (connect_outcome (new_process w)); now split.
  - intros ->. cbn [mem commands existsb String.eqb Ascii.eqb Bool.eqb orb].
    unfold bind, ret. rewrite check_database_connection_eq.
    destruct (connect_outcome (new_process w));
      [destruct (execute_accepts_str (env (new_process w)))|]; now split.
  - intros ->. cbn [mem commands existsb String.eqb Ascii.eqb Bool.eqb orb].
    unfold bind, ret.
    destruct (stdin w) as [|confirm rest] eqn:Hin.
    + rewrite (reset_database_at_end (new_process w) Hin). cbn [fst snd].
      split; [now right | reflexivity].
    + assert (Hd : database (snd (reset_database (new_process w))) = database w).
      { exact (@reset_database_unregistered (new_process w) eq_refl). }
      destruct (@reset_database_returns (new_process w) confirm rest Hin) as [b Hb].
      unfold run in Hb.
      destruct (reset_database (new_process w)) as [[r | e] w1]; cbn [fst snd] in *;
        [|discriminate].
      split; [now left | exact Hd].
  - intros ->. cbn [mem commands existsb String.eqb Ascii.eqb Bool.eqb orb].
    unfold bind, ret.
    pose proof (create_admin_user_outcome (new_process w)) as Hout.
    unfold run, exec in Hout.
    destruct (create_admin_user (new_process w)) as [[r | e] w1]; cbn [fst snd] in *;
      inversion Hout; subst;
      cbn [models_imported database set_uuids_drawn set_session evolve
           set_models_imported new_process set_checked_out tables] in *.
    all: try (split; [reflexivity|]; split; [reflexivity|]; now left).
    all: try (split; [assumption|]; split; [congruence|]; left; assumption).
    split; [reflexivity|].
    match goal with
    | Hi : insert_user _ _ = Ok _ |- _ => apply insert_user_ok in Hi; subst
    end.
    split; [reflexivity|]. right. eexists. split; [|reflexivity]. reflexivity.
Qed.

Lemma command_line_keeps_schema_witness :
  let w := world_of sample_env empty_database ["yes"] in
  run (main "setup") w = Ok tt /\
  database (exec (main "setup") w) = empty_database /\
  run (main "reset") (world_of sample_env sample_store ["yes"]) = Ok tt /\
  database (exec (main "reset") (world_of sample_env sample_store ["yes"]))
  = sample_store.
Proof.
  cbv zeta.
  destruct (@command_line_keeps_schema (world_of sample_env empty_database ["yes"])
              "setup") as (_ & H & _).
  destruct (H eq_refl) as [H1 H2].
  destruct (@command_line_keeps_schema (world_of sample_env sample_store ["yes"])
              "reset") as (_ & _ & _ & H3 & _).
  destruct (H3 eq_refl) as [_ H4].
  split; [exact H1|]. split; [exact H2|]. split; [vm_compute; reflexivity | exact H4].
Defined.

(** ** The enumerations *)

(** X12.  The values of each enumeration are distinct strings: looking a
    member up by its value gives the member back, and a string that is the
    value of no member is not accepted. *)
Theorem enum_values_round_trip :
  (forall r, UserRole_of_value (UserRole_value r) = Some r) /\
  (forall s r, UserRole_of_value s = Some r -> UserRole_value r = s) /\
  (forall m, ModelType_of_value (ModelType_value m) = Some m) /\
  (forall s m, ModelType_of_value s = Some m -> ModelType_value m = s) /\
  (forall f, ForecastType_of_value (ForecastType_value f) = Some f) /\
  (forall s f, ForecastType_of_value s = Some f -> ForecastType_value f = s).
Proof.
  repeat split.
  - intros []; reflexivity.
  - intros s r. unfold UserRole_of_value. case_names; intros H;
      try discriminate H; injection H as <-; reflexivity.
  - intros []; reflexivity.
  - intros s r. unfold ModelType_of_value. case_names; intros H;
      try discriminate H; injection H as <-; reflexivity.
  - intros []; reflexivity.
  - intros s r. unfold ForecastType_of_value. case_names; intros H;
      try discriminate H; injection H as <-; reflexivity.
Qed.

(** ** The bound of the pool *)

Lemma pool_checkout_bounded (w : World) :
  checked_out w <= capacity -> checked_out (snd (pool_checkout w)) <= capacity.
Proof.
  intros H. rewrite pool_checkout_eq. unfold connect_outcome, fail.
  fold capacity.
  destruct (capacity <=? checked_out w)%nat eqn:E; [exact H|].
  apply Nat.leb_gt in E.
  destruct (negb (store_up (env w))); [exact H|].
  destruct (new_connection (settings (env w))); [|exact H].
  cbn [snd checked_out add_event set_checked_out]. lia.
Qed.

Lemma session_begin_bounded (w : World) :
  checked_out w <= capacity -> checked_out (snd (session_begin w)) <= capacity.
Proof.
  intros H. rewrite session_begin_eq. unfold pending_rollback, throw, raise.
  destruct (inactive (session w)); [exact H|].
  destruct (transaction (session w)); [exact H|].
  pose proof (@pool_checkout_bounded w H) as Hp. rewrite pool_checkout_eq in Hp.
  destruct (connect_outcome w); [|exact H].
  cbn [snd checked_out begun set_session add_event set_checked_out] in *. exact Hp.
Qed.

Lemma ended_bounded (w : World) :
  checked_out w <= capacity -> checked_out (ended w) <= capacity.
Proof.
  intros H. destruct (ended_facts w) as (_ & _ & _ & _ & _ & Hc & _). lia.
Qed.

Lemma run_step_bounded (s : Step) (w : World) :
  checked_out w <= capacity -> checked_out (snd (run_step s w)) <= capacity.
Proof.
  intros H.
  assert (Hflush : checked_out (snd (session_flush w)) <= capacity).
  { unfold session_flush, bind, get, pending_rollback, throw, raise, ret.
    destruct (inactive (session w)); [exact H|].
    destruct (new (session w)); [exact H|].
    pose proof (@session_begin_bounded w H) as Hb.
    destruct (session_begin w) as [[t | e] w1]; cbn [fst snd] in *; [|exact Hb].
    destruct (insert_rows (foreign_keys (conn t)) (view t)
                (flush_order (map (with_defaults (utcnow (env w1))) (new (session w1)))));
      unfold put_session, modify; exact Hb. }
  destruct s; cbn [run_step].
  - exact H.
  - exact Hflush.
  - unfold session_commit, bind, get.
    destruct (session_flush w) as [[[] | e] w1]; cbn [fst snd] in *; [|exact Hflush].
    assert (H2 : checked_out
                   (snd (match transaction (session w1) with
                         | Some t => modify (set_database (view t))
                         | None => ret tt
                         end w1)) <= capacity).
    { destruct (transaction (session w1)); exact Hflush. }
    destruct (match transaction (session w1) with
              | Some t => modify (set_database (view t))
              | None => ret tt
              end w1) as [[[] | e] w2]; cbn [fst snd] in *; [|exact H2].
    rewrite end_transaction_eq. fold (ended w2). rewrite <- ended_eq.
    unfold emit, modify. cbn [snd checked_out add_event]. now apply ended_bounded.
  - rewrite session_rollback_eq. cbn [snd checked_out add_event].
    now apply ended_bounded.
  - unfold session_execute, bind, get, lift.
    pose proof (@session_begin_bounded w H) as Hb.
    destruct (session_begin w) as [[t | e] w1]; cbn [fst snd] in *; [|exact Hb].
    destruct (execute_rows (conn t) (view t) st); [|exact Hb].
    unfold put_session, modify. exact Hb.
  - exact H.
Qed.

(** X13.  The pool is bounded by [pool_size + max_overflow] = 30: whatever
    a unit of work does with its session, the number of connections out
    never exceeds 30 after any of its steps; and with 30 connections out a
    session that needs a connection gets the pool's timeout error and
    nothing changes. *)
Theorem pool_never_exceeds_capacity (w : World) (uow : list Step) :
  checked_out w <= capacity ->
  capacity = 30 /\
  (forall n, checked_out (exec (run_steps (firstn n uow)) w) <= capacity) /\
  (checked_out w = capacity -> session w = fresh_session ->
   run session_begin w = Raise pool_timeout /\ exec session_begin w = w).
Proof.
  intros H. split; [reflexivity|]. split.
  - intros n. generalize (firstn n uow). clear uow n. intros l. revert w H.
    induction l as [|s l IH]; intros w H; [exact H|].
    unfold exec in *. cbn [run_steps]. unfold bind.
    pose proof (@run_step_bounded s w H) as Hs.
    destruct (run_step s w) as [[[] | e] w1]; cbn [fst snd] in *; [now apply IH | exact Hs].
  - intros Hfull Hs. unfold run, exec. rewrite session_begin_eq, Hs.
    cbn [inactive transaction fresh_session]. unfold connect_outcome.
    fold capacity. rewrite Hfull, Nat.leb_refl. now split.
Qed.

Lemma pool_never_exceeds_capacity_witness :
  checked_out exhausted_world <= capacity /\
  checked_out exhausted_world = 30 /\
  run session_begin exhausted_world = Raise pool_timeout /\
  checked_out (exec (run_steps [Add (RowUser carol); Commit]) exhausted_world) <= capacity.
Proof.
  assert (H : checked_out exhausted_world <= capacity) by (cbn; lia).
  destruct (@pool_never_exceeds_capacity exhausted_world [Add (RowUser carol); Commit] H)
    as (_ & H2 & H3).
  destruct (H3 eq_refl eq_refl) as [H4 _].
  split; [exact H|]. split; [reflexivity|]. split; [exact H4|]. exact (H2 2).
Defined.
